(** * Battery monitor (battery_monitor.py): model and verification

    The script samples an INA219 power sensor and an AHT25 environmental
    sensor, derives battery metrics and rotates four pages on a 16x2
    character display.

    Python floats are IEEE 754 binary64 numbers.  They are modelled with the
    executable specification of binary floating point of the standard
    library ([SpecFloat], precision 53, maximal exponent 1024), so every
    definition below evaluates on concrete inputs. *)

From Stdlib Require Import ZArith Bool List String Ascii Lia QArith Qabs Qminmax.
From Stdlib Require Import Floats.SpecFloat.
Import ListNotations.

Local Open Scope Z_scope.

(** ** Binary64 arithmetic *)

Definition float : Type := spec_float.

Module F64.

Definition prec : Z := 53.
Definition emax : Z := 1024.

Definition valid (x : float) : bool := valid_binary prec emax x.

Definition add (x y : float) : float := SFadd prec emax x y.
Definition sub (x y : float) : float := SFsub prec emax x y.
Definition mul (x y : float) : float := SFmul prec emax x y.
(** IEEE division: a finite number divided by zero is an infinity.  Python
    raises [ZeroDivisionError] instead, see [Py.truediv]. *)
Definition div (x y : float) : float := SFdiv prec emax x y.

Definition ltb (x y : float) : bool := SFltb x y.
Definition leb (x y : float) : bool := SFleb x y.
Definition eqb (x y : float) : bool := SFeqb x y.
(** Python's [x > y] and [x >= y]. *)
Definition gtb (x y : float) : bool := SFltb y x.
Definition geb (x y : float) : bool := SFleb y x.

Definition is_nan (x : float) : bool :=
  match x with S754_nan => true | _ => false end.

Definition is_zero (x : float) : bool :=
  match x with S754_zero _ => true | _ => false end.

Definition is_finite (x : float) : bool :=
  match x with S754_zero _ | S754_finite _ _ _ => true | _ => false end.

Definition is_infinite (x : float) : bool :=
  match x with S754_infinity _ => true | _ => false end.

Definition sign_bit (x : float) : bool :=
  match x with
  | S754_zero s | S754_infinity s | S754_finite s _ _ => s
  | S754_nan => false
  end.

(** The real number a finite float stands for, as an exact rational
    (zero for the values that are not numbers). *)
Definition to_Q (x : float) : Q :=
  match x with
  | S754_finite s m e =>
      match e with
      | Z0 => Qmake (cond_Zopp s (Zpos m)) 1
      | Zpos p => Qmake (cond_Zopp s (Zpos m * Z.pow_pos 2 p)) 1
      | Zneg p => Qmake (cond_Zopp s (Zpos m)) (Pos.pow 2 p)
      end
  | _ => 0%Q
  end.

(** [float(z)] for an integer: the nearest binary64 number. *)
Definition of_Z (z : Z) : float := binary_normalize prec emax z 0 false.

(** [nearest num den x]: [x] is a finite binary64 number at distance at most
    half a unit in the last place of [x] from the rational [num/den]; this
    is how a decimal literal denotes a float. *)
Definition nearest (num : Z) (den : positive) (x : float) : bool :=
  match x with
  | S754_finite s m e =>
      valid x &&
      (let v := to_Q x in
       let ulp := to_Q (S754_finite false 1 e) in
       Qle_bool (Qabs (v - Qmake num den) * 2) ulp)
  | _ => false
  end.

(** The value of a finite number in units of [2^-1074], an integer. *)
Definition units (x : float) : Z :=
  match x with
  | S754_finite s m e => cond_Zopp s (Zpos m * 2 ^ (e + 1074))
  | _ => 0
  end.

End F64.

(** ** The Python values and operators the script uses *)

Module Py.

(** Exceptions.  [KeyboardInterrupt] derives from [BaseException] only; the
    other ones derive from [Exception].  [DeviceError] stands for whatever a
    driver raises when a transfer fails ([OSError], [RuntimeError], ...). *)
Inductive exn : Type :=
| KeyboardInterrupt
| ZeroDivisionError
| ValueError
| OverflowError
| DeviceError (msg : string).

Definition is_Exception (e : exn) : bool :=
  match e with KeyboardInterrupt => false | _ => true end.

(** [str(e)] *)
Definition exn_str (e : exn) : string :=
  match e with
  | KeyboardInterrupt => ""
  | ZeroDivisionError => "float division by zero"
  | ValueError => "cannot convert float NaN to integer"
  | OverflowError => "cannot convert float infinity to integer"
  | DeviceError msg => msg
  end.

Inductive result (A : Type) : Type :=
| Ok (a : A)
| Raise (e : exn).
Arguments Ok {A} a.
Arguments Raise {A} e.

(** A number is an [int] or a [float]. *)
Inductive num : Type :=
| Int (z : Z)
| Float (f : float).

(** The float an arithmetic operator or a comparison sees.  The script only
    mixes floats with the literals 0 and 100, which convert exactly. *)
Definition as_float (a : num) : float :=
  match a with Int z => F64.of_Z z | Float f => f end.

Definition lt (a b : num) : bool :=
  match a, b with
  | Int x, Int y => x <? y
  | _, _ => F64.ltb (as_float a) (as_float b)
  end.

Definition gt (a b : num) : bool := lt b a.

Definition eq (a b : num) : bool :=
  match a, b with
  | Int x, Int y => x =? y
  | _, _ => F64.eqb (as_float a) (as_float b)
  end.

(** [min(a, b)] keeps its first argument unless the second is strictly
    smaller; [max(a, b)] keeps the first unless the second is strictly
    greater. *)
Definition min (a b : num) : num := if lt b a then b else a.
Definition max (a b : num) : num := if gt b a then b else a.

Definition sub (a b : num) : num :=
  match a, b with
  | Int x, Int y => Int (x - y)
  | _, _ => Float (F64.sub (as_float a) (as_float b))
  end.

Definition add (a b : num) : num :=
  match a, b with
  | Int x, Int y => Int (x + y)
  | _, _ => Float (F64.add (as_float a) (as_float b))
  end.

(** [x / y] on floats. *)
Definition truediv (x y : float) : result float :=
  if F64.is_zero y then Raise ZeroDivisionError else Ok (F64.div x y).

(** [int(a)]: truncation toward zero. *)
Definition int_of_float (x : float) : result Z :=
  match x with
  | S754_nan => Raise ValueError
  | S754_infinity _ => Raise OverflowError
  | S754_zero _ => Ok 0
  | S754_finite s m e =>
      Ok (cond_Zopp s (match e with
                       | Z0 => Zpos m
                       | Zpos p => Zpos m * Z.pow_pos 2 p
                       | Zneg p => Zpos m / Z.pow_pos 2 p
                       end))
  end.

Definition int (a : num) : result Z :=
  match a with
  | Int z => Ok z
  | Float f => int_of_float f
  end.

End Py.

(** ** Text: [str(int)], [format(x, '.Nf')], [format(s, '<N')] *)

Module Fmt.

Local Open Scope string_scope.

Definition digit_char (d : Z) : ascii := ascii_of_nat (48 + Z.to_nat d).

Fixpoint digits_acc (fuel : nat) (n : Z) (acc : string) : string :=
  match fuel with
  | O => acc
  | S k =>
      let acc' := String (digit_char (n mod 10)) acc in
      if Z.eqb (n / 10) 0 then acc' else digits_acc k (n / 10) acc'
  end.

(** Decimal digits of a non-negative integer. *)
Definition str_nonneg (n : Z) : string :=
  digits_acc (S (Z.to_nat (Z.log2 n))) n "".

(** [str(z)] *)
Definition str_int (z : Z) : string :=
  if Z.ltb z 0 then "-" ++ str_nonneg (- z) else str_nonneg z.

Fixpoint repeat_char (c : ascii) (n : nat) : string :=
  match n with
  | O => ""
  | S k => String c (repeat_char c k)
  end.

(** [format(s, '<w')]: pad with spaces on the right up to width [w]. *)
Definition ljust (w : nat) (s : string) : string :=
  s ++ repeat_char " "%char (w - String.length s).

Definition zfill (w : nat) (s : string) : string :=
  repeat_char "0"%char (w - String.length s) ++ s.

(** Nearest integer to [num/den], ties to the even one ([0 < den]). *)
Definition round_half_even (num den : Z) : Z :=
  let q := num / den in
  match 2 * (num mod den) ?= den with
  | Lt => q
  | Gt => q + 1
  | Eq => if Z.even q then q else q + 1
  end.

(** [m * 2^e * 10^p] rounded to the nearest integer: the digits that
    [format(x, '.pf')] prints are those of the exact binary value, correctly
    rounded. *)
Definition scaled (p : nat) (m : positive) (e : Z) : Z :=
  match e with
  | Z0 => Zpos m * 10 ^ Z.of_nat p
  | Zpos k => Zpos m * Z.pow_pos 2 k * 10 ^ Z.of_nat p
  | Zneg k => round_half_even (Zpos m * 10 ^ Z.of_nat p) (Z.pow_pos 2 k)
  end.

Definition fixed (p : nat) (n : Z) : string :=
  str_nonneg (n / 10 ^ Z.of_nat p) ++
  match p with
  | O => ""
  | _ => "." ++ zfill p (str_nonneg (n mod 10 ^ Z.of_nat p))
  end.

Definition sign_str (s : bool) : string := if s then "-" else "".

(** [format(x, '.pf')] *)
Definition format_f (p : nat) (x : float) : string :=
  match x with
  | S754_nan => "nan"
  | S754_infinity s => sign_str s ++ "inf"
  | S754_zero s => sign_str s ++ fixed p 0
  | S754_finite s m e => sign_str s ++ fixed p (scaled p m e)
  end.

End Fmt.

(** ** Configuration constants (lines 8-14) *)

Record config : Type := {
  PAGE_DELAY : Z;
  SHUNT_RESISTANCE : float;
  VOLTAGE_HEALTHY : float;
  VOLTAGE_MODERATE : float;
  MAX_VOLTAGE : float;
  MIN_VOLTAGE : float
}.

(** The binary64 numbers the decimal literals of the script denote. *)
Definition f_0_1 : float := S754_finite false 7205759403792794 (-56).
Definition f_11_5 : float := S754_finite false 6473924464345088 (-49).
Definition f_10_5 : float := S754_finite false 5910974510923776 (-49).
Definition f_12_6 : float := S754_finite false 7093169413108531 (-49).
Definition f_9_0 : float := S754_finite false 5066549580791808 (-49).
Definition f_1000_0 : float := S754_finite false 8796093022208000 (-43).
Definition f_0_0001 : float := S754_finite false 7378697629483821 (-66).
Definition f_0_0 : float := S754_zero false.
Definition f_100 : float := S754_finite false 7036874417766400 (-46).

Definition constants : config := {|
  PAGE_DELAY := 5;
  SHUNT_RESISTANCE := f_0_1;
  VOLTAGE_HEALTHY := f_11_5;
  VOLTAGE_MODERATE := f_10_5;
  MAX_VOLTAGE := f_12_6;
  MIN_VOLTAGE := f_9_0
|}.

(** ** The collaborators: sensors, display, clock *)

(** What the outside world answers.  The [n]-th access of a sensor property
    returns a reading or raises; the [n]-th call on the display and the
    [n]-th sleep succeed or raise (a [KeyboardInterrupt] arrives there). *)
Record world : Type := {
  hw_init : option Py.exn;
  ina219_bus_voltage : nat -> Py.result float;
  ina219_current : nat -> Py.result float;
  aht25_temperature : nat -> Py.result float;
  aht25_relative_humidity : nat -> Py.result float;
  lcd_fault : nat -> option Py.exn;
  sleep_fault : nat -> option Py.exn
}.

Inductive lcd_op : Type :=
| Clear
| WriteString (s : string)
| Crlf.

(** The state of the process: the global [page], what the display and the
    standard output have received so far, and how many times each
    collaborator has been called. *)
Record state : Type := {
  page : Z;
  lcd : list lcd_op;
  stdout : list string;
  n_bus_voltage : nat;
  n_current : nat;
  n_temperature : nat;
  n_humidity : nat;
  n_lcd : nat;
  n_sleep : nat
}.

Definition set_page (p : Z) (s : state) : state :=
  {| page := p; lcd := lcd s; stdout := stdout s;
     n_bus_voltage := n_bus_voltage s; n_current := n_current s;
     n_temperature := n_temperature s; n_humidity := n_humidity s;
     n_lcd := n_lcd s; n_sleep := n_sleep s |}.

Definition tick_bus_voltage (s : state) : state :=
  {| page := page s; lcd := lcd s; stdout := stdout s;
     n_bus_voltage := S (n_bus_voltage s); n_current := n_current s;
     n_temperature := n_temperature s; n_humidity := n_humidity s;
     n_lcd := n_lcd s; n_sleep := n_sleep s |}.

Definition tick_current (s : state) : state :=
  {| page := page s; lcd := lcd s; stdout := stdout s;
     n_bus_voltage := n_bus_voltage s; n_current := S (n_current s);
     n_temperature := n_temperature s; n_humidity := n_humidity s;
     n_lcd := n_lcd s; n_sleep := n_sleep s |}.

Definition tick_temperature (s : state) : state :=
  {| page := page s; lcd := lcd s; stdout := stdout s;
     n_bus_voltage := n_bus_voltage s; n_current := n_current s;
     n_temperature := S (n_temperature s); n_humidity := n_humidity s;
     n_lcd := n_lcd s; n_sleep := n_sleep s |}.

Definition tick_humidity (s : state) : state :=
  {| page := page s; lcd := lcd s; stdout := stdout s;
     n_bus_voltage := n_bus_voltage s; n_current := n_current s;
     n_temperature := n_temperature s; n_humidity := S (n_humidity s);
     n_lcd := n_lcd s; n_sleep := n_sleep s |}.

(** A display call that went through: counted and logged. *)
Definition lcd_done (op : lcd_op) (s : state) : state :=
  {| page := page s; lcd := lcd s ++ [op]; stdout := stdout s;
     n_bus_voltage := n_bus_voltage s; n_current := n_current s;
     n_temperature := n_temperature s; n_humidity := n_humidity s;
     n_lcd := S (n_lcd s); n_sleep := n_sleep s |}.

(** A display call that raised: counted, nothing shown. *)
Definition lcd_failed (s : state) : state :=
  {| page := page s; lcd := lcd s; stdout := stdout s;
     n_bus_voltage := n_bus_voltage s; n_current := n_current s;
     n_temperature := n_temperature s; n_humidity := n_humidity s;
     n_lcd := S (n_lcd s); n_sleep := n_sleep s |}.

Definition tick_sleep (s : state) : state :=
  {| page := page s; lcd := lcd s; stdout := stdout s;
     n_bus_voltage := n_bus_voltage s; n_current := n_current s;
     n_temperature := n_temperature s; n_humidity := n_humidity s;
     n_lcd := n_lcd s; n_sleep := S (n_sleep s) |}.

Definition printed (line : string) (s : state) : state :=
  {| page := page s; lcd := lcd s; stdout := stdout s ++ [line];
     n_bus_voltage := n_bus_voltage s; n_current := n_current s;
     n_temperature := n_temperature s; n_humidity := n_humidity s;
     n_lcd := n_lcd s; n_sleep := n_sleep s |}.

(** ** A state and exception monad for the statements of the script *)

Definition M (A : Type) : Type := state -> Py.result A * state.

Definition ret {A : Type} (a : A) : M A := fun s => (Py.Ok a, s).

Definition raise {A : Type} (e : Py.exn) : M A := fun s => (Py.Raise e, s).

Definition bind {A B : Type} (c : M A) (k : A -> M B) : M B :=
  fun s =>
    match c s with
    | (Py.Ok a, s') => k a s'
    | (Py.Raise e, s') => (Py.Raise e, s')
    end.

Definition lift {A : Type} (r : Py.result A) : M A := fun s => (r, s).

Declare Scope py_scope.
Delimit Scope py_scope with py.
Notation "x <- c ;; k" := (bind c (fun x => k))
  (at level 61, c at next level, right associativity) : py_scope.
Notation "c ;; k" := (bind c (fun _ => k))
  (at level 61, right associativity) : py_scope.

(** ** The program *)

Section Program.

Variable cfg : config.
Variable w : world.

Local Open Scope py_scope.

(** lines 22-29 *)
Definition get_battery_status (voltage : float) : string :=
  if F64.geb voltage (VOLTAGE_HEALTHY cfg) then "Healthy"%string
  else if F64.geb voltage (VOLTAGE_MODERATE cfg) then "Moderate"%string
  else "Critical"%string.

(** line 40: [(bus_v / current_a) if current_a > 0.0001 else 0.0] *)
Definition impedance (bus_v current_a : float) : Py.result float :=
  if F64.gtb current_a f_0_0001 then Py.truediv bus_v current_a
  else Py.Ok f_0_0.

(** The argument of the clamp on line 41:
    [(bus_v - MIN_VOLTAGE)/(MAX_VOLTAGE-MIN_VOLTAGE)*100] *)
Definition interpolation (bus_v : float) : Py.result float :=
  match Py.truediv (F64.sub bus_v (MIN_VOLTAGE cfg))
                   (F64.sub (MAX_VOLTAGE cfg) (MIN_VOLTAGE cfg)) with
  | Py.Ok q => Py.Ok (F64.mul q (F64.of_Z 100))
  | Py.Raise e => Py.Raise e
  end.

(** line 41: [max(0, min(100, ...))] *)
Definition clamp (x : float) : Py.num :=
  Py.max (Py.Int 0) (Py.min (Py.Int 100) (Py.Float x)).

Definition soc (bus_v : float) : Py.result Py.num :=
  match interpolation bus_v with
  | Py.Ok x => Py.Ok (clamp x)
  | Py.Raise e => Py.Raise e
  end.

(** line 42 *)
Definition dod (soc : Py.num) : Py.num := Py.sub (Py.Int 100) soc.

(** Property accesses and calls on the collaborators. *)
Definition read_bus_voltage : M float :=
  fun s => (ina219_bus_voltage w (n_bus_voltage s), tick_bus_voltage s).

Definition read_current : M float :=
  fun s => (ina219_current w (n_current s), tick_current s).

Definition read_temperature : M float :=
  fun s => (aht25_temperature w (n_temperature s), tick_temperature s).

Definition read_relative_humidity : M float :=
  fun s => (aht25_relative_humidity w (n_humidity s), tick_humidity s).

Definition lcd_call (op : lcd_op) : M unit :=
  fun s =>
    match lcd_fault w (n_lcd s) with
    | None => (Py.Ok tt, lcd_done op s)
    | Some e => (Py.Raise e, lcd_failed s)
    end.

Definition sleep (seconds : Z) : M unit :=
  fun s =>
    match sleep_fault w (n_sleep s) with
    | None => (Py.Ok tt, tick_sleep s)
    | Some e => (Py.Raise e, tick_sleep s)
    end.

Definition print (line : string) : M unit :=
  fun s => (Py.Ok tt, printed line s).

Definition get_page : M Z := fun s => (Py.Ok (page s), s).

Definition assign_page (p : Z) : M unit := fun s => (Py.Ok tt, set_page p s).

(** The texts of the four pages (lines 50-64). *)
Definition line_status (status : string) : string :=
  ("Battery:" ++ Fmt.ljust 7 status)%string.

Definition line_vi (bus_v current : float) : string :=
  ("V:" ++ Fmt.format_f 2 bus_v ++ " I:" ++ Fmt.format_f 0 current ++ "mA")%string.

Definition line_th (temp hum : float) : string :=
  ("T:" ++ Fmt.format_f 1 temp ++ " H:" ++ Fmt.format_f 0 hum ++ "%")%string.

Definition line_soc (n : Z) : string :=
  ("SOC:" ++ Fmt.str_int n ++ "% SOH:OFF")%string.

Definition line_dod (n : Z) (z : float) : string :=
  ("DOD:" ++ Fmt.str_int n ++ "% Z:" ++ Fmt.format_f 1 z ++ "R")%string.

(** lines 48-64: the [if]/[elif] chain has no [else] *)
Definition show (pg : Z) (status : string) (bus_v temp hum z : float)
    (soc_v dod_v : Py.num) : M unit :=
  lcd_call Clear ;;
  if pg =? 0 then
    lcd_call (WriteString (line_status status)) ;;
    lcd_call Crlf ;;
    current <- read_current ;;
    lcd_call (WriteString (line_vi bus_v current))
  else if pg =? 1 then
    lcd_call (WriteString (line_status status)) ;;
    lcd_call Crlf ;;
    lcd_call (WriteString (line_th temp hum))
  else if pg =? 2 then
    lcd_call (WriteString "SVM:OFF") ;;
    lcd_call Crlf ;;
    n <- lift (Py.int soc_v) ;;
    lcd_call (WriteString (line_soc n))
  else if pg =? 3 then
    lcd_call (WriteString "SVM:OFF") ;;
    lcd_call Crlf ;;
    n <- lift (Py.int dod_v) ;;
    lcd_call (WriteString (line_dod n z))
  else ret tt.

(** lines 37-64: sample, derive, display *)
Definition sample_and_show : M unit :=
  bus_v <- read_bus_voltage ;;
  current <- read_current ;;
  current_a <- lift (Py.truediv current f_1000_0) ;;
  z <- lift (impedance bus_v current_a) ;;
  soc_v <- lift (soc bus_v) ;;
  let dod_v := dod soc_v in
  temp <- read_temperature ;;
  hum <- read_relative_humidity ;;
  let status := get_battery_status bus_v in
  pg <- get_page ;;
  show pg status bus_v temp hum z soc_v dod_v.

(** lines 66-67 *)
Definition advance : M unit :=
  pg <- get_page ;;
  assign_page ((pg + 1) mod 4) ;;
  sleep (PAGE_DELAY cfg).

(** One iteration of the [while True] loop (lines 37-67). *)
Definition cycle : M unit := sample_and_show ;; advance.

(** How the process stands after some cycles. *)
Inductive outcome : Type :=
| Looping
| Finished
| Uncaught (e : Py.exn).

(** The process exit status, as the invoking shell reports it: 0 when the
    script runs to its end, 1 when an exception derived from [Exception]
    escapes, 130 (128 + SIGINT) when a [KeyboardInterrupt] escapes, because
    the interpreter (CPython 3.8 and later) then ends the process by that
    signal. *)
Definition exit_status (o : outcome) : option Z :=
  match o with
  | Looping => None
  | Finished => Some 0
  | Uncaught e => if Py.is_Exception e then Some 1 else Some 130
  end.

Definition finish (c : M unit) (s : state) : outcome * state :=
  match c s with
  | (Py.Ok _, s') => (Finished, s')
  | (Py.Raise e, s') => (Uncaught e, s')
  end.

(** lines 69-76: the two [except] clauses *)
Definition handler (e : Py.exn) : M unit :=
  if Py.is_Exception e then
    lcd_call Clear ;;
    lcd_call (WriteString "Error Occurred") ;;
    print ("Error: " ++ Py.exn_str e)
  else
    lcd_call Clear ;;
    lcd_call (WriteString "System Stopped") ;;
    print "Battery monitoring stopped by user".

(** lines 36-67: the loop runs until an iteration raises; [fuel] bounds the
    number of iterations observed. *)
Fixpoint cycles (fuel : nat) (s : state) : option Py.exn * state :=
  match fuel with
  | O => (None, s)
  | S k =>
      match cycle s with
      | (Py.Ok _, s') => cycles k s'
      | (Py.Raise e, s') => (Some e, s')
      end
  end.

(** lines 35-76: [try] the loop, [except] run the handler; the script ends
    there. *)
Definition loop (fuel : nat) (s : state) : outcome * state :=
  match cycles fuel s with
  | (None, s') => (Looping, s')
  | (Some e, s') => finish (handler e) s'
  end.

(** The state at line 32, after the collaborators were constructed. *)
Definition boot : state :=
  {| page := 0; lcd := []; stdout := [];
     n_bus_voltage := 0; n_current := 0; n_temperature := 0;
     n_humidity := 0; n_lcd := 0; n_sleep := 0 |}.

(** The whole script. *)
Definition main (fuel : nat) : outcome * state :=
  match hw_init w with
  | Some e => (Uncaught e, boot)
  | None => loop fuel (printed "Battery monitoring system started..." boot)
  end.

End Program.

(** ** Sample readings and worlds *)

(** A world where every collaborator works: constant readings. *)
Definition steady (bus_v current temp hum : float) : world :=
  {| hw_init := None;
     ina219_bus_voltage := fun _ => Py.Ok bus_v;
     ina219_current := fun _ => Py.Ok current;
     aht25_temperature := fun _ => Py.Ok temp;
     aht25_relative_humidity := fun _ => Py.Ok hum;
     lcd_fault := fun _ => None;
     sleep_fault := fun _ => None |}.

(** 12.0 V, 500 mA, 25 C, 40 %, 800 mA, 24 ohm and 0.5 mA as binary64
    numbers. *)
Definition f_12_0 : float := S754_finite false 6755399441055744 (-49).
Definition f_500 : float := S754_finite false 8796093022208000 (-44).
Definition f_25 : float := S754_finite false 7036874417766400 (-48).
Definition f_40 : float := S754_finite false 5629499534213120 (-47).
Definition f_800 : float := S754_finite false 7036874417766400 (-43).
Definition f_24 : float := S754_finite false 6755399441055744 (-48).
Definition f_0_5 : float := S754_finite false 4503599627370496 (-53).

(** [MAX_VOLTAGE - MIN_VOLTAGE] of [constants], as binary64 computes it. *)
Definition span : float := S754_finite false 8106479329266892 (-51).

(** [2^1008], far above any voltage a sensor reports. *)
Definition f_huge : float := S754_finite false 4503599627370496 956.

(** A power sensor whose current reading changes between two accesses:
    500 mA at the first, 800 mA afterwards. *)
Definition drifting : world :=
  {| hw_init := None;
     ina219_bus_voltage := fun _ => Py.Ok f_12_0;
     ina219_current := fun n => match n with O => Py.Ok f_500 | _ => Py.Ok f_800 end;
     aht25_temperature := fun _ => Py.Ok f_25;
     aht25_relative_humidity := fun _ => Py.Ok f_40;
     lcd_fault := fun _ => None;
     sleep_fault := fun _ => None |}.

(** A power sensor that fails at the first read. *)
Definition dead_sensor : world :=
  {| hw_init := None;
     ina219_bus_voltage := fun _ => Py.Raise (Py.DeviceError "[Errno 121] Remote I/O error");
     ina219_current := fun _ => Py.Ok f_500;
     aht25_temperature := fun _ => Py.Ok f_25;
     aht25_relative_humidity := fun _ => Py.Ok f_40;
     lcd_fault := fun _ => None;
     sleep_fault := fun _ => None |}.

(** A display that refuses every call. *)
Definition dead_display : world :=
  {| hw_init := None;
     ina219_bus_voltage := fun _ => Py.Ok f_12_0;
     ina219_current := fun _ => Py.Ok f_500;
     aht25_temperature := fun _ => Py.Ok f_25;
     aht25_relative_humidity := fun _ => Py.Ok f_40;
     lcd_fault := fun _ => Some (Py.DeviceError "[Errno 5] Input/output error");
     sleep_fault := fun _ => None |}.

(** Calibration bounds in the wrong order, and equal ones. *)
Definition swapped : config :=
  {| PAGE_DELAY := 5; SHUNT_RESISTANCE := f_0_1;
     VOLTAGE_HEALTHY := f_11_5; VOLTAGE_MODERATE := f_10_5;
     MAX_VOLTAGE := f_9_0; MIN_VOLTAGE := f_12_6 |}.

Definition flat : config :=
  {| PAGE_DELAY := 5; SHUNT_RESISTANCE := f_0_1;
     VOLTAGE_HEALTHY := f_11_5; VOLTAGE_MODERATE := f_10_5;
     MAX_VOLTAGE := f_9_0; MIN_VOLTAGE := f_9_0 |}.

(** ** Vocabulary of the properties *)

(** The state when the loop is entered (line 35). *)
Definition started : state :=
  printed "Battery monitoring system started..." boot.

(** The value of a Python number. *)
Definition num_Q (a : Py.num) : Q :=
  match a with
  | Py.Int z => inject_Z z
  | Py.Float f => F64.to_Q f
  end.

(** Is this display call the message of the [except Exception] clause? *)
Definition is_error_write (op : lcd_op) : bool :=
  match op with
  | WriteString s => String.eqb s "Error Occurred"
  | _ => false
  end.

(** How many times "Error Occurred" was written to the display. *)
Definition error_writes (log : list lcd_op) : nat :=
  List.length (List.filter is_error_write log).

(** [stable I c]: whatever [c] does and however it ends, it keeps [I]. *)
Definition stable (I : state -> Prop) {A : Type} (c : M A) : Prop :=
  forall s r s', c s = (r, s') -> I s -> I s'.

(** The display operations a page can issue. *)
Inductive page_op : lcd_op -> Prop :=
| po_clear : page_op Clear
| po_crlf : page_op Crlf
| po_status status : page_op (WriteString (line_status status))
| po_vi bus_v current : page_op (WriteString (line_vi bus_v current))
| po_th temp hum : page_op (WriteString (line_th temp hum))
| po_svm : page_op (WriteString "SVM:OFF")
| po_soc n : page_op (WriteString (line_soc n))
| po_dod n z : page_op (WriteString (line_dod n z)).

(** A property of the state that the sampling and display steps respect:
    it does not look at the call counters and survives a page write. *)
Record frame (I : state -> Prop) : Prop := {
  fr_bus_voltage : forall s, I s -> I (tick_bus_voltage s);
  fr_current : forall s, I s -> I (tick_current s);
  fr_temperature : forall s, I s -> I (tick_temperature s);
  fr_humidity : forall s, I s -> I (tick_humidity s);
  fr_lcd_failed : forall s, I s -> I (lcd_failed s);
  fr_lcd_done : forall op s, page_op op -> I s -> I (lcd_done op s)
}.

(** What an iteration leaves alone: the standard output, and a display log
    without error message stays without one. *)
Definition quiet (out : list string) (s : state) : Prop :=
  stdout s = out /\ error_writes (lcd s) = 0%nat.

(** The width of a fixed-point text: [k] integer digits, and a point and
    [p] decimals when [p] is not zero. *)
Definition fixed_width (k p : nat) : nat :=
  match p with
  | O => k
  | S _ => k + 1 + p
  end.

(** Readings for which the second line of a page has at most 16
    characters. *)
Definition vi_in_range (bus_v current : float) : Prop :=
  F64.is_finite bus_v = true /\ F64.sign_bit bus_v = false /\
  (F64.to_Q bus_v < 19999 # 200)%Q /\
  F64.is_finite current = true /\
  ((Qabs (F64.to_Q current) < 1999 # 2)%Q \/
   (F64.sign_bit current = false /\ (F64.to_Q current < 19999 # 2)%Q)).

Definition th_in_range (temp hum : float) : Prop :=
  F64.is_finite temp = true /\ (Qabs (F64.to_Q temp) < 1999 # 20)%Q /\
  F64.is_finite hum = true /\ F64.sign_bit hum = false /\
  (F64.to_Q hum < 1999 # 2)%Q.

Definition z_in_range (z : float) : Prop :=
  F64.is_finite z = true /\ F64.sign_bit z = false /\ (F64.to_Q z < 1999 # 20)%Q.

(** The page a screen belongs to, told from its two lines alone. *)
Definition shown_page (l1 l2 : string) : option Z :=
  if String.prefix "Battery:" l1 then
    if String.prefix "V:" l2 then Some 0
    else if String.prefix "T:" l2 then Some 1
    else None
  else if String.eqb l1 "SVM:OFF" then
    if String.prefix "SOC:" l2 then Some 2
    else if String.prefix "DOD:" l2 then Some 3
    else None
  else None.

(** The pages a display log shows, screen after screen: a screen is a clear
    followed by two lines; [None] when the log is not made of screens. *)
Fixpoint pages_shown (log : list lcd_op) : option (list Z) :=
  match log with
  | [] => Some []
  | Clear :: WriteString l1 :: Crlf :: WriteString l2 :: rest =>
      match shown_page l1 l2, pages_shown rest with
      | Some p, Some ps => Some (p :: ps)
      | _, _ => None
      end
  | _ => None
  end.

(** The pages 0, 1, 2, 3, 0, 1, ... of [n] iterations in a row. *)
Definition rotation (n : nat) : list Z :=
  List.map (fun k => Z.of_nat k mod 4) (List.seq 0 n).

(** ** Further worlds and vocabulary *)

(** Ctrl-C arrives during the third sleep. *)
Definition interrupted : world :=
  {| hw_init := None;
     ina219_bus_voltage := fun _ => Py.Ok f_12_0;
     ina219_current := fun _ => Py.Ok f_500;
     aht25_temperature := fun _ => Py.Ok f_25;
     aht25_relative_humidity := fun _ => Py.Ok f_40;
     lcd_fault := fun _ => None;
     sleep_fault := fun n => match n with
                             | 2%nat => Some Py.KeyboardInterrupt
                             | _ => None
                             end |}.

(** Is this display call the message of the [except KeyboardInterrupt]
    clause? *)
Definition is_stop_write (op : lcd_op) : bool :=
  match op with
  | WriteString s => String.eqb s "System Stopped"
  | _ => false
  end.

(** The closing message of the script for an exception caught by one of the
    two [except] clauses: what is written to the display and what is
    printed. *)
Definition closing_display (e : Py.exn) : string :=
  if Py.is_Exception e then "Error Occurred"%string
  else "System Stopped"%string.

Definition closing_print (e : Py.exn) : string :=
  if Py.is_Exception e then ("Error: " ++ Py.exn_str e)%string
  else "Battery monitoring stopped by user"%string.

(** How many times "System Stopped" was written to the display. *)
Definition stop_writes (log : list lcd_op) : nat :=
  List.length (List.filter is_stop_write log).

(** What the iterations leave alone: no line is printed and no closing
    message is displayed. *)
Definition silent (out : list string) (s : state) : Prop :=
  stdout s = out /\ error_writes (lcd s) = 0%nat /\
  stop_writes (lcd s) = 0%nat.

(** How many times [ina219.current] has been accessed after [n] iterations:
    once per iteration for the impedance, and once more on every page 0
    (iterations 0, 4, 8, ...). *)
Definition current_reads (n : nat) : nat := (n + (n + 3) / 4)%nat.

(** The exception [e] was raised by a collaborator: a sensor access, a
    display call or the sleep. *)
Definition raised_by_collaborator (w : world) (e : Py.exn) : Prop :=
  (exists n, ina219_bus_voltage w n = Py.Raise e) \/
  (exists n, ina219_current w n = Py.Raise e) \/
  (exists n, aht25_temperature w n = Py.Raise e) \/
  (exists n, aht25_relative_humidity w n = Py.Raise e) \/
  (exists n, lcd_fault w n = Some e) \/
  (exists n, sleep_fault w n = Some e).

(** A world where nothing fails: the hardware answers every call, the bus
    voltage with a binary64 number. *)
Definition working (w : world) : Prop :=
  hw_init w = None /\
  (forall n, exists v, ina219_bus_voltage w n = Py.Ok v /\ F64.valid v = true) /\
  (forall n, exists c, ina219_current w n = Py.Ok c) /\
  (forall n, exists t, aht25_temperature w n = Py.Ok t) /\
  (forall n, exists h, aht25_relative_humidity w n = Py.Ok h) /\
  (forall n, lcd_fault w n = None) /\
  (forall n, sleep_fault w n = None).

(** [c] raises only what a collaborator raised. *)
Definition faithful (w : world) {A : Type} (c : M A) : Prop :=
  forall s e s', c s = (Py.Raise e, s') -> raised_by_collaborator w e.

(** Thresholds in the wrong order. *)
Definition misordered : config :=
  {| PAGE_DELAY := 5; SHUNT_RESISTANCE := f_0_1;
     VOLTAGE_HEALTHY := f_10_5; VOLTAGE_MODERATE := f_11_5;
     MAX_VOLTAGE := f_12_6; MIN_VOLTAGE := f_9_0 |}.

(** The three health classes, from worst to best. *)
Definition status_rank (status : string) : nat :=
  if String.eqb status "Healthy" then 2
  else if String.eqb status "Moderate" then 1
  else 0.

(** A float that is a zero, a negative number or minus infinity. *)
Definition nonpositive (x : float) : bool :=
  match x with
  | S754_zero _ => true
  | S754_finite s _ _ | S754_infinity s => s
  | S754_nan => false
  end.

(** 1.0 *)
Definition f_1_0 : float := S754_finite false 4503599627370496 (-52).

(** ** Closed forms of the rounding steps *)

Module Exact.

Import F64.

(** A shift record read as one integer: the mantissa with the round bit
    appended, [2 m + r]. *)
Definition b2z (b : bool) : Z := if b then 1 else 0.

Definition doubled (r : shr_record) : Z := 2 * shr_m r + b2z (shr_r r).

(** The last step of a rounding: the mantissa [R] at exponent [e1], carried
    to the next exponent when it reached [2^53], infinite past the largest
    exponent. *)
Definition overflow (s : bool) (m e : Z) : float :=
  match m with
  | Zpos p => if e <=? 971 then S754_finite s p e else S754_infinity s
  | Z0 => S754_zero s
  | Zneg _ => S754_nan
  end.

Definition finalize (s : bool) (R e1 : Z) : float :=
  if R <? 2 ^ 53 then overflow s R e1 else overflow s (2 ^ 52) (e1 + 1).

(** The mantissa a rounding keeps when [n] low bits are dropped. *)
Definition round_at (mx : Z) (lx : location) (n : Z) : Z :=
  let r := fst (shr (shr_record_of_loc mx lx) 0 n) in
  round_nearest_even (shr_m r) (loc_of_shr_record r).

(** The integer division at the heart of [SFdiv]: the exponent of the
    quotient and the dividend scaled for it. *)
Definition quot_exp (mx my : positive) (ex ey : Z) : Z :=
  Z.min (fexp prec emax (Zpos (digits2_pos mx) + ex - (Zpos (digits2_pos my) + ey)))
        (ex - ey).

Definition quot_num (mx my : positive) (ex ey : Z) : Z :=
  Zpos mx * 2 ^ (ex - ey - quot_exp mx my ex ey).

(** The mantissa that [binary_normalize] keeps for [M * 2^e]. *)
Definition kept (M e : Z) : Z :=
  let E := fexp prec emax (Zdigits2 M + e) in
  if E <=? e then M * 2 ^ (e - E) else Fmt.round_half_even M (2 ^ (E - e)).

(** The mantissa of 100.0, at exponent -46. *)
Definition m100 : Z := 7036874417766400.

End Exact.

(** * Properties *)

(** ** Binary64 numbers and their order *)

Module F64Facts.

Import F64.

Lemma digits2_log2 (m : positive) :
  Zpos (digits2_pos m) = Z.log2 (Zpos m) + 1.
Proof.
  induction m as [m IH | m IH |]; simpl digits2_pos.
  - rewrite Pos2Z.inj_succ, IH.
    change (Zpos m~1) with (2 * Zpos m + 1).
    rewrite Z.log2_succ_double by lia. lia.
  - rewrite Pos2Z.inj_succ, IH.
    change (Zpos m~0) with (2 * Zpos m).
    rewrite Z.log2_double by lia. lia.
  - reflexivity.
Qed.

Lemma digits2_bounds (m : positive) :
  2 ^ (Zpos (digits2_pos m) - 1) <= Zpos m < 2 ^ Zpos (digits2_pos m).
Proof.
  rewrite digits2_log2.
  replace (Z.log2 (Zpos m) + 1 - 1) with (Z.log2 (Zpos m)) by lia.
  replace (Z.log2 (Zpos m) + 1) with (Z.succ (Z.log2 (Zpos m))) by lia.
  apply Z.log2_spec. lia.
Qed.

(** A number of [d] binary digits, seen from both sides. *)
Lemma digits2_unique (m : positive) (d : Z) :
  2 ^ (d - 1) <= Zpos m < 2 ^ d -> Zpos (digits2_pos m) = d.
Proof.
  intros [Hlo Hhi]. rewrite digits2_log2.
  assert (0 < d).
  { destruct (Z.lt_trichotomy d 0) as [Hd | [Hd | Hd]]; try assumption.
    - rewrite (Z.pow_neg_r 2 d) in Hhi by assumption. lia.
    - subst d. simpl in Hhi. lia. }
  rewrite (Z.log2_unique (Zpos m) (d - 1)); try lia.
  replace (Z.succ (d - 1)) with d by lia. split; assumption.
Qed.

(** What [valid] says about a finite number: the exponent range, and a
    mantissa of exactly 53 bits above the smallest exponent. *)
Lemma valid_finite (s : bool) (m : positive) (e : Z) :
  valid (S754_finite s m e) = true ->
  -1074 <= e <= 971 /\ Zpos m < 2 ^ 53 /\ (-1074 < e -> 2 ^ 52 <= Zpos m).
Proof.
  unfold valid, valid_binary, bounded, canonical_mantissa, fexp, SpecFloat.emin,
    prec, emax.
  rewrite andb_true_iff, Z.eqb_eq, Z.leb_le.
  intros [Hc He].
  pose proof (digits2_bounds m) as [Hlo Hhi].
  set (d := Zpos (digits2_pos m)) in *.
  assert (Hd : 0 < d) by (unfold d; lia).
  split; [lia |].
  split.
  - apply Z.lt_le_trans with (1 := Hhi).
    apply Z.pow_le_mono_r; lia.
  - intros Hn. replace 52 with (d - 1) by lia. exact Hlo.
Qed.

Lemma to_Q_units (x : float) :
  valid x = true -> (to_Q x == Qmake (units x) (2 ^ 1074))%Q.
Proof.
  destruct x as [s | s | | s m e]; try (intros _; reflexivity).
  intros Hv. apply valid_finite in Hv. destruct Hv as [[He1 He2] _].
  unfold to_Q, units, Qeq.
  destruct e as [| p | p]; cbn [Qnum Qden].
  - destruct s; cbn [cond_Zopp]; lia.
  - rewrite Z.pow_pos_fold.
    replace (Zpos p + 1074) with (1074 + Zpos p) by lia.
    rewrite Z.pow_add_r by lia.
    change (Zpos (2 ^ 1074)) with (2 ^ 1074).
    destruct s; cbn [cond_Zopp]; lia.
  - rewrite Pos2Z.inj_pow.
    assert (Hsplit : 2 ^ 1074 = 2 ^ (Zneg p + 1074) * 2 ^ Zpos p).
    { rewrite <- Z.pow_add_r by lia. f_equal. lia. }
    change (Zpos (2 ^ 1074)) with (2 ^ 1074).
    rewrite Hsplit at 1.
    destruct s; cbn [cond_Zopp]; lia.
Qed.

Lemma units_pos (m : positive) (e : Z) :
  -1074 <= e -> 0 < Zpos m * 2 ^ (e + 1074).
Proof.
  intros He. apply Z.mul_pos_pos; [lia |]. apply Z.pow_pos_nonneg; lia.
Qed.

(** Two valid positive numbers compare like their exponents, then like
    their mantissas. *)
Lemma units_compare_pos (m1 m2 : positive) (e1 e2 : Z) :
  valid (S754_finite false m1 e1) = true ->
  valid (S754_finite false m2 e2) = true ->
  (Zpos m1 * 2 ^ (e1 + 1074) ?= Zpos m2 * 2 ^ (e2 + 1074)) =
  match e1 ?= e2 with
  | Lt => Lt
  | Gt => Gt
  | Eq => Pos.compare_cont Eq m1 m2
  end.
Proof.
  intros H1 H2.
  apply valid_finite in H1. destruct H1 as [[Ha1 Ha2] [Hb1 Hc1]].
  apply valid_finite in H2. destruct H2 as [[Ha3 Ha4] [Hb2 Hc2]].
  assert (Hstep : forall ma mb ea eb,
    -1074 <= ea -> ea < eb -> Zpos ma < 2 ^ 53 -> 2 ^ 52 <= Zpos mb ->
    Zpos ma * 2 ^ (ea + 1074) < Zpos mb * 2 ^ (eb + 1074)).
  { intros ma mb ea eb Hea Hlt Hma Hmb.
    replace (eb + 1074) with ((ea + 1074) + (eb - ea)) by lia.
    rewrite (Z.pow_add_r 2 (ea + 1074) (eb - ea)) by lia.
    assert (Hp : 0 < 2 ^ (ea + 1074)) by (apply Z.pow_pos_nonneg; lia).
    assert (Hq : 2 ^ 1 <= 2 ^ (eb - ea)) by (apply Z.pow_le_mono_r; lia).
    change (2 ^ 1) with 2 in Hq.
    assert (Hm : Zpos ma < 2 * Zpos mb).
    { change (2 ^ 53) with (2 * 2 ^ 52) in Hma. lia. }
    apply Z.lt_le_trans with (2 * Zpos mb * 2 ^ (ea + 1074)); [nia |].
    rewrite Z.mul_assoc.
    rewrite (Z.mul_comm 2 (Zpos mb)), <- !Z.mul_assoc.
    apply Z.mul_le_mono_nonneg_l; [lia | nia]. }
  destruct (Z.compare_spec e1 e2) as [Heq | Hlt | Hgt].
  - subst e2.
    assert (Hp : 0 < 2 ^ (e1 + 1074)) by (apply Z.pow_pos_nonneg; lia).
    change (Pos.compare_cont Eq m1 m2) with (Zpos m1 ?= Zpos m2).
    destruct (Z.compare_spec (Zpos m1) (Zpos m2)) as [E | L | G].
    + rewrite E. apply Z.compare_refl.
    + apply Z.compare_lt_iff. nia.
    + apply Z.compare_gt_iff. nia.
  - apply Z.compare_lt_iff. apply Hstep; lia.
  - apply Z.compare_gt_iff. apply Hstep; lia.
Qed.

(** [SFcompare] is the order of the values. *)
Lemma compare_units (x y : float) :
  valid x = true -> valid y = true ->
  is_finite x = true -> is_finite y = true ->
  SFcompare x y = Some (units x ?= units y).
Proof.
  intros Hx Hy Fx Fy.
  destruct x as [sx | sx | | sx mx ex]; try discriminate Fx;
  destruct y as [sy | sy | | sy my ey]; try discriminate Fy.
  - reflexivity.
  - pose proof (valid_finite _ _ _ Hy) as [[He _] _].
    pose proof (units_pos my ey He) as Hp.
    cbn [SFcompare units]. f_equal. symmetry.
    destruct sy; cbn [cond_Zopp].
    + apply Z.compare_gt_iff. lia.
    + apply Z.compare_lt_iff. lia.
  - pose proof (valid_finite _ _ _ Hx) as [[He _] _].
    pose proof (units_pos mx ex He) as Hp.
    cbn [SFcompare units]. f_equal. symmetry.
    destruct sx; cbn [cond_Zopp].
    + apply Z.compare_lt_iff. lia.
    + apply Z.compare_gt_iff. lia.
  - pose proof (valid_finite _ _ _ Hx) as [[Hex _] _].
    pose proof (valid_finite _ _ _ Hy) as [[Hey _] _].
    pose proof (units_pos mx ex Hex) as Hpx.
    pose proof (units_pos my ey Hey) as Hpy.
    cbn [SFcompare units]. f_equal.
    destruct sx, sy; cbn [cond_Zopp].
    + rewrite Z.compare_opp.
      rewrite (Z.compare_antisym (Zpos mx * 2 ^ (ex + 1074))).
      rewrite (units_compare_pos mx my ex ey) by assumption.
      destruct (ex ?= ey); reflexivity.
    + symmetry. apply Z.compare_lt_iff. lia.
    + symmetry. apply Z.compare_gt_iff. lia.
    + symmetry. apply units_compare_pos; assumption.
Qed.

End F64Facts.

Module OrderFacts.

Import F64 F64Facts.

Lemma leb_units (x y : float) :
  valid x = true -> valid y = true ->
  is_finite x = true -> is_finite y = true ->
  leb x y = (units x <=? units y).
Proof.
  intros Hx Hy Fx Fy. unfold leb, SFleb.
  rewrite (compare_units x y Hx Hy Fx Fy).
  unfold Z.leb. destruct (units x ?= units y); reflexivity.
Qed.

Lemma ltb_units (x y : float) :
  valid x = true -> valid y = true ->
  is_finite x = true -> is_finite y = true ->
  ltb x y = (units x <? units y).
Proof.
  intros Hx Hy Fx Fy. unfold ltb, SFltb.
  rewrite (compare_units x y Hx Hy Fx Fy).
  unfold Z.ltb. destruct (units x ?= units y); reflexivity.
Qed.

Lemma Qle_units (x y : float) :
  valid x = true -> valid y = true ->
  (to_Q x <= to_Q y)%Q <-> units x <= units y.
Proof.
  intros Hx Hy.
  rewrite (to_Q_units x Hx), (to_Q_units y Hy).
  unfold Qle. cbn [Qnum Qden].
  split; intros H.
  - apply Z.mul_le_mono_pos_r in H; [exact H | reflexivity].
  - apply Z.mul_le_mono_pos_r; [reflexivity | exact H].
Qed.

Lemma Qlt_units (x y : float) :
  valid x = true -> valid y = true ->
  (to_Q x < to_Q y)%Q <-> units x < units y.
Proof.
  intros Hx Hy.
  rewrite (to_Q_units x Hx), (to_Q_units y Hy).
  unfold Qlt. cbn [Qnum Qden].
  split; intros H.
  - apply Z.mul_lt_mono_pos_r in H; [exact H | reflexivity].
  - apply Z.mul_lt_mono_pos_r; [reflexivity | exact H].
Qed.

(** Python's [x >= y] and [x > y] on finite floats are the order of the
    values they stand for. *)
Lemma geb_true (x y : float) :
  valid x = true -> valid y = true ->
  is_finite x = true -> is_finite y = true ->
  geb x y = true <-> (to_Q y <= to_Q x)%Q.
Proof.
  intros Hx Hy Fx Fy. unfold geb. fold (leb y x).
  rewrite (leb_units y x Hy Hx Fy Fx), Z.leb_le.
  symmetry. apply Qle_units; assumption.
Qed.

Lemma geb_false (x y : float) :
  valid x = true -> valid y = true ->
  is_finite x = true -> is_finite y = true ->
  geb x y = false <-> (to_Q x < to_Q y)%Q.
Proof.
  intros Hx Hy Fx Fy. unfold geb. fold (leb y x).
  rewrite (leb_units y x Hy Hx Fy Fx), Z.leb_gt.
  symmetry. apply Qlt_units; assumption.
Qed.

Lemma gtb_true (x y : float) :
  valid x = true -> valid y = true ->
  is_finite x = true -> is_finite y = true ->
  gtb x y = true <-> (to_Q y < to_Q x)%Q.
Proof.
  intros Hx Hy Fx Fy. unfold gtb. fold (ltb y x).
  rewrite (ltb_units y x Hy Hx Fy Fx), Z.ltb_lt.
  symmetry. apply Qlt_units; assumption.
Qed.

Lemma gtb_false (x y : float) :
  valid x = true -> valid y = true ->
  is_finite x = true -> is_finite y = true ->
  gtb x y = false <-> (to_Q x <= to_Q y)%Q.
Proof.
  intros Hx Hy Fx Fy. unfold gtb. fold (ltb y x).
  rewrite (ltb_units y x Hy Hx Fy Fx), Z.ltb_ge.
  symmetry. apply Qle_units; assumption.
Qed.

End OrderFacts.

(** ** Rounding: the arithmetic operations in closed form *)

Module Rounding.

Import F64 F64Facts Exact.

Lemma fexp_eq e : fexp prec emax e = Z.max (e - 53) (-1074).
Proof. reflexivity. Qed.

Lemma shr_1_doubled r :
  0 <= shr_m r ->
  0 <= shr_m (shr_1 r) /\
  doubled (shr_1 r) = doubled r / 2 /\
  shr_s (shr_1 r) = shr_s r || Z.odd (doubled r).
Proof.
  destruct r as [m r s]. unfold doubled. cbn [shr_m shr_r shr_s].
  intros Hm.
  assert (Hodd : Z.odd (2 * m + b2z r) = r).
  { rewrite Z.add_comm, Z.odd_add_mul_2. destruct r; reflexivity. }
  assert (Hdiv : (2 * m + b2z r) / 2 = m).
  { rewrite Z.add_comm, Z.mul_comm, Z.div_add by lia.
    destruct r; reflexivity. }
  rewrite Hodd, Hdiv.
  destruct m as [| p | p]; [| | lia].
  - cbn. split; [lia |]. split; [reflexivity | apply orb_comm].
  - destruct p as [p | p |]; cbn [shr_1 shr_m shr_r shr_s b2z].
    + split; [lia |]. split; [lia | apply orb_comm].
    + split; [lia |]. split; [lia | apply orb_comm].
    + split; [lia |]. split; [reflexivity | apply orb_comm].
Qed.

Lemma iter_pos_invariant {A : Type} (f : A -> A) (P : Z -> A -> Prop) :
  (forall k a, 0 <= k -> P k a -> P (k + 1) (f a)) ->
  forall p k a, 0 <= k -> P k a -> P (k + Zpos p) (iter_pos f p a).
Proof.
  intros Hstep. induction p as [p IH | p IH |]; intros k a Hk Ha; cbn [iter_pos].
  - replace (k + Zpos p~1) with (k + 1 + Zpos p + Zpos p) by lia.
    apply IH; [lia |]. apply IH; [lia |]. apply Hstep; assumption.
  - replace (k + Zpos p~0) with (k + Zpos p + Zpos p) by lia.
    apply IH; [lia |]. apply IH; assumption.
  - apply Hstep; assumption.
Qed.

Lemma mod_pow2_succ (N k : Z) :
  0 <= k -> N mod 2 ^ (k + 1) = N mod 2 ^ k + 2 ^ k * ((N / 2 ^ k) mod 2).
Proof.
  intros Hk. rewrite Z.pow_add_r by lia. change (2 ^ 1) with 2.
  apply Z.rem_mul_r; [| lia].
  apply Z.pow_nonzero; lia.
Qed.

Lemma odd_mod2 (a : Z) : a mod 2 = b2z (Z.odd a).
Proof.
  rewrite Zmod_odd. destruct (Z.odd a); reflexivity.
Qed.

(** [n] right shifts at once. *)
Lemma iter_shr_1 (p : positive) (r0 : shr_record) :
  0 <= shr_m r0 ->
  let r := iter_pos shr_1 p r0 in
  0 <= shr_m r /\
  doubled r = doubled r0 / 2 ^ Zpos p /\
  shr_s r = shr_s r0 || negb (doubled r0 mod 2 ^ Zpos p =? 0).
Proof.
  intros H0.
  pose (P := fun (k : Z) (r : shr_record) =>
    0 <= shr_m r /\
    doubled r = doubled r0 / 2 ^ k /\
    shr_s r = shr_s r0 || negb (doubled r0 mod 2 ^ k =? 0)).
  change (P (Zpos p) (iter_pos shr_1 p r0)).
  change (Zpos p) with (0 + Zpos p).
  apply iter_pos_invariant; [| lia |].
  - intros k a Hk (Ha1 & Ha2 & Ha3).
    destruct (shr_1_doubled a Ha1) as (Hb1 & Hb2 & Hb3).
    split; [exact Hb1 |]. split.
    + rewrite Hb2, Ha2, Z.pow_add_r by lia. change (2 ^ 1) with 2.
      rewrite Z.div_div; [reflexivity | | lia].
      apply Z.pow_nonzero; lia.
    + rewrite Hb3, Ha3, Ha2, <- orb_assoc. f_equal.
      rewrite (mod_pow2_succ (doubled r0) k Hk), odd_mod2.
      assert (Hp : 0 < 2 ^ k) by (apply Z.pow_pos_nonneg; lia).
      pose proof (Z.mod_pos_bound (doubled r0) (2 ^ k) Hp) as Hm.
      destruct (Z.odd (doubled r0 / 2 ^ k)); cbn [b2z].
      * rewrite orb_true_r. symmetry. apply negb_true_iff, Z.eqb_neq. lia.
      * rewrite orb_false_r, Z.mul_0_r, Z.add_0_r. reflexivity.
  - unfold P. split; [exact H0 |]. split.
    + rewrite Z.pow_0_r, Z.div_1_r. reflexivity.
    + rewrite Z.pow_0_r, Z.mod_1_r. cbn. rewrite orb_false_r. reflexivity.
Qed.

Lemma doubled_m (r : shr_record) : shr_m r = doubled r / 2.
Proof.
  unfold doubled. rewrite Z.add_comm, Z.mul_comm, Z.div_add by lia.
  destruct (shr_r r); reflexivity.
Qed.

Lemma doubled_r (r : shr_record) : shr_r r = Z.odd (doubled r).
Proof.
  unfold doubled. rewrite Z.add_comm, Z.odd_add_mul_2.
  destruct (shr_r r); reflexivity.
Qed.

Lemma round_nearest_even_record (r : shr_record) :
  round_nearest_even (shr_m r) (loc_of_shr_record r) =
  shr_m r + b2z (shr_r r && (shr_s r || Z.odd (shr_m r))).
Proof.
  destruct r as [m [|] [|]]; cbn [shr_m shr_r shr_s loc_of_shr_record
    round_nearest_even andb orb b2z]; try lia.
  rewrite <- Z.negb_even. destruct (Z.even m); cbn; lia.
Qed.

Lemma shr_spec (r0 : shr_record) (e n : Z) :
  0 <= shr_m r0 -> 0 <= n ->
  snd (shr r0 e n) = e + n /\
  0 <= shr_m (fst (shr r0 e n)) /\
  doubled (fst (shr r0 e n)) = doubled r0 / 2 ^ n /\
  shr_s (fst (shr r0 e n)) = shr_s r0 || negb (doubled r0 mod 2 ^ n =? 0).
Proof.
  intros H0 Hn. destruct n as [| p | p]; [| | lia]; cbn [shr fst snd].
  - rewrite Z.pow_0_r, Z.div_1_r, Z.mod_1_r. cbn.
    rewrite orb_false_r. repeat split; lia.
  - destruct (iter_shr_1 p r0 H0) as (H1 & H2 & H3).
    repeat split; assumption.
Qed.

Lemma shr_neg (r0 : shr_record) (e n : Z) :
  n <= 0 -> shr r0 e n = (r0, e).
Proof. destruct n as [| p | p]; intros H; [reflexivity | lia | reflexivity]. Qed.

Lemma Zdigits2_bounds (m : Z) :
  0 < m -> 2 ^ (Zdigits2 m - 1) <= m < 2 ^ Zdigits2 m.
Proof.
  destruct m as [| p | p]; intros H; try lia.
  apply digits2_bounds.
Qed.

Lemma Zdigits2_pos (m : Z) : 0 < m -> 0 < Zdigits2 m.
Proof. destruct m; cbn; lia. Qed.

Lemma Zdigits2_unique (m d : Z) :
  2 ^ (d - 1) <= m < 2 ^ d -> 0 < m -> Zdigits2 m = d.
Proof.
  destruct m as [| p | p]; intros H Hm; try lia.
  apply digits2_unique. exact H.
Qed.

Lemma valid_intro (s : bool) (m : positive) (e : Z) :
  -1074 <= e <= 971 -> Zpos m < 2 ^ 53 -> (-1074 < e -> 2 ^ 52 <= Zpos m) ->
  valid (S754_finite s m e) = true.
Proof.
  intros He Hhi Hlo.
  unfold valid, valid_binary, bounded, canonical_mantissa.
  rewrite fexp_eq. unfold prec, emax.
  apply andb_true_iff. split; [| apply Z.leb_le; lia].
  apply Z.eqb_eq.
  pose proof (digits2_bounds m) as [Dlo Dhi].
  set (d := Zpos (digits2_pos m)) in *.
  assert (Hd : d <= 53).
  { destruct (Z_le_gt_dec d 53) as [L | G]; [exact L | exfalso].
    assert (2 ^ 53 <= 2 ^ (d - 1)) by (apply Z.pow_le_mono_r; lia). lia. }
  destruct (Z.eq_dec e (-1074)) as [E | E].
  - subst e. lia.
  - assert (53 <= d).
    { destruct (Z_le_gt_dec 53 d) as [L | G]; [exact L | exfalso].
      assert (2 ^ d <= 2 ^ 52) by (apply Z.pow_le_mono_r; lia).
      assert (2 ^ 52 <= Zpos m) by (apply Hlo; lia). lia. }
    lia.
Qed.

Lemma finalize_spec (s : bool) (R e1 : Z) :
  -1074 <= e1 -> 0 <= R <= 2 ^ 53 -> (-1074 < e1 -> 2 ^ 52 <= R) ->
  (let '(mrs, e2) := shr_fexp prec emax R e1 loc_Exact in
   match shr_m mrs with
   | Z0 => S754_zero s
   | Zpos m => if e2 <=? emax - prec then S754_finite s m e2
               else S754_infinity s
   | Zneg _ => S754_nan
   end) = finalize s R e1.
Proof.
  intros He HR Hlo. unfold shr_fexp, finalize. rewrite fexp_eq.
  cbn [shr_record_of_loc].
  destruct (Z.ltb_spec R (2 ^ 53)) as [Hlt | Hge].
  - assert (Hn : Z.max (Zdigits2 R + e1 - 53) (-1074) - e1 <= 0).
    { destruct (Z.eq_dec R 0) as [E | E]; [subst R; cbn; lia |].
      assert (HRpos : 0 < R) by lia.
      pose proof (Zdigits2_bounds R HRpos) as [Dlo Dhi].
      assert (Zdigits2 R <= 53).
      { destruct (Z_le_gt_dec (Zdigits2 R) 53) as [L | G]; [exact L | exfalso].
        assert (2 ^ 53 <= 2 ^ (Zdigits2 R - 1)) by (apply Z.pow_le_mono_r; lia).
        lia. }
      lia. }
    rewrite shr_neg by exact Hn. cbn [shr_m].
    unfold overflow, emax, prec. destruct R; reflexivity.
  - assert (HR53 : R = 2 ^ 53) by lia. subst R.
    change (Zdigits2 (2 ^ 53)) with 54.
    replace (Z.max (54 + e1 - 53) (-1074) - e1) with 1 by lia.
    reflexivity.
Qed.

Lemma finalize_valid (s : bool) (R e1 : Z) :
  -1074 <= e1 -> 0 <= R <= 2 ^ 53 -> (-1074 < e1 -> 2 ^ 52 <= R) ->
  valid (finalize s R e1) = true.
Proof.
  intros He HR Hlo. unfold finalize.
  destruct (Z.ltb_spec R (2 ^ 53)) as [Hlt | Hge].
  - unfold overflow. destruct R as [| p | p]; try reflexivity.
    destruct (Z.leb_spec e1 971); [| reflexivity].
    apply valid_intro; [lia | exact Hlt | exact Hlo].
  - unfold overflow. change (2 ^ 52) with (Zpos 4503599627370496).
    destruct (Z.leb_spec (e1 + 1) 971); [| reflexivity].
    apply valid_intro; [lia | reflexivity | intros _; reflexivity].
Qed.

Lemma shr_fst (r0 : shr_record) (e e' n : Z) :
  fst (shr r0 e n) = fst (shr r0 e' n).
Proof. destruct n; reflexivity. Qed.

Lemma shr_record_of_loc_m mx lx : shr_m (shr_record_of_loc mx lx) = mx.
Proof. destruct lx as [| []]; reflexivity. Qed.

Lemma shifted_m (mx : Z) (lx : location) (n : Z) :
  0 <= mx -> 0 <= n ->
  shr_m (fst (shr (shr_record_of_loc mx lx) 0 n)) = mx / 2 ^ n.
Proof.
  intros Hm Hn.
  set (r0 := shr_record_of_loc mx lx).
  assert (H0 : 0 <= shr_m r0) by (unfold r0; rewrite shr_record_of_loc_m; lia).
  destruct (shr_spec r0 0 n H0 Hn) as (_ & _ & Hd & _).
  rewrite doubled_m, Hd.
  assert (Hp : 0 < 2 ^ n) by (apply Z.pow_pos_nonneg; lia).
  rewrite Z.div_div by lia.
  rewrite (Z.mul_comm (2 ^ n) 2), <- Z.div_div by lia.
  rewrite <- doubled_m. unfold r0. rewrite shr_record_of_loc_m. reflexivity.
Qed.

Lemma round_at_bounds (mx : Z) (lx : location) (n : Z) :
  0 <= mx -> 0 <= n ->
  mx / 2 ^ n <= round_at mx lx n <= mx / 2 ^ n + 1.
Proof.
  intros Hm Hn. unfold round_at. cbv zeta.
  rewrite round_nearest_even_record, (shifted_m mx lx n Hm Hn).
  destruct (_ && _); cbn [b2z]; lia.
Qed.

(** Where a mantissa of [Zdigits2 mx] bits lands when it is shifted to the
    exponent the format wants. *)
Lemma shifted_range (mx ex : Z) :
  0 <= mx ->
  let e1 := fexp prec emax (Zdigits2 mx + ex) in
  ex <= e1 ->
  -1074 <= e1 /\
  mx / 2 ^ (e1 - ex) < 2 ^ 53 /\
  (-1074 < e1 -> 2 ^ 52 <= mx / 2 ^ (e1 - ex)).
Proof.
  intros Hm e1 He. unfold e1 in *. rewrite fexp_eq in *.
  set (d := Zdigits2 mx) in *.
  set (n := Z.max (d + ex - 53) (-1074) - ex) in *.
  assert (Hn : 0 <= n) by (unfold n; lia).
  assert (Hp : 0 < 2 ^ n) by (apply Z.pow_pos_nonneg; lia).
  split; [lia |].
  destruct (Z.eq_dec mx 0) as [E | E].
  - subst mx. rewrite Z.div_0_l by lia.
    split; [reflexivity |]. cbn in d. unfold d in *. lia.
  - assert (Hpos : 0 < mx) by lia.
    pose proof (Zdigits2_bounds mx Hpos) as [Dlo Dhi]. fold d in Dlo, Dhi.
    pose proof (Zdigits2_pos mx Hpos) as Dpos. fold d in Dpos.
    split.
    + apply Z.div_lt_upper_bound; [exact Hp |].
      rewrite <- Z.pow_add_r by lia.
      apply Z.lt_le_trans with (1 := Dhi).
      apply Z.pow_le_mono_r; lia.
    + intros Hnorm.
      apply Z.div_le_lower_bound; [exact Hp |].
      rewrite <- Z.pow_add_r by lia.
      apply Z.le_trans with (2 := Dlo).
      apply Z.pow_le_mono_r; lia.
Qed.

(** [binary_round_aux], in closed form. *)
Lemma binary_round_aux_spec (s : bool) (mx ex : Z) (lx : location) :
  0 <= mx ->
  let e1 := fexp prec emax (Zdigits2 mx + ex) in
  ex <= e1 ->
  binary_round_aux prec emax s mx ex lx =
  finalize s (round_at mx lx (e1 - ex)) e1.
Proof.
  intros Hm e1 He.
  destruct (shifted_range mx ex Hm He) as (H1 & H2 & H3). fold e1 in H1, H2, H3.
  assert (Hn : 0 <= e1 - ex) by lia.
  pose proof (round_at_bounds mx lx (e1 - ex) Hm Hn) as [Rlo Rhi].
  unfold binary_round_aux, shr_fexp at 1. fold e1.
  set (r0 := shr_record_of_loc mx lx).
  assert (H0 : 0 <= shr_m r0) by (unfold r0; rewrite shr_record_of_loc_m; lia).
  destruct (shr_spec r0 ex (e1 - ex) H0 Hn) as (Hs1 & _).
  destruct (shr r0 ex (e1 - ex)) as [mrs e'] eqn:E.
  cbn [fst snd] in Hs1.
  assert (Hmrs : mrs = fst (shr r0 0 (e1 - ex))).
  { rewrite (shr_fst r0 0 ex), E. reflexivity. }
  replace e' with e1 by lia.
  change (round_nearest_even (shr_m mrs) (loc_of_shr_record mrs))
    with (let r := mrs in round_nearest_even (shr_m r) (loc_of_shr_record r)).
  rewrite Hmrs. fold (round_at mx lx (e1 - ex)).
  assert (Hq : 0 <= mx / 2 ^ (e1 - ex))
    by (apply Z.div_pos; [lia | apply Z.pow_pos_nonneg; lia]).
  apply finalize_spec; [exact H1 | lia | intros Hnorm; specialize (H3 Hnorm); lia].
Qed.

Lemma binary_round_aux_valid (s : bool) (mx ex : Z) (lx : location) :
  0 <= mx ->
  ex <= fexp prec emax (Zdigits2 mx + ex) ->
  valid (binary_round_aux prec emax s mx ex lx) = true.
Proof.
  intros Hm He.
  rewrite binary_round_aux_spec by assumption.
  destruct (shifted_range mx ex Hm He) as (H1 & H2 & H3).
  set (e1 := fexp prec emax (Zdigits2 mx + ex)) in *.
  assert (Hn : 0 <= e1 - ex) by lia.
  pose proof (round_at_bounds mx lx (e1 - ex) Hm Hn) as [Rlo Rhi].
  assert (Hq : 0 <= mx / 2 ^ (e1 - ex))
    by (apply Z.div_pos; [lia | apply Z.pow_pos_nonneg; lia]).
  apply finalize_valid; [exact H1 | lia | intros Hnorm; specialize (H3 Hnorm); lia].
Qed.

(** With nothing lost before, the kept mantissa is the nearest integer to
    [mx / 2^n], ties to even. *)
Lemma round_at_exact (mx n : Z) :
  0 <= mx -> 0 <= n ->
  round_at mx loc_Exact n = Fmt.round_half_even mx (2 ^ n).
Proof.
  intros Hm Hn. unfold round_at. cbv zeta.
  rewrite round_nearest_even_record, (shifted_m mx loc_Exact n Hm Hn).
  set (r0 := shr_record_of_loc mx loc_Exact).
  assert (H0 : 0 <= shr_m r0) by (cbn; lia).
  destruct (shr_spec r0 0 n H0 Hn) as (_ & _ & Hd & Hs).
  rewrite doubled_r, Hd, Hs.
  change (doubled r0) with (2 * mx + 0). rewrite Z.add_0_r.
  cbn [shr_s r0 shr_record_of_loc orb].
  assert (HP : 0 < 2 ^ n) by (apply Z.pow_pos_nonneg; lia).
  set (P := 2 ^ n) in *.
  pose proof (Z.div_mod mx P ltac:(lia)) as Hdm.
  pose proof (Z.mod_pos_bound mx P HP) as Hrem.
  set (q := mx / P) in *. set (rem := mx mod P) in *.
  unfold Fmt.round_half_even. fold P q rem.
  destruct (Z.compare_spec (2 * rem) P) as [Heq | Hlt | Hgt].
  - assert (Hdiv : 2 * mx / P = 2 * q + 1)
      by (symmetry; apply (Z.div_unique _ _ _ 0); lia).
    assert (Hmod : (2 * mx) mod P = 0)
      by (symmetry; apply (Z.mod_unique _ _ (2 * q + 1)); lia).
    rewrite Hdiv, Hmod.
    replace (2 * q + 1) with (1 + 2 * q) by lia.
    rewrite Z.odd_add_mul_2. cbn [Z.odd Z.eqb negb andb orb].
    rewrite <- Z.negb_even. destruct (Z.even q); cbn; lia.
  - assert (Hdiv : 2 * mx / P = 2 * q)
      by (symmetry; apply (Z.div_unique _ _ _ (2 * rem)); lia).
    rewrite Hdiv, Z.odd_mul. cbn. lia.
  - assert (Hdiv : 2 * mx / P = 2 * q + 1)
      by (symmetry; apply (Z.div_unique _ _ _ (2 * rem - P)); lia).
    assert (Hmod : (2 * mx) mod P = 2 * rem - P)
      by (symmetry; apply (Z.mod_unique _ _ (2 * q + 1)); lia).
    rewrite Hdiv, Hmod.
    replace (2 * q + 1) with (1 + 2 * q) by lia.
    rewrite Z.odd_add_mul_2.
    assert (Hnz : (2 * rem - P =? 0) = false) by (apply Z.eqb_neq; lia).
    rewrite Hnz. cbn. lia.
Qed.

Lemma pos_iter_xO (m d : positive) :
  Zpos (Pos.iter xO m d) = Zpos m * 2 ^ Zpos d.
Proof.
  induction d as [| d IH] using Pos.peano_ind.
  - cbn. lia.
  - rewrite Pos.iter_succ, Pos2Z.inj_succ, Z.pow_succ_r by lia.
    change (Zpos (Pos.iter xO m d)~0) with (2 * Zpos (Pos.iter xO m d)).
    rewrite IH. lia.
Qed.

Lemma shl_align_spec (mx : positive) (ex ex' : Z) :
  snd (shl_align mx ex ex') = Z.min ex ex' /\
  Zpos (fst (shl_align mx ex ex')) = Zpos mx * 2 ^ (ex - Z.min ex ex').
Proof.
  unfold shl_align. destruct (ex' - ex) as [| d | d] eqn:E; cbn [fst snd].
  - replace (Z.min ex ex') with ex by lia.
    rewrite Z.sub_diag. cbn. lia.
  - replace (Z.min ex ex') with ex by lia.
    rewrite Z.sub_diag. cbn. lia.
  - replace (Z.min ex ex') with ex' by lia.
    rewrite pos_iter_xO. split; [reflexivity |]. f_equal. f_equal. lia.
Qed.

Lemma Zdigits2_shift (m k : Z) :
  0 < m -> 0 <= k -> Zdigits2 (m * 2 ^ k) = Zdigits2 m + k.
Proof.
  intros Hm Hk.
  pose proof (Zdigits2_bounds m Hm) as [Dlo Dhi].
  pose proof (Zdigits2_pos m Hm) as Dpos.
  assert (Hp : 0 < 2 ^ k) by (apply Z.pow_pos_nonneg; lia).
  apply Zdigits2_unique; [| nia].
  replace (Zdigits2 m + k - 1) with (Zdigits2 m - 1 + k) by lia.
  rewrite !Z.pow_add_r by lia. nia.
Qed.

(** [binary_round], in closed form: the mantissa is brought to the exponent
    the format wants, exactly when that exponent is lower, by rounding to
    nearest-even when it is higher. *)
Lemma binary_round_spec (s : bool) (mx : positive) (ex : Z) :
  let E := fexp prec emax (Zpos (digits2_pos mx) + ex) in
  binary_round prec emax s mx ex =
  finalize s
    (if E <=? ex then Zpos mx * 2 ^ (ex - E)
     else Fmt.round_half_even (Zpos mx) (2 ^ (E - ex)))
    E.
Proof.
  intros E. unfold binary_round. fold E.
  destruct (shl_align_spec mx ex E) as [H1 H2].
  destruct (shl_align mx ex E) as [mz ez]. cbn [fst snd] in H1, H2.
  assert (Hd : Zdigits2 (Zpos mz) + ez = Zpos (digits2_pos mx) + ex).
  { rewrite H2, Zdigits2_shift by lia. cbn [Zdigits2]. lia. }
  assert (HE : fexp prec emax (Zdigits2 (Zpos mz) + ez) = E)
    by (rewrite Hd; reflexivity).
  rewrite binary_round_aux_spec; rewrite ?HE; try lia.
  f_equal.
  rewrite round_at_exact by lia.
  destruct (Z.leb_spec E ex) as [Hle | Hgt].
  - replace (Z.min ex E) with E in * by lia. subst ez.
    rewrite Z.sub_diag. unfold Fmt.round_half_even.
    rewrite Z.pow_0_r, Z.div_1_r, Z.mod_1_r. cbn. exact H2.
  - replace (Z.min ex E) with ex in * by lia. subst ez.
    rewrite Z.sub_diag, Z.pow_0_r, Z.mul_1_r in H2. rewrite H2. reflexivity.
Qed.

Lemma binary_round_valid (s : bool) (mx : positive) (ex : Z) :
  valid (binary_round prec emax s mx ex) = true.
Proof.
  unfold binary_round.
  set (E := fexp prec emax (Zpos (digits2_pos mx) + ex)).
  destruct (shl_align_spec mx ex E) as [H1 H2].
  destruct (shl_align mx ex E) as [mz ez]. cbn [fst snd] in H1, H2.
  apply binary_round_aux_valid; [lia |].
  rewrite H2, Zdigits2_shift by lia. cbn [Zdigits2].
  replace (Zpos (digits2_pos mx) + (ex - Z.min ex E) + ez)
    with (Zpos (digits2_pos mx) + ex) by lia.
  fold E. lia.
Qed.

Lemma binary_normalize_valid (m e : Z) (sz : bool) :
  valid (binary_normalize prec emax m e sz) = true.
Proof.
  destruct m; cbn [binary_normalize]; [reflexivity | |];
    apply binary_round_valid.
Qed.

Lemma add_valid (x y : float) :
  valid x = true -> valid y = true -> valid (add x y) = true.
Proof.
  intros Hx Hy. unfold add.
  destruct x as [sx | sx | | sx mx ex], y as [sy | sy | | sy my ey];
    cbn [SFadd]; try assumption; try reflexivity;
    try (destruct sx, sy; reflexivity).
  apply binary_normalize_valid.
Qed.

Lemma sub_valid (x y : float) :
  valid x = true -> valid y = true -> valid (sub x y) = true.
Proof.
  intros Hx Hy. unfold sub.
  destruct x as [sx | sx | | sx mx ex], y as [sy | sy | | sy my ey];
    cbn [SFsub]; try assumption; try reflexivity;
    try (destruct sx, sy; reflexivity).
  apply binary_normalize_valid.
Qed.

Lemma digits_ge_53 (m : Z) : 2 ^ 52 <= m -> 53 <= Zdigits2 m.
Proof.
  intros H.
  assert (Hm : 0 < m) by (assert (0 < 2 ^ 52) by reflexivity; lia).
  pose proof (Zdigits2_bounds m Hm) as [_ Dhi].
  destruct (Z_le_gt_dec 53 (Zdigits2 m)) as [L | G]; [exact L | exfalso].
  assert (2 ^ Zdigits2 m <= 2 ^ 52).
  { apply Z.pow_le_mono_r; lia. }
  lia.
Qed.

Lemma mul_valid (x y : float) :
  valid x = true -> valid y = true -> valid (mul x y) = true.
Proof.
  intros Hx Hy. unfold mul.
  destruct x as [sx | sx | | sx mx ex], y as [sy | sy | | sy my ey];
    cbn [SFmul]; try reflexivity.
  apply valid_finite in Hx. destruct Hx as [[Hx1 Hx2] [Hx3 Hx4]].
  apply valid_finite in Hy. destruct Hy as [[Hy1 Hy2] [Hy3 Hy4]].
  apply binary_round_aux_valid; [lia |].
  rewrite fexp_eq.
  destruct (Z_le_gt_dec (ex + ey) (-1074)) as [L | G]; [lia |].
  assert (Hprod : 2 ^ 52 <= Zpos (mx * my)).
  { rewrite Pos2Z.inj_mul.
    destruct (Z_le_gt_dec ex (-1074)) as [Lx | Gx].
    - assert (2 ^ 52 <= Zpos my) by (apply Hy4; lia). nia.
    - assert (2 ^ 52 <= Zpos mx) by (apply Hx4; lia). nia. }
  apply digits_ge_53 in Hprod. lia.
Qed.

Lemma div_core_spec (mx my : positive) (ex ey : Z) :
  SFdiv_core_binary prec emax (Zpos mx) ex (Zpos my) ey =
    (quot_num mx my ex ey / Zpos my, quot_exp mx my ex ey,
     new_location (Zpos my) (quot_num mx my ex ey mod Zpos my)) /\
  0 <= quot_num mx my ex ey / Zpos my /\
  quot_exp mx my ex ey <=
    fexp prec emax (Zdigits2 (quot_num mx my ex ey / Zpos my) +
                    quot_exp mx my ex ey) /\
  fexp prec emax (Zdigits2 (quot_num mx my ex ey / Zpos my) +
                  quot_exp mx my ex ey) <=
    fexp prec emax (Zpos (digits2_pos mx) + ex - (Zpos (digits2_pos my) + ey) + 1).
Proof.
  set (D0 := Zpos (digits2_pos mx) + ex - (Zpos (digits2_pos my) + ey)).
  set (e' := quot_exp mx my ex ey).
  set (m' := quot_num mx my ex ey).
  assert (He'def : e' = Z.min (Z.max (D0 - 53) (-1074)) (ex - ey)) by reflexivity.
  assert (Hm'def : m' = Zpos mx * 2 ^ (ex - ey - e')) by reflexivity.
  clearbody e' m'.
  assert (Hs : 0 <= ex - ey - e') by lia.
  assert (Hp : 0 < 2 ^ (ex - ey - e')) by (apply Z.pow_pos_nonneg; lia).
  assert (Hm' : 0 < m') by nia.
  assert (Hq : 0 <= m' / Zpos my) by (apply Z.div_pos; lia).
  split; [| split; [exact Hq | ]].
  - unfold SFdiv_core_binary. cbn [Zdigits2]. fold D0.
    change (fexp prec emax D0) with (Z.max (D0 - 53) (-1074)).
    rewrite <- He'def.
    assert (Hm : match ex - ey - e' with
                 | 0 => Zpos mx
                 | Zpos _ => Z.shiftl (Zpos mx) (ex - ey - e')
                 | Zneg _ => 0
                 end = m').
    { rewrite Hm'def. destruct (ex - ey - e') as [| p | p] eqn:E.
      - cbn. lia.
      - rewrite Z.shiftl_mul_pow2 by lia. reflexivity.
      - lia. }
    rewrite Hm. unfold Z.div, Z.modulo.
    destruct (Z.div_eucl m' (Zpos my)) as [q r]. reflexivity.
  - pose proof (digits2_bounds mx) as [X1 X2].
    pose proof (digits2_bounds my) as [Y1 Y2].
    set (d1 := Zpos (digits2_pos mx)) in *.
    set (d2 := Zpos (digits2_pos my)) in *.
    assert (Hd1 : 0 < d1) by (unfold d1; lia).
    assert (Hd2 : 0 < d2) by (unfold d2; lia).
    set (sh := ex - ey - e') in *.
    set (q := m' / Zpos my) in *.
    rewrite !fexp_eq.
    split.
    + destruct (Z_le_gt_dec e' (-1074)) as [L | G]; [lia |].
      assert (He' : e' <= D0 - 53) by lia.
      assert (Hsh : 53 - d1 + d2 <= sh) by (unfold sh, D0 in *; lia).
      assert (Hq52 : 2 ^ 52 <= q).
      { apply Z.div_le_lower_bound; [lia |].
        apply Z.le_trans with (2 ^ d2 * 2 ^ 52); [nia |].
        rewrite <- Z.pow_add_r by lia.
        apply Z.le_trans with (2 ^ (d1 - 1) * 2 ^ sh).
        - rewrite <- Z.pow_add_r by lia. apply Z.pow_le_mono_r; lia.
        - rewrite Hm'def. nia. }
      apply digits_ge_53 in Hq52. lia.
    + destruct (Z.eq_dec q 0) as [E0 | E0].
      * rewrite E0. cbn [Zdigits2]. lia.
      * assert (Hqpos : 0 < q) by lia.
        pose proof (Zdigits2_bounds q Hqpos) as [Q1 Q2].
        pose proof (Zdigits2_pos q Hqpos) as Q0.
        assert (Hle : q * Zpos my <= m').
        { unfold q. rewrite Z.mul_comm. apply Z.mul_div_le. lia. }
        assert (Hdq : Zdigits2 q <= d1 + sh - d2 + 1).
        { destruct (Z_le_gt_dec (Zdigits2 q) (d1 + sh - d2 + 1)) as [L | G];
            [exact L | exfalso].
          assert (H1 : 2 ^ (d1 + sh - d2 + 1) <= 2 ^ (Zdigits2 q - 1))
            by (apply Z.pow_le_mono_r; lia).
          assert (H2 : m' < 2 ^ (d1 + sh)).
          { rewrite Hm'def. rewrite Z.pow_add_r by lia. nia. }
          destruct (Z_le_gt_dec 0 (d1 + sh - d2 + 1)) as [L0 | G0].
          - assert (H3 : 2 ^ (d1 + sh) = 2 ^ (d1 + sh - d2 + 1) * 2 ^ (d2 - 1)).
            { rewrite <- Z.pow_add_r by lia. f_equal. lia. }
            assert (H4 : 0 < 2 ^ (d1 + sh - d2 + 1))
              by (apply Z.pow_pos_nonneg; lia).
            assert (H5 : 0 < 2 ^ (d2 - 1)) by (apply Z.pow_pos_nonneg; lia).
            assert (H6 : 2 ^ (d1 + sh - d2 + 1) * 2 ^ (d2 - 1) <= q * Zpos my).
            { apply Z.mul_le_mono_nonneg; lia. }
            lia.
          - assert (H3 : 2 ^ (d1 + sh) <= 2 ^ (d2 - 1))
              by (apply Z.pow_le_mono_r; lia).
            nia. }
        unfold D0, sh in *. lia.
Qed.

Lemma div_valid (x y : float) :
  valid x = true -> valid y = true -> valid (div x y) = true.
Proof.
  intros Hx Hy. unfold div.
  destruct x as [sx | sx | | sx mx ex], y as [sy | sy | | sy my ey];
    cbn [SFdiv]; try reflexivity.
  destruct (div_core_spec mx my ex ey) as (H1 & H2 & H3 & _).
  rewrite H1.
  apply binary_round_aux_valid; assumption.
Qed.

Lemma finalize_finite (s : bool) (R e1 : Z) :
  0 <= R -> e1 <= 970 ->
  is_finite (finalize s R e1) = true /\ sign_bit (finalize s R e1) = s.
Proof.
  intros HR He. unfold finalize.
  destruct (R <? 2 ^ 53).
  - unfold overflow. destruct R as [| p | p]; [split; reflexivity | | lia].
    destruct (Z.leb_spec e1 971); [split; reflexivity | lia].
  - unfold overflow. change (2 ^ 52) with (Zpos 4503599627370496).
    destruct (Z.leb_spec (e1 + 1) 971); [split; reflexivity | lia].
Qed.

(** A quotient of a non-negative voltage below [2^1008] by a current above
    the noise floor is a finite, non-negative number. *)
Lemma div_above_floor (v c : float) :
  valid v = true -> valid c = true ->
  geb v f_0_0 = true -> ltb v f_huge = true ->
  gtb c f_0_0001 = true ->
  is_finite (div v c) = true /\ ltb (div v c) f_0_0 = false.
Proof.
  intros Hv Hc Hv0 Hvh Hgt.
  assert (Hfin : forall x, is_finite x = true -> sign_bit x = false ->
                           ltb x f_0_0 = false).
  { intros x Hf Hs. destruct x as [s | s | | s m e]; try discriminate Hf.
    - reflexivity.
    - cbn in Hs. subst s. reflexivity. }
  destruct c as [sc | sc | | sc mc ec]; try discriminate Hgt.
  - (* infinite current *)
    destruct sc; [discriminate Hgt |].
    destruct v as [sv | [|] | | [|] mv ev];
      unfold ltb, geb, SFltb, SFleb, f_huge, f_0_0 in Hvh, Hv0;
      cbn [SFcompare] in Hvh, Hv0;
      try discriminate Hvh; try discriminate Hv0.
    + split; [reflexivity |]. destruct sv; reflexivity.
    + split; reflexivity.
  - destruct sc; [discriminate Hgt |].
    assert (Hec : -66 <= ec).
    { unfold gtb, SFltb, f_0_0001 in Hgt. cbn [SFcompare] in Hgt.
      destruct (Z.compare_spec (-66) ec); lia || discriminate Hgt. }
    destruct v as [sv | [|] | | sv mv ev];
      unfold ltb, geb, SFltb, SFleb, f_huge, f_0_0 in Hvh, Hv0;
      cbn [SFcompare] in Hvh, Hv0;
      try discriminate Hvh; try discriminate Hv0.
    + split; [reflexivity |]. destruct sv; reflexivity.
    + destruct sv; [discriminate Hv0 |].
      assert (Hmv : ev <= 956).
      { destruct (Z.compare_spec ev 956); lia || discriminate Hvh. }
      apply valid_finite in Hv. destruct Hv as [[Hv1 Hv2] [Hv3 Hv4]].
      apply valid_finite in Hc. destruct Hc as [[Hc1 Hc2] [Hc3 Hc4]].
      assert (Hdc : 53 <= Zpos (digits2_pos mc)).
      { apply (digits_ge_53 (Zpos mc)). apply Hc4. lia. }
      assert (Hdv : Zpos (digits2_pos mv) <= 53).
      { pose proof (digits2_bounds mv) as [Dlo _].
        destruct (Z_le_gt_dec (Zpos (digits2_pos mv)) 53) as [L | G];
          [exact L | exfalso].
        assert (2 ^ 53 <= 2 ^ (Zpos (digits2_pos mv) - 1))
          by (apply Z.pow_le_mono_r; lia).
        lia. }
      unfold div. cbn [SFdiv].
      destruct (div_core_spec mv mc ev ec) as (H1 & H2 & H3 & H4).
      set (q := quot_num mv mc ev ec / Zpos mc) in *.
      set (e' := quot_exp mv mc ev ec) in *.
      rewrite H1. rewrite binary_round_aux_spec by assumption.
      set (e1 := fexp prec emax (Zdigits2 q + e')) in *.
      rewrite fexp_eq in H4.
      assert (Hn : 0 <= e1 - e') by lia.
      pose proof (round_at_bounds q (new_location (Zpos mc)
                    (quot_num mv mc ev ec mod Zpos mc)) (e1 - e') H2 Hn)
        as [Rlo _].
      assert (Hq0 : 0 <= q / 2 ^ (e1 - e'))
        by (apply Z.div_pos; [lia | apply Z.pow_pos_nonneg; lia]).
      destruct (finalize_finite false
                  (round_at q (new_location (Zpos mc)
                     (quot_num mv mc ev ec mod Zpos mc)) (e1 - e')) e1)
        as [F1 F2]; [lia | lia |].
      split; [exact F1 |]. apply Hfin; assumption.
Qed.

(** ** Round to nearest, ties to even, on integers *)

Lemma round_half_even_error (M P : Z) :
  0 < P -> 2 * Z.abs (Fmt.round_half_even M P * P - M) <= P.
Proof.
  intros HP. unfold Fmt.round_half_even.
  pose proof (Z.div_mod M P ltac:(lia)) as Hdm.
  pose proof (Z.mod_pos_bound M P HP) as Hr.
  set (q := M / P) in *. set (r := M mod P) in *.
  destruct (Z.compare_spec (2 * r) P) as [E | L | G];
    [destruct (Z.even q) |..]; nia.
Qed.

Lemma round_half_even_near (m P d : Z) :
  0 < P -> Z.even m = true -> 2 * Z.abs d <= P ->
  Fmt.round_half_even (m * P + d) P = m.
Proof.
  intros HP Hm Hd. unfold Fmt.round_half_even.
  destruct (Z_le_gt_dec 0 d) as [Hpos | Hneg].
  - assert (Hq : (m * P + d) / P = m)
      by (symmetry; apply (Z.div_unique _ _ _ d); lia).
    assert (Hr : (m * P + d) mod P = d)
      by (symmetry; apply (Z.mod_unique _ _ m); lia).
    rewrite Hq, Hr, Hm.
    destruct (Z.compare_spec (2 * d) P); lia.
  - assert (Hq : (m * P + d) / P = m - 1)
      by (symmetry; apply (Z.div_unique _ _ _ (P + d)); lia).
    assert (Hr : (m * P + d) mod P = P + d)
      by (symmetry; apply (Z.mod_unique _ _ (m - 1)); lia).
    rewrite Hq, Hr.
    assert (Ho : Z.even (m - 1) = false).
    { rewrite Z.even_sub, Hm. reflexivity. }
    rewrite Ho.
    destruct (Z.compare_spec (2 * (P + d)) P); lia.
Qed.

Lemma round_half_even_bounds (M P : Z) :
  0 < P -> M / P <= Fmt.round_half_even M P <= M / P + 1.
Proof.
  intros HP. unfold Fmt.round_half_even.
  destruct (2 * (M mod P) ?= P); [destruct (Z.even (M / P)) |..]; lia.
Qed.

(** ** Normalisation of an exact positive integer mantissa *)

Lemma normalize_pos (M e : Z) :
  0 < M ->
  binary_normalize prec emax M e false =
  finalize false (kept M e) (fexp prec emax (Zdigits2 M + e)).
Proof.
  intros HM. destruct M as [| p | p]; try lia.
  cbn [binary_normalize]. rewrite binary_round_spec. reflexivity.
Qed.

Lemma normalize_neg (M e : Z) :
  0 < M ->
  binary_normalize prec emax (- M) e false =
  finalize true (kept M e) (fexp prec emax (Zdigits2 M + e)).
Proof.
  intros HM. destruct M as [| p | p]; try lia.
  cbn [binary_normalize Z.opp]. rewrite binary_round_spec. reflexivity.
Qed.

Lemma kept_bounds (M e : Z) :
  0 < M -> -1074 <= e ->
  0 < kept M e <= 2 ^ 53.
Proof.
  intros HM He. unfold kept. rewrite fexp_eq.
  pose proof (Zdigits2_bounds M HM) as [Dlo Dhi].
  pose proof (Zdigits2_pos M HM) as Dpos.
  set (d := Zdigits2 M) in *.
  set (E := Z.max (d + e - 53) (-1074)).
  destruct (Z.leb_spec E e) as [Hle | Hgt].
  - assert (Hp : 0 < 2 ^ (e - E)) by (apply Z.pow_pos_nonneg; lia).
    split; [nia |].
    apply Z.le_trans with (2 ^ d * 2 ^ (e - E)); [nia |].
    rewrite <- Z.pow_add_r by lia. apply Z.pow_le_mono_r; lia.
  - assert (HE : E = d + e - 53) by lia.
    assert (Hn : 0 < E - e) by lia.
    assert (Hp : 0 < 2 ^ (E - e)) by (apply Z.pow_pos_nonneg; lia).
    pose proof (round_half_even_bounds M (2 ^ (E - e)) Hp) as [Rlo Rhi].
    assert (Hlo : 2 ^ 52 <= M / 2 ^ (E - e)).
    { apply Z.div_le_lower_bound; [exact Hp |].
      rewrite <- Z.pow_add_r by lia.
      apply Z.le_trans with (2 := Dlo). apply Z.pow_le_mono_r; lia. }
    assert (Hhi : M / 2 ^ (E - e) < 2 ^ 53).
    { apply Z.div_lt_upper_bound; [exact Hp |].
      rewrite <- Z.pow_add_r by lia.
      apply Z.lt_le_trans with (1 := Dhi). apply Z.pow_le_mono_r; lia. }
    assert (0 < 2 ^ 52) by reflexivity.
    lia.
Qed.

Lemma sub_pos_pos (m1 m2 : positive) (e1 e2 : Z) :
  sub (S754_finite false m1 e1) (S754_finite false m2 e2) =
  binary_normalize prec emax
    (Zpos m1 * 2 ^ (e1 - Z.min e1 e2) - Zpos m2 * 2 ^ (e2 - Z.min e1 e2))
    (Z.min e1 e2) false.
Proof.
  unfold sub. cbn [SFsub cond_Zopp].
  destruct (shl_align_spec m1 e1 (Z.min e1 e2)) as [_ H1].
  destruct (shl_align_spec m2 e2 (Z.min e1 e2)) as [_ H2].
  rewrite H1, H2.
  replace (Z.min e1 (Z.min e1 e2)) with (Z.min e1 e2) by lia.
  replace (Z.min e2 (Z.min e1 e2)) with (Z.min e1 e2) by lia.
  reflexivity.
Qed.

Lemma add_pos_pos (m1 m2 : positive) (e1 e2 : Z) :
  add (S754_finite false m1 e1) (S754_finite false m2 e2) =
  binary_normalize prec emax
    (Zpos m1 * 2 ^ (e1 - Z.min e1 e2) + Zpos m2 * 2 ^ (e2 - Z.min e1 e2))
    (Z.min e1 e2) false.
Proof.
  unfold add. cbn [SFadd cond_Zopp].
  destruct (shl_align_spec m1 e1 (Z.min e1 e2)) as [_ H1].
  destruct (shl_align_spec m2 e2 (Z.min e1 e2)) as [_ H2].
  rewrite H1, H2.
  replace (Z.min e1 (Z.min e1 e2)) with (Z.min e1 e2) by lia.
  replace (Z.min e2 (Z.min e1 e2)) with (Z.min e1 e2) by lia.
  reflexivity.
Qed.

Lemma finalize_cases (s : bool) (R e1 : Z) :
  0 < R <= 2 ^ 53 -> e1 <= 970 ->
  exists m e,
    finalize s R e1 = S754_finite s m e /\
    ((R < 2 ^ 53 /\ e = e1 /\ Zpos m = R) \/
     (R = 2 ^ 53 /\ e = e1 + 1 /\ Zpos m = 2 ^ 52)).
Proof.
  intros HR He. unfold finalize.
  destruct (Z.ltb_spec R (2 ^ 53)) as [Hlt | Hge].
  - destruct R as [| p | p]; try lia.
    exists p, e1. cbn [overflow].
    destruct (Z.leb_spec e1 971); [| lia].
    split; [reflexivity |]. left. repeat split; assumption.
  - exists 4503599627370496%positive, (e1 + 1).
    change (2 ^ 52) with (Zpos 4503599627370496). cbn [overflow].
    destruct (Z.leb_spec (e1 + 1) 971); [| lia].
    split; [reflexivity |]. right. repeat split; lia.
Qed.

Lemma kept_exact_lt (M e : Z) :
  0 < M -> fexp prec emax (Zdigits2 M + e) <= e ->
  kept M e = M * 2 ^ (e - fexp prec emax (Zdigits2 M + e)) /\
  kept M e < 2 ^ 53.
Proof.
  intros HM HE. unfold kept.
  set (E := fexp prec emax (Zdigits2 M + e)) in *.
  destruct (Z.leb_spec E e) as [_ | Hgt]; [| lia].
  split; [reflexivity |].
  pose proof (Zdigits2_bounds M HM) as [_ Dhi].
  assert (Hp : 0 < 2 ^ (e - E)) by (apply Z.pow_pos_nonneg; lia).
  apply Z.lt_le_trans with (2 ^ Zdigits2 M * 2 ^ (e - E)); [nia |].
  pose proof (Zdigits2_pos M HM).
  rewrite <- Z.pow_add_r by lia. apply Z.pow_le_mono_r; [lia |].
  unfold E. rewrite fexp_eq. lia.
Qed.

(** A positive number below 100. *)
Lemma below_100 (mx : positive) (ex : Z) :
  valid (S754_finite false mx ex) = true ->
  ltb (S754_finite false mx ex) f_100 = true ->
  -1074 <= ex <= -46 /\ Zpos mx < m100 * 2 ^ (-46 - ex).
Proof.
  intros Hv Hlt.
  pose proof (valid_finite _ _ _ Hv) as [[He1 He2] _].
  assert (Hex : ex <= -46).
  { unfold ltb, SFltb, f_100 in Hlt. cbn [SFcompare] in Hlt.
    destruct (Z.compare_spec ex (-46)); lia || discriminate Hlt. }
  split; [lia |].
  rewrite (OrderFacts.ltb_units (S754_finite false mx ex) f_100 Hv eq_refl eq_refl eq_refl) in Hlt.
  apply Z.ltb_lt in Hlt. unfold f_100 in Hlt. cbn [units cond_Zopp] in Hlt.
  replace (-46 + 1074) with ((-46 - ex) + (ex + 1074)) in Hlt by lia.
  rewrite (Z.pow_add_r 2 (-46 - ex) (ex + 1074)) in Hlt by lia.
  assert (Hp : 0 < 2 ^ (ex + 1074)) by (apply Z.pow_pos_nonneg; lia).
  unfold m100. nia.
Qed.

(** The difference [100 - x] for [0 < x < 100]: either exact, or rounded by
    at most half a unit of the larger exponent and never above 100. *)
Lemma sub_100_form (mx : positive) (ex : Z) :
  valid (S754_finite false mx ex) = true ->
  ltb (S754_finite false mx ex) f_100 = true ->
  exists md ed,
    sub f_100 (S754_finite false mx ex) = S754_finite false md ed /\
    ((ed <= ex /\
      Zpos md = (m100 * 2 ^ (-46 - ex) - Zpos mx) * 2 ^ (ex - ed)) \/
     (ex < ed /\ ex < -46 /\
      Zpos md * 2 ^ (ed - ex) <= m100 * 2 ^ (-46 - ex) /\
      2 * Z.abs (Zpos md * 2 ^ (ed - ex) - (m100 * 2 ^ (-46 - ex) - Zpos mx))
        <= 2 ^ (-46 - ex))).
Proof.
  intros Hv Hlt.
  destruct (below_100 mx ex Hv Hlt) as [[He1 He2] Hm].
  set (k := -46 - ex) in *.
  assert (Hk : 0 <= k) by (unfold k; lia).
  assert (HT : 0 < 2 ^ k) by (apply Z.pow_pos_nonneg; lia).
  set (A := m100 * 2 ^ k) in *.
  unfold f_100. rewrite sub_pos_pos.
  replace (Z.min (-46) ex) with ex by lia.
  fold k. change (Zpos 7036874417766400) with m100. fold A.
  rewrite Z.sub_diag, Z.pow_0_r, Z.mul_1_r.
  set (M1 := A - Zpos mx) in *.
  assert (HM1 : 0 < M1) by (unfold M1; lia).
  rewrite normalize_pos by exact HM1.
  pose proof (Zdigits2_bounds M1 HM1) as [Dlo Dhi].
  pose proof (Zdigits2_pos M1 HM1) as Dpos.
  assert (HA : A < 2 ^ 53 * 2 ^ k) by (unfold A, m100; nia).
  assert (Hd : Zdigits2 M1 <= 53 + k).
  { destruct (Z_le_gt_dec (Zdigits2 M1) (53 + k)) as [L | G];
      [exact L | exfalso].
    assert (2 ^ (53 + k) <= 2 ^ (Zdigits2 M1 - 1))
      by (apply Z.pow_le_mono_r; lia).
    rewrite Z.pow_add_r in H by lia. lia. }
  set (E1 := fexp prec emax (Zdigits2 M1 + ex)) in *.
  assert (HE1 : E1 = Z.max (Zdigits2 M1 + ex - 53) (-1074)) by reflexivity.
  assert (HE1' : E1 <= -46) by (unfold k in *; lia).
  pose proof (kept_bounds M1 ex HM1 He1) as HR.
  destruct (finalize_cases false (kept M1 ex) E1 HR ltac:(lia))
    as (md & ed & Hfin & Hcase).
  exists md, ed. split; [exact Hfin |].
  destruct (Z_le_gt_dec E1 ex) as [Hexact | Hround].
  - left.
    destruct (kept_exact_lt M1 ex HM1 Hexact) as [Hk1 Hk2]. fold E1 in Hk1.
    destruct Hcase as [(_ & Hed & Hmd) | (H53 & _)]; [| lia].
    subst ed. split; [exact Hexact |]. rewrite Hmd. exact Hk1.
  - right.
    set (n1 := E1 - ex).
    assert (Hn1 : 1 <= n1 <= k) by (unfold n1, k in *; lia).
    assert (HP : 0 < 2 ^ n1) by (apply Z.pow_pos_nonneg; lia).
    assert (Hkept : kept M1 ex = Fmt.round_half_even M1 (2 ^ n1)).
    { unfold kept. fold E1. destruct (Z.leb_spec E1 ex); [lia | reflexivity]. }
    assert (Hval : Zpos md * 2 ^ (ed - ex) = kept M1 ex * 2 ^ n1).
    { destruct Hcase as [(_ & Hed & Hmd) | (H53 & Hed & Hmd)].
      - subst ed. rewrite Hmd. reflexivity.
      - subst ed. rewrite Hmd, H53.
        replace (E1 + 1 - ex) with (1 + n1) by (unfold n1; lia).
        rewrite Z.pow_add_r by lia. change (2 ^ 53) with (2 ^ 52 * 2 ^ 1).
        ring. }
    assert (Hed : ex < ed) by (destruct Hcase as [(_ & ? & _) | (_ & ? & _)]; lia).
    split; [exact Hed |]. split; [unfold k in *; lia |].
    rewrite Hval, Hkept.
    pose proof (round_half_even_error M1 (2 ^ n1) HP) as Herr.
    pose proof (round_half_even_bounds M1 (2 ^ n1) HP) as [_ Rhi].
    assert (Hsplit : 2 ^ k = 2 ^ (k - n1) * 2 ^ n1).
    { rewrite <- Z.pow_add_r by lia. f_equal. lia. }
    assert (HT' : 0 < 2 ^ (k - n1)) by (apply Z.pow_pos_nonneg; lia).
    split.
    + assert (Hq : M1 / 2 ^ n1 < m100 * 2 ^ (k - n1)).
      { apply Z.div_lt_upper_bound; [exact HP |].
        unfold M1, A. rewrite Hsplit. nia. }
      unfold A. rewrite Hsplit. nia.
    + assert (2 ^ n1 <= 2 ^ k) by (apply Z.pow_le_mono_r; lia).
      lia.
Qed.

Lemma finalize_100 : finalize false m100 (-46) = f_100.
Proof. reflexivity. Qed.

(** The heart of the invariant [soc + dod == 100]: for a float [x] strictly
    between 0 and 100, the rounded sum of [x] and the rounded difference
    [100 - x] is exactly 100. *)
Lemma add_sub_100 (mx : positive) (ex : Z) :
  valid (S754_finite false mx ex) = true ->
  ltb (S754_finite false mx ex) f_100 = true ->
  add (S754_finite false mx ex) (sub f_100 (S754_finite false mx ex)) = f_100.
Proof.
  intros Hv Hlt.
  destruct (below_100 mx ex Hv Hlt) as [[He1 He2] Hm].
  destruct (sub_100_form mx ex Hv Hlt)
    as (md & ed & Hsub & [(Hed & Hmd) | (Hed & Hex & Hle & Herr)]).
  - (* the difference is exact *)
    rewrite Hsub, add_pos_pos.
    replace (Z.min ex ed) with ed by lia.
    rewrite Z.sub_diag, Z.pow_0_r, Z.mul_1_r, Hmd.
    assert (HM2 : Zpos mx * 2 ^ (ex - ed) +
                  (m100 * 2 ^ (-46 - ex) - Zpos mx) * 2 ^ (ex - ed) =
                  m100 * 2 ^ (-46 - ed)).
    { replace (-46 - ed) with ((-46 - ex) + (ex - ed)) by lia.
      rewrite Z.pow_add_r by lia. ring. }
    rewrite HM2.
    assert (Hp : 0 < 2 ^ (-46 - ed)) by (apply Z.pow_pos_nonneg; lia).
    assert (Hpos : 0 < m100 * 2 ^ (-46 - ed)) by (unfold m100; nia).
    rewrite normalize_pos by exact Hpos.
    assert (Hdig : Zdigits2 (m100 * 2 ^ (-46 - ed)) + ed = 7).
    { rewrite Zdigits2_shift by (unfold m100; lia).
      change (Zdigits2 m100) with 53. lia. }
    unfold kept. rewrite Hdig. change (fexp prec emax 7) with (-46).
    destruct (Z.leb_spec (-46) ed) as [Hle | Hgt].
    + replace ed with (-46) by lia.
      change (m100 * 2 ^ (-46 - -46) * 2 ^ (-46 - -46)) with m100.
      apply finalize_100.
    + rewrite <- (Z.add_0_r (m100 * 2 ^ (-46 - ed))).
      rewrite round_half_even_near; [apply finalize_100 | lia | reflexivity | ].
      cbn. lia.
  - (* the difference is rounded *)
    set (k := -46 - ex) in *.
    assert (Hk : 1 <= k) by (unfold k; lia).
    assert (HT : 1 <= 2 ^ k).
    { assert (0 < 2 ^ k) by (apply Z.pow_pos_nonneg; lia). lia. }
    rewrite Hsub, add_pos_pos.
    replace (Z.min ex ed) with ex by lia.
    rewrite Z.sub_diag, Z.pow_0_r, Z.mul_1_r.
    set (V := Zpos md * 2 ^ (ed - ex)) in *.
    set (d := V - (m100 * 2 ^ k - Zpos mx)) in *.
    replace (Zpos mx + V) with (m100 * 2 ^ k + d) by (unfold d; lia).
    assert (Hpos : 0 < m100 * 2 ^ k + d) by (unfold m100 in *; lia).
    rewrite normalize_pos by exact Hpos.
    assert (Hdig : Zdigits2 (m100 * 2 ^ k + d) = 53 + k).
    { apply Zdigits2_unique; [| exact Hpos].
      replace (53 + k - 1) with (52 + k) by lia.
      rewrite !Z.pow_add_r by lia.
      change (2 ^ 52) with 4503599627370496.
      change (2 ^ 53) with 9007199254740992.
      unfold m100 in *. lia. }
    unfold kept. rewrite Hdig.
    replace (53 + k + ex) with 7 by (unfold k; lia).
    change (fexp prec emax 7) with (-46).
    destruct (Z.leb_spec (-46) ex) as [Hle' | Hgt]; [lia |].
    fold k.
    rewrite round_half_even_near; [apply finalize_100 | lia | reflexivity | ].
    exact Herr.
Qed.

(** [100 - x] stays between 0 and 100. *)
Lemma sub_100_range (mx : positive) (ex : Z) :
  valid (S754_finite false mx ex) = true ->
  ltb (S754_finite false mx ex) f_100 = true ->
  exists md ed,
    sub f_100 (S754_finite false mx ex) = S754_finite false md ed /\
    valid (S754_finite false md ed) = true /\
    leb (S754_finite false md ed) f_100 = true.
Proof.
  intros Hv Hlt.
  destruct (below_100 mx ex Hv Hlt) as [[He1 He2] Hm].
  destruct (sub_100_form mx ex Hv Hlt)
    as (md & ed & Hsub & Hcase).
  exists md, ed. split; [exact Hsub |].
  assert (Hvd : valid (S754_finite false md ed) = true).
  { rewrite <- Hsub. apply sub_valid; [reflexivity | exact Hv]. }
  split; [exact Hvd |].
  rewrite (OrderFacts.leb_units (S754_finite false md ed) f_100 Hvd
             eq_refl eq_refl eq_refl).
  apply Z.leb_le. unfold f_100. cbn [units cond_Zopp].
  change (Zpos 7036874417766400) with m100.
  pose proof (valid_finite _ _ _ Hvd) as [[Hd1 Hd2] _].
  assert (Hp : 0 < 2 ^ (ex + 1074)) by (apply Z.pow_pos_nonneg; lia).
  replace (-46 + 1074) with ((-46 - ex) + (ex + 1074)) by lia.
  rewrite (Z.pow_add_r 2 (-46 - ex) (ex + 1074)) by lia.
  destruct Hcase as [(Hed & Hmd) | (Hed & Hex & Hle & Herr)].
  - rewrite Hmd.
    replace (ex + 1074) with ((ex - ed) + (ed + 1074)) by lia.
    rewrite (Z.pow_add_r 2 (ex - ed) (ed + 1074)) by lia.
    assert (0 < 2 ^ (ex - ed)) by (apply Z.pow_pos_nonneg; lia).
    assert (0 < 2 ^ (ed + 1074)) by (apply Z.pow_pos_nonneg; lia).
    assert (0 < 2 ^ (-46 - ex)) by (apply Z.pow_pos_nonneg; lia).
    nia.
  - replace (ed + 1074) with ((ed - ex) + (ex + 1074)) by lia.
    rewrite (Z.pow_add_r 2 (ed - ex) (ex + 1074)) by lia.
    nia.
Qed.

End Rounding.

(** ** The literals *)

(** The sample readings are the binary64 numbers their names say. *)
Lemma samples_nearest :
  F64.nearest 12 1 f_12_0 = true /\
  F64.nearest 500 1 f_500 = true /\
  F64.nearest 25 1 f_25 = true /\
  F64.nearest 40 1 f_40 = true /\
  F64.nearest 800 1 f_800 = true /\
  F64.nearest 24 1 f_24 = true /\
  F64.nearest 1 2 f_0_5 = true /\
  F64.sub f_12_6 f_9_0 = span.
Proof. vm_compute. repeat split. Qed.

(** Every float literal of the script is the binary64 number nearest to
    its decimal text. *)
Lemma literals_nearest :
  F64.nearest 1 10 f_0_1 = true /\
  F64.nearest 115 10 f_11_5 = true /\
  F64.nearest 105 10 f_10_5 = true /\
  F64.nearest 126 10 f_12_6 = true /\
  F64.nearest 9 1 f_9_0 = true /\
  F64.nearest 1000 1 f_1000_0 = true /\
  F64.nearest 1 10000 f_0_0001 = true /\
  F64.of_Z 100 = f_100 /\
  F64.of_Z 0 = f_0_0.
Proof. vm_compute. repeat split. Qed.

(** ** Health classification *)

Section Status.

Import F64.

Local Open Scope string_scope.

(** C9 -- the classification is a total function with three possible
    results, whatever the thresholds and whatever the float, infinities and
    NaN included; both comparisons are false on a NaN voltage, which is
    therefore classified Critical. *)
Theorem get_battery_status_total (cfg : config) (voltage : float) :
  (get_battery_status cfg voltage = "Healthy" \/
   get_battery_status cfg voltage = "Moderate" \/
   get_battery_status cfg voltage = "Critical") /\
  geb S754_nan (VOLTAGE_HEALTHY cfg) = false /\
  geb S754_nan (VOLTAGE_MODERATE cfg) = false /\
  get_battery_status cfg S754_nan = "Critical" /\
  get_battery_status constants (S754_infinity false) = "Healthy" /\
  get_battery_status constants (S754_infinity true) = "Critical".
Proof.
  assert (Hnan : forall y, geb S754_nan y = false).
  { intros y. unfold geb, SFleb. destruct y; reflexivity. }
  split; [| split; [| split; [| split; [| split]]]].
  - unfold get_battery_status.
    destruct (geb voltage (VOLTAGE_HEALTHY cfg)); [left; reflexivity |].
    destruct (geb voltage (VOLTAGE_MODERATE cfg)); right; [left | right];
      reflexivity.
  - apply Hnan.
  - apply Hnan.
  - unfold get_battery_status. rewrite !Hnan. reflexivity.
  - reflexivity.
  - reflexivity.
Qed.

Lemma thresholds_Q :
  (to_Q f_11_5 == 23 # 2)%Q /\ (to_Q f_10_5 == 21 # 2)%Q.
Proof. split; vm_compute; reflexivity. Qed.

(** C1 -- with the thresholds of the script, a finite voltage of value at
    least 11.5 is Healthy, one in [10.5, 11.5) is Moderate and one below
    10.5 is Critical; a voltage equal to a threshold is in the higher
    band; plus infinity is Healthy and minus infinity Critical. *)
Theorem get_battery_status_bands (voltage : float) :
  valid voltage = true -> is_finite voltage = true ->
  ((23 # 2 <= to_Q voltage)%Q ->
     get_battery_status constants voltage = "Healthy") /\
  ((21 # 2 <= to_Q voltage)%Q /\ (to_Q voltage < 23 # 2)%Q ->
     get_battery_status constants voltage = "Moderate") /\
  ((to_Q voltage < 21 # 2)%Q ->
     get_battery_status constants voltage = "Critical") /\
  get_battery_status constants f_11_5 = "Healthy" /\
  get_battery_status constants f_10_5 = "Moderate" /\
  get_battery_status constants (S754_infinity false) = "Healthy" /\
  get_battery_status constants (S754_infinity true) = "Critical".
Proof.
  intros Hv Hf.
  destruct thresholds_Q as [Hh Hm].
  assert (Vh : valid f_11_5 = true) by reflexivity.
  assert (Vm : valid f_10_5 = true) by reflexivity.
  assert (Fh : is_finite f_11_5 = true) by reflexivity.
  assert (Fm : is_finite f_10_5 = true) by reflexivity.
  unfold get_battery_status. cbn [VOLTAGE_HEALTHY VOLTAGE_MODERATE constants].
  split; [| split; [| split; [| split; [| split; [| split]]]]];
    try reflexivity.
  - intros H. rewrite <- Hh in H.
    apply (OrderFacts.geb_true voltage f_11_5 Hv Vh Hf Fh) in H.
    rewrite H. reflexivity.
  - intros [H1 H2]. rewrite <- Hm in H1. rewrite <- Hh in H2.
    apply (OrderFacts.geb_true voltage f_10_5 Hv Vm Hf Fm) in H1.
    apply (OrderFacts.geb_false voltage f_11_5 Hv Vh Hf Fh) in H2.
    rewrite H1, H2. reflexivity.
  - intros H.
    assert (H2 : (to_Q voltage < to_Q f_11_5)%Q).
    { rewrite Hh. apply Qlt_trans with (1 := H). reflexivity. }
    rewrite <- Hm in H.
    apply (OrderFacts.geb_false voltage f_10_5 Hv Vm Hf Fm) in H.
    apply (OrderFacts.geb_false voltage f_11_5 Hv Vh Hf Fh) in H2.
    rewrite H, H2. reflexivity.
Qed.

Lemma get_battery_status_bands_witness :
  get_battery_status constants f_12_0 = "Healthy" /\
  get_battery_status constants f_11_5 = "Healthy".
Proof.
  destruct (get_battery_status_bands f_12_0 eq_refl eq_refl)
    as (H1 & _ & _ & H4 & _).
  split; [apply H1; vm_compute; discriminate | exact H4].
Defined.

End Status.

(** ** Reasoning about the statements of the script *)

Section Logic.

Variable cfg : config.
Variable w : world.

Lemma bind_Ok {A B : Type} (c : M A) (k : A -> M B) s b s' :
  bind c k s = (Py.Ok b, s') ->
  exists a s1, c s = (Py.Ok a, s1) /\ k a s1 = (Py.Ok b, s').
Proof.
  unfold bind. destruct (c s) as [[a | e] s1]; intros H.
  - exists a, s1. split; [reflexivity | exact H].
  - discriminate H.
Qed.

Lemma bind_Raise {A B : Type} (c : M A) (k : A -> M B) s e s' :
  bind c k s = (Py.Raise e, s') ->
  c s = (Py.Raise e, s') \/
  exists a s1, c s = (Py.Ok a, s1) /\ k a s1 = (Py.Raise e, s').
Proof.
  unfold bind. destruct (c s) as [[a | e0] s1]; intros H.
  - right. exists a, s1. split; [reflexivity | exact H].
  - left. inversion H; reflexivity.
Qed.

Lemma stable_ret I {A : Type} (a : A) : stable I (ret a).
Proof. intros s r s' H HI. inversion H; subst. exact HI. Qed.

Lemma stable_lift I {A : Type} (r : Py.result A) : stable I (lift r).
Proof. intros s r' s' H HI. inversion H; subst. exact HI. Qed.

Lemma stable_bind I {A B : Type} (c : M A) (k : A -> M B) :
  stable I c -> (forall a, stable I (k a)) -> stable I (bind c k).
Proof.
  intros Hc Hk s r s' H HI. unfold bind in H.
  destruct (c s) as [[a | e] s1] eqn:E.
  - apply (Hk a s1 r s' H). apply (Hc s _ s1 E HI).
  - inversion H; subst. apply (Hc s _ s' E HI).
Qed.

Section Frame.

Variable I : state -> Prop.
Hypothesis HI : frame I.

Lemma stable_read_bus_voltage : stable I (read_bus_voltage w).
Proof.
  intros s r s' H H0. inversion H; subst. apply (fr_bus_voltage I HI), H0.
Qed.

Lemma stable_read_current : stable I (read_current w).
Proof.
  intros s r s' H H0. inversion H; subst. apply (fr_current I HI), H0.
Qed.

Lemma stable_read_temperature : stable I (read_temperature w).
Proof.
  intros s r s' H H0. inversion H; subst. apply (fr_temperature I HI), H0.
Qed.

Lemma stable_read_relative_humidity : stable I (read_relative_humidity w).
Proof.
  intros s r s' H H0. inversion H; subst. apply (fr_humidity I HI), H0.
Qed.

Lemma stable_lcd_call op : page_op op -> stable I (lcd_call w op).
Proof.
  intros Hop s r s' H H0. unfold lcd_call in H.
  destruct (lcd_fault w (n_lcd s)); inversion H; subst.
  - apply (fr_lcd_failed I HI), H0.
  - apply (fr_lcd_done I HI); assumption.
Qed.

Lemma stable_get_page : stable I get_page.
Proof. intros s r s' H H0. inversion H; subst. exact H0. Qed.

Lemma stable_show pg status bus_v temp hum z soc_v dod_v :
  stable I (show w pg status bus_v temp hum z soc_v dod_v).
Proof.
  unfold show.
  apply stable_bind; [apply stable_lcd_call; constructor | intros _].
  destruct (pg =? 0); [| destruct (pg =? 1);
    [| destruct (pg =? 2); [| destruct (pg =? 3)]]];
  repeat first
    [ apply stable_ret
    | apply stable_lift
    | apply stable_read_current
    | apply stable_lcd_call; constructor
    | apply stable_bind; [| intros ?] ].
Qed.

Lemma stable_sample_and_show : stable I (sample_and_show cfg w).
Proof.
  unfold sample_and_show.
  repeat first
    [ apply stable_show
    | apply stable_lift
    | apply stable_get_page
    | apply stable_read_bus_voltage
    | apply stable_read_current
    | apply stable_read_temperature
    | apply stable_read_relative_humidity
    | apply stable_bind; [| intros ?] ].
Qed.

End Frame.

(** What [advance] does: the page moves on by one modulo 4, then the
    process sleeps. *)
Lemma advance_spec s :
  advance cfg w s =
  (match sleep_fault w (n_sleep s) with
   | None => Py.Ok tt
   | Some e => Py.Raise e
   end, tick_sleep (set_page ((page s + 1) mod 4) s)).
Proof.
  unfold advance, bind, get_page, assign_page, sleep. cbn.
  destruct (sleep_fault w (n_sleep s)); reflexivity.
Qed.

Lemma frame_page p : frame (fun s => page s = p).
Proof. constructor; intros; assumption. Qed.

(** A successful iteration advances the page exactly once. *)
Lemma cycle_page s s' :
  cycle cfg w s = (Py.Ok tt, s') -> page s' = (page s + 1) mod 4.
Proof.
  unfold cycle. intros H.
  apply bind_Ok in H. destruct H as (u & s1 & H1 & H2).
  pose proof (stable_sample_and_show _ (frame_page (page s)) s _ s1 H1 eq_refl)
    as Hp.
  rewrite advance_spec in H2. inversion H2; subst. cbn. rewrite Hp.
  reflexivity.
Qed.

Lemma cycles_page fuel : forall s s',
  0 <= page s < 4 ->
  cycles cfg w fuel s = (None, s') ->
  page s' = (page s + Z.of_nat fuel) mod 4.
Proof.
  induction fuel as [| k IH]; intros s s' Hr H.
  - cbn in H. inversion H; subst.
    rewrite Z.add_0_r, Z.mod_small; [reflexivity | exact Hr].
  - cbn [cycles] in H.
    destruct (cycle cfg w s) as [[[] | e] s1] eqn:E; [| discriminate H].
    apply cycle_page in E.
    rewrite (IH s1 s') by (rewrite ?E; try apply Z.mod_pos_bound; lia || exact H).
    rewrite E, Z.add_mod_idemp_l by lia.
    f_equal. lia.
Qed.

(** The loop stops at the first iteration that raises: more fuel changes
    nothing afterwards. *)
Lemma cycles_stop fuel : forall s e s' extra,
  cycles cfg w fuel s = (Some e, s') ->
  cycles cfg w (fuel + extra)%nat s = (Some e, s').
Proof.
  induction fuel as [| k IH]; intros s e s' extra H.
  - discriminate H.
  - cbn [cycles Nat.add] in *.
    destruct (cycle cfg w s) as [[[] | e0] s1]; [| exact H].
    apply IH. exact H.
Qed.

(** The iterations before a given one all succeeded. *)
Lemma cycles_prefix fuel : forall extra s s',
  cycles cfg w (fuel + extra)%nat s = (None, s') ->
  exists s1, cycles cfg w fuel s = (None, s1) /\
             cycles cfg w extra s1 = (None, s').
Proof.
  induction fuel as [| k IH]; intros extra s s' H.
  - exists s. split; [reflexivity | exact H].
  - cbn [cycles Nat.add] in *.
    destruct (cycle cfg w s) as [[[] | e0] s1]; [| discriminate H].
    apply IH. exact H.
Qed.

End Logic.

(** ** The loop while it runs *)

Lemma finish_not_Looping c s s' : finish c s <> (Looping, s').
Proof.
  unfold finish. destruct (c s) as [[a | e] s1]; discriminate.
Qed.

Lemma main_Looping cfg w n s :
  main cfg w n = (Looping, s) <->
  hw_init w = None /\ cycles cfg w n started = (None, s).
Proof.
  unfold main, loop. fold started. split.
  - destruct (hw_init w); [discriminate |].
    destruct (cycles cfg w n started) as [[e |] s1]; intros H.
    + exfalso. exact (finish_not_Looping _ _ _ H).
    + inversion H; subst. split; reflexivity.
  - intros [H1 H2]. rewrite H1, H2. reflexivity.
Qed.

(** ** Impedance guard and the samples of one iteration *)

Lemma truediv_1000 (current : float) :
  Py.truediv current f_1000_0 = Py.Ok (F64.div current f_1000_0).
Proof. reflexivity. Qed.

(** A current above the noise floor is not zero. *)
Lemma gtb_floor_nonzero (current_a : float) :
  F64.gtb current_a f_0_0001 = true -> F64.is_zero current_a = false.
Proof.
  destruct current_a as [s | s | | s m e]; try reflexivity.
  destruct s; intros H; discriminate H.
Qed.

(** The conditional expression of line 40 never raises. *)
Lemma impedance_total (bus_v current_a : float) :
  impedance bus_v current_a =
  Py.Ok (if F64.gtb current_a f_0_0001 then F64.div bus_v current_a
         else f_0_0).
Proof.
  unfold impedance, Py.truediv.
  destruct (F64.gtb current_a f_0_0001) eqn:E; [| reflexivity].
  rewrite (gtb_floor_nonzero _ E). reflexivity.
Qed.

Ltac run_step H :=
  match type of H with
  | context [match ?x with _ => _ end] =>
      lazymatch x with
      | context [match _ with _ => _ end] => fail
      | _ => destruct x eqn:?; try discriminate H
      end
  end.

(** An iteration on page 0 that goes through: which samples it took and
    what it sent to the display. *)
Lemma sample_and_show_page0 cfg w s s' :
  page s = 0 ->
  sample_and_show cfg w s = (Py.Ok tt, s') ->
  exists bus_v cur1 cur2,
    ina219_bus_voltage w (n_bus_voltage s) = Py.Ok bus_v /\
    ina219_current w (n_current s) = Py.Ok cur1 /\
    ina219_current w (S (n_current s)) = Py.Ok cur2 /\
    n_current s' = S (S (n_current s)) /\
    n_bus_voltage s' = S (n_bus_voltage s) /\
    page s' = 0 /\
    stdout s' = stdout s /\
    lcd s' = lcd s ++
      [Clear; WriteString (line_status (get_battery_status cfg bus_v));
       Crlf; WriteString (line_vi bus_v cur2)].
Proof.
  intros Hp H.
  unfold sample_and_show, show, bind, read_bus_voltage, read_current,
    read_temperature, read_relative_humidity, lift, get_page, lcd_call in H.
  cbn -[line_status line_vi] in H. rewrite Hp in H.
  cbn -[line_status line_vi] in H.
  repeat run_step H.
  inversion H; subst; clear H. cbn -[line_status line_vi].
  eexists _, _, _.
  repeat split; try eassumption; try reflexivity.
  rewrite <- !app_assoc. reflexivity.
Qed.

Lemma cycle_page0 cfg w s s' :
  page s = 0 ->
  cycle cfg w s = (Py.Ok tt, s') ->
  exists bus_v cur1 cur2,
    ina219_bus_voltage w (n_bus_voltage s) = Py.Ok bus_v /\
    ina219_current w (n_current s) = Py.Ok cur1 /\
    ina219_current w (S (n_current s)) = Py.Ok cur2 /\
    n_current s' = S (S (n_current s)) /\
    lcd s' = lcd s ++
      [Clear; WriteString (line_status (get_battery_status cfg bus_v));
       Crlf; WriteString (line_vi bus_v cur2)].
Proof.
  intros Hp H. unfold cycle in H.
  apply bind_Ok in H. destruct H as ([] & s1 & H1 & H2).
  apply sample_and_show_page0 in H1; [| exact Hp].
  destruct H1 as (bus_v & cur1 & cur2 & R1 & R2 & R3 & N1 & _ & _ & _ & L).
  rewrite advance_spec in H2. inversion H2; subst; clear H2.
  exists bus_v, cur1, cur2. cbn.
  repeat split; assumption.
Qed.

(** C8 -- on page 0 the iteration accesses [ina219.current] twice: the
    first reading (500 mA here) feeds the impedance, which comes out as
    12 V / 0.5 A = 24 ohm, and the display shows the second reading
    (800 mA). *)
Theorem page0_shows_second_current_read :
  ina219_current drifting 0 = Py.Ok f_500 /\
  ina219_current drifting 1 = Py.Ok f_800 /\
  impedance f_12_0 (F64.div f_500 f_1000_0) = Py.Ok f_24 /\
  exists s,
    main constants drifting 1 = (Looping, s) /\
    n_current s = 2%nat /\
    n_bus_voltage s = 1%nat /\
    lcd s = [Clear; WriteString "Battery:Healthy"; Crlf;
             WriteString "V:12.00 I:800mA"].
Proof.
  split; [reflexivity |]. split; [reflexivity |]. split; [reflexivity |].
  eexists. split; [vm_compute; reflexivity |].
  repeat split.
Qed.

(** ** Page rotation *)

Lemma prefix_append (p x : string) : String.prefix p (p ++ x) = true.
Proof.
  induction p as [| c p IH]; cbn.
  - destruct x; reflexivity.
  - destruct (Ascii.ascii_dec c c) as [_ | N]; [exact IH | congruence].
Qed.

Lemma shown_page_0 status bus_v current :
  shown_page (line_status status) (line_vi bus_v current) = Some 0.
Proof.
  unfold shown_page, line_status, line_vi. rewrite !prefix_append. reflexivity.
Qed.

Lemma shown_page_1 status temp hum :
  shown_page (line_status status) (line_th temp hum) = Some 1.
Proof.
  unfold shown_page, line_status, line_th. rewrite !prefix_append. reflexivity.
Qed.

Lemma shown_page_2 n : shown_page "SVM:OFF" (line_soc n) = Some 2.
Proof.
  unfold shown_page, line_soc. rewrite (prefix_append "SOC:"). reflexivity.
Qed.

Lemma shown_page_3 n z : shown_page "SVM:OFF" (line_dod n z) = Some 3.
Proof.
  unfold shown_page, line_dod. rewrite (prefix_append "DOD:"). reflexivity.
Qed.

(** One more screen at the end of a log of screens. *)
Lemma pages_shown_app (l1 l2 : string) (p : Z) :
  shown_page l1 l2 = Some p ->
  forall ps log,
    pages_shown log = Some ps ->
    pages_shown (log ++ [Clear; WriteString l1; Crlf; WriteString l2]) =
    Some (ps ++ [p]).
Proof.
  intros Hp. induction ps as [| q ps IH]; intros log H.
  - destruct log as [| [| a |] [| [| b |] [| [| c |] [| [| d |] rest]]]];
      try discriminate H.
    + cbn. rewrite Hp. reflexivity.
    + cbn in H. destruct (shown_page b d); [| discriminate H].
      destruct (pages_shown rest); discriminate H.
  - destruct log as [| [| a |] [| [| b |] [| [| c |] [| [| d |] rest]]]];
      try discriminate H.
    cbn [pages_shown] in H. cbn [app pages_shown].
    destruct (shown_page b d) as [q' |]; [| discriminate H].
    destruct (pages_shown rest) as [ps' |] eqn:E; [| discriminate H].
    inversion H; subst q' ps'.
    rewrite (IH rest E). reflexivity.
Qed.

(** The screen of a successful iteration: the page of the page counter,
    with the percentages of the bus voltage read by this iteration. *)
Lemma cycle_screen (cfg : config) (w : world) (s s' : state) :
  0 <= page s < 4 ->
  cycle cfg w s = (Py.Ok tt, s') ->
  exists bus_v current soc_v z l1 l2,
    ina219_bus_voltage w (n_bus_voltage s) = Py.Ok bus_v /\
    ina219_current w (n_current s) = Py.Ok current /\
    soc cfg bus_v = Py.Ok soc_v /\
    impedance bus_v (F64.div current f_1000_0) = Py.Ok z /\
    lcd s' = lcd s ++ [Clear; WriteString l1; Crlf; WriteString l2] /\
    shown_page l1 l2 = Some (page s) /\
    (page s = 2 ->
       l1 = "SVM:OFF"%string /\
       exists n, Py.int soc_v = Py.Ok n /\ l2 = line_soc n) /\
    (page s = 3 ->
       l1 = "SVM:OFF"%string /\
       exists m, Py.int (dod soc_v) = Py.Ok m /\ l2 = line_dod m z).
Proof.
  intros Hp H. unfold cycle in H.
  apply bind_Ok in H. destruct H as ([] & s1 & H1 & H2).
  rewrite advance_spec in H2.
  destruct (sleep_fault w (n_sleep s1)); [discriminate H2 |].
  inversion H2; subst s'; clear H2.
  cbn [lcd tick_sleep set_page].
  unfold sample_and_show in H1.
  apply bind_Ok in H1. destruct H1 as (bus_v & s2 & R1 & H1).
  apply bind_Ok in H1. destruct H1 as (current & s3 & R2 & H1).
  rewrite truediv_1000 in H1.
  apply bind_Ok in H1. destruct H1 as (current_a & s4 & R3 & H1).
  apply bind_Ok in H1. destruct H1 as (z & s5 & R4 & H1).
  apply bind_Ok in H1. destruct H1 as (soc_v & s6 & R5 & H1).
  apply bind_Ok in H1. destruct H1 as (temp & s7 & R6 & H1).
  apply bind_Ok in H1. destruct H1 as (hum & s8 & R7 & H1).
  apply bind_Ok in H1. destruct H1 as (pg & s9 & R8 & H1).
  unfold read_bus_voltage in R1. inversion R1 as [[Rb Hs2]]. clear R1.
  subst s2.
  unfold read_current in R2. inversion R2 as [[Rc Hs3]]. clear R2.
  subst s3.
  unfold lift in R3, R4, R5.
  inversion R3; subst current_a s4; clear R3.
  inversion R4 as [[Rz Hs5]]; subst s5; clear R4.
  inversion R5 as [[Rs Hs6]]; subst s6; clear R5.
  unfold read_temperature in R6. inversion R6 as [[Rt Hs7]]. clear R6.
  subst s7.
  unfold read_relative_humidity in R7. inversion R7 as [[Rh Hs8]]. clear R7.
  subst s8.
  unfold get_page in R8. inversion R8; subst pg s9; clear R8.
  cbn [n_bus_voltage n_current n_temperature n_humidity page
       tick_bus_voltage tick_current tick_temperature tick_humidity]
    in Rb, Rc, Rt, Rh, H1.
  exists bus_v, current, soc_v, z.
  unfold show, bind, lcd_call, read_current, lift, ret in H1.
  cbn -[line_status line_vi line_th line_soc line_dod Py.int dod Z.eqb] in H1.
  assert (Hc : page s = 0 \/ page s = 1 \/ page s = 2 \/ page s = 3) by lia.
  destruct Hc as [Hc | [Hc | [Hc | Hc]]]; rewrite Hc in *;
    cbn -[line_status line_vi line_th line_soc line_dod Py.int dod] in H1;
    repeat run_step H1;
    inversion H1; subst s1; clear H1;
    cbn -[line_status line_vi line_th line_soc line_dod Py.int dod shown_page];
    eexists _, _;
    (repeat (split; [eassumption || reflexivity |]));
    (split; [rewrite <- !app_assoc; reflexivity |]);
    (split; [first [apply shown_page_0 | apply shown_page_1
                   | apply shown_page_2 | apply shown_page_3] |]);
    split; intros Hq; try discriminate Hq;
    (split; [reflexivity |]); eexists; (split; [| reflexivity]);
    first [reflexivity | cbn in Heqr; exact Heqr].
Qed.

(** The screens of [fuel] successful iterations in a row. *)
Lemma cycles_screens (cfg : config) (w : world) (fuel : nat) :
  forall s s' ps,
    0 <= page s < 4 ->
    pages_shown (lcd s) = Some ps ->
    cycles cfg w fuel s = (None, s') ->
    pages_shown (lcd s') =
    Some (ps ++ List.map (fun k => (page s + Z.of_nat k) mod 4)
                         (List.seq 0 fuel)).
Proof.
  induction fuel as [| k IH]; intros s s' ps Hr Hps H.
  - cbn in H. inversion H; subst. cbn. rewrite app_nil_r. exact Hps.
  - cbn [cycles] in H.
    destruct (cycle cfg w s) as [[[] | e] s1] eqn:E; [| discriminate H].
    pose proof (cycle_page cfg w _ _ E) as Hp1.
    destruct (cycle_screen cfg w s s1 Hr E)
      as (_ & _ & _ & _ & l1 & l2 & _ & _ & _ & _ & Hl & Hsh & _).
    assert (Hps1 : pages_shown (lcd s1) = Some (ps ++ [page s])).
    { rewrite Hl. apply pages_shown_app; assumption. }
    assert (Hr1 : 0 <= page s1 < 4)
      by (rewrite Hp1; apply Z.mod_pos_bound; lia).
    rewrite (IH s1 s' _ Hr1 Hps1 H), <- app_assoc. do 2 f_equal.
    cbn [List.seq List.map app]. rewrite Z.add_0_r, Z.mod_small by exact Hr.
    f_equal. rewrite <- List.seq_shift, List.map_map.
    apply List.map_ext. intros j. rewrite Hp1, Z.add_mod_idemp_l by lia.
    f_equal. lia.
Qed.

(** C6 -- the page counter starts at 0; every successful iteration moves
    it from [p] to [(p + 1) mod 4]; after [n] successful iterations it is
    [n mod 4], hence in [0, 4), and four more iterations bring the same page
    back.  Every successful iteration puts one screen on the display, that
    of the page the counter had, so that after [n] iterations the display
    has shown the pages 0, 1, 2, 3, 0, 1, ... in this order, [n] of them. *)
Theorem page_rotation (cfg : config) (w : world) (n : nat) (s : state) :
  main cfg w n = (Looping, s) ->
  page boot = 0 /\
  page s = Z.of_nat n mod 4 /\
  0 <= page s < 4 /\
  (forall k, (k <= n)%nat ->
     exists sk, main cfg w k = (Looping, sk) /\ page sk = Z.of_nat k mod 4) /\
  (forall s4, main cfg w (n + 4) = (Looping, s4) -> page s4 = page s) /\
  (forall st st', cycle cfg w st = (Py.Ok tt, st') ->
     page st' = (page st + 1) mod 4) /\
  (forall st r st', sample_and_show cfg w st = (r, st') ->
     page st' = page st) /\
  pages_shown (lcd s) = Some (rotation n) /\
  (forall st st', 0 <= page st < 4 -> cycle cfg w st = (Py.Ok tt, st') ->
     exists l1 l2,
       lcd st' = lcd st ++ [Clear; WriteString l1; Crlf; WriteString l2] /\
       shown_page l1 l2 = Some (page st)).
Proof.
  intros H.
  assert (Hstart : 0 <= page started < 4) by (cbn; lia).
  assert (Hpage : forall k sk, main cfg w k = (Looping, sk) ->
                               page sk = Z.of_nat k mod 4).
  { intros k sk Hk. apply main_Looping in Hk. destruct Hk as [_ Hk].
    apply cycles_page in Hk; [| exact Hstart]. exact Hk. }
  split; [reflexivity |].
  split; [apply Hpage; exact H |].
  split; [rewrite (Hpage n s H); apply Z.mod_pos_bound; lia |].
  split; [| split; [| split; [| split; [| split]]]].
  - intros k Hk.
    apply main_Looping in H. destruct H as [Hi Hc].
    replace n with (k + (n - k))%nat in Hc by lia.
    apply cycles_prefix in Hc. destruct Hc as (sk & Hsk & _).
    exists sk.
    assert (Hm : main cfg w k = (Looping, sk))
      by (apply main_Looping; split; assumption).
    split; [exact Hm | apply Hpage; exact Hm].
  - intros s4 H4. rewrite (Hpage _ _ H4), (Hpage _ _ H).
    rewrite Nat2Z.inj_add. change (Z.of_nat 4) with (1 * 4).
    apply Z.mod_add. lia.
  - intros st st'. apply cycle_page.
  - intros st r st' Hs.
    exact (stable_sample_and_show cfg w _ (frame_page (page st)) st r st' Hs
             eq_refl).
  - apply main_Looping in H. destruct H as [_ Hc].
    exact (cycles_screens cfg w n started s [] Hstart eq_refl Hc).
  - intros st st' Hr Hc.
    destruct (cycle_screen cfg w st st' Hr Hc)
      as (_ & _ & _ & _ & l1 & l2 & _ & _ & _ & _ & Hl & Hsh & _).
    exists l1, l2. split; assumption.
Qed.

Lemma page_rotation_witness :
  page (snd (main constants (steady f_12_0 f_500 f_25 f_40) 5)) = 5 mod 4 /\
  pages_shown (lcd (snd (main constants (steady f_12_0 f_500 f_25 f_40) 5))) =
    Some [0; 1; 2; 3; 0].
Proof.
  assert (H : main constants (steady f_12_0 f_500 f_25 f_40) 5 =
              (Looping, snd (main constants (steady f_12_0 f_500 f_25 f_40) 5)))
    by (vm_compute; reflexivity).
  destruct (page_rotation _ _ _ _ H) as (_ & Hp & _ & _ & _ & _ & _ & Hs & _).
  split; [exact Hp | exact Hs].
Defined.

(** ** Failure containment *)

Lemma error_writes_app l1 l2 :
  error_writes (l1 ++ l2) = (error_writes l1 + error_writes l2)%nat.
Proof.
  unfold error_writes. rewrite List.filter_app, List.length_app. reflexivity.
Qed.

Lemma page_op_not_error op : page_op op -> is_error_write op = false.
Proof. intros H. destruct H; reflexivity. Qed.

Section Containment.

Variable cfg : config.
Variable w : world.

Lemma frame_quiet out : frame (quiet out).
Proof.
  constructor; try (intros s H; exact H).
  intros op s Hop [H1 H2]. split; [exact H1 |].
  cbn [lcd lcd_done]. rewrite error_writes_app, H2.
  unfold error_writes. cbn [List.filter].
  rewrite (page_op_not_error op Hop). reflexivity.
Qed.

Lemma cycle_quiet out s r s' :
  cycle cfg w s = (r, s') -> quiet out s -> quiet out s'.
Proof.
  unfold cycle, bind. intros H Hq.
  destruct (sample_and_show cfg w s) as [[[] | e] s1] eqn:E.
  - pose proof (stable_sample_and_show cfg w _ (frame_quiet out) _ _ _ E Hq)
      as Hq1.
    rewrite advance_spec in H. inversion H; subst. exact Hq1.
  - inversion H; subst.
    exact (stable_sample_and_show cfg w _ (frame_quiet out) _ _ _ E Hq).
Qed.

Lemma cycles_quiet out fuel : forall s r s',
  cycles cfg w fuel s = (r, s') -> quiet out s -> quiet out s'.
Proof.
  induction fuel as [| k IH]; intros s r s' H Hq.
  - inversion H; subst. exact Hq.
  - cbn [cycles] in H.
    destruct (cycle cfg w s) as [[[] | e] s1] eqn:E.
    + apply (IH s1 r s' H). exact (cycle_quiet out _ _ _ E Hq).
    + inversion H; subst. exact (cycle_quiet out _ _ _ E Hq).
Qed.

(** The [except Exception] clause, when the display takes its two calls. *)
Lemma handler_Exception e s :
  Py.is_Exception e = true ->
  lcd_fault w (n_lcd s) = None ->
  lcd_fault w (S (n_lcd s)) = None ->
  finish (handler w e) s =
  (Finished,
   printed ("Error: " ++ Py.exn_str e)
     (lcd_done (WriteString "Error Occurred") (lcd_done Clear s))).
Proof.
  intros He H1 H2. unfold finish, handler. rewrite He.
  unfold bind, lcd_call, print. rewrite H1. cbn [n_lcd lcd_done].
  rewrite H2. reflexivity.
Qed.

End Containment.

(** The handler swallows the exception and the script runs to its end: the
    exit status after a failed sensor read is 0, not a failure status. *)
Lemma sensor_failure_exits_zero :
  cycles constants dead_sensor 3 started =
    (Some (Py.DeviceError "[Errno 121] Remote I/O error"),
     tick_bus_voltage started) /\
  exit_status (fst (main constants dead_sensor 3)) = Some 0 /\
  ~ (exists c, exit_status (fst (main constants dead_sensor 3)) = Some c /\
               c <> 0).
Proof.
  split; [reflexivity |]. split; [reflexivity |].
  intros (c & H & Hc). vm_compute in H. inversion H. apply Hc.
  symmetry. assumption.
Qed.

(** When the display itself fails, the handler's own [lcd.clear()] raises
    again: nothing is shown and the exception escapes. *)
Lemma display_failure_escapes :
  exists s,
    main constants dead_display 3 =
      (Uncaught (Py.DeviceError "[Errno 5] Input/output error"), s) /\
    lcd s = [] /\
    exit_status (fst (main constants dead_display 3)) = Some 1.
Proof.
  eexists. split; [vm_compute; reflexivity |]. split; reflexivity.
Qed.

(** C5 -- when an iteration raises an [Exception] and the display
    takes the handler's two calls, the display receives exactly one
    "Error Occurred", the detail goes to the standard output, no sensor is
    read again and no further iteration runs whatever the time allowed;
    the script then ends normally, with exit status 0. *)
Theorem failure_is_reported (cfg : config) (w : world) (fuel : nat)
    (e : Py.exn) (s1 : state) :
  hw_init w = None ->
  cycles cfg w fuel started = (Some e, s1) ->
  Py.is_Exception e = true ->
  lcd_fault w (n_lcd s1) = None ->
  lcd_fault w (S (n_lcd s1)) = None ->
  exists s2,
    main cfg w fuel = (Finished, s2) /\
    lcd s2 = lcd s1 ++ [Clear; WriteString "Error Occurred"] /\
    error_writes (lcd s2) = 1%nat /\
    stdout s2 = ["Battery monitoring system started...";
                 "Error: " ++ Py.exn_str e]%string /\
    exit_status Finished = Some 0 /\
    n_bus_voltage s2 = n_bus_voltage s1 /\
    n_current s2 = n_current s1 /\
    n_sleep s2 = n_sleep s1 /\
    page s2 = page s1 /\
    forall extra, main cfg w (fuel + extra) = (Finished, s2).
Proof.
  intros Hi Hc He H1 H2.
  assert (Hq : quiet ["Battery monitoring system started..."%string] s1).
  { apply (cycles_quiet cfg w _ fuel started _ s1 Hc). split; reflexivity. }
  destruct Hq as [Hout Herr].
  eexists. split; [| split; [| split; [| split; [| split;
    [| split; [| split; [| split; [| split]]]]]]]].
  - unfold main, loop. fold started. rewrite Hi, Hc.
    apply handler_Exception; assumption.
  - cbn [lcd lcd_done printed]. rewrite <- app_assoc. reflexivity.
  - cbn [lcd lcd_done printed]. rewrite !error_writes_app, Herr. reflexivity.
  - cbn [stdout lcd_done printed]. rewrite Hout. reflexivity.
  - reflexivity.
  - reflexivity.
  - reflexivity.
  - reflexivity.
  - reflexivity.
  - intros extra. unfold main, loop. fold started.
    rewrite Hi, (cycles_stop cfg w fuel _ _ _ extra Hc).
    apply handler_Exception; assumption.
Qed.

Lemma failure_is_reported_witness :
  exists s2,
    main constants dead_sensor 3 = (Finished, s2) /\
    lcd s2 = [Clear; WriteString "Error Occurred"].
Proof.
  destruct (failure_is_reported constants dead_sensor 3
              (Py.DeviceError "[Errno 121] Remote I/O error")
              (tick_bus_voltage started)
              eq_refl eq_refl eq_refl eq_refl eq_refl)
    as (s2 & Hm & Hl & _).
  exists s2. split; [exact Hm | exact Hl].
Defined.

(** ** State of charge and depth of discharge *)

Section Charge.

Import F64 F64Facts Exact Rounding.

Lemma span_eq : sub f_12_6 f_9_0 = span.
Proof. reflexivity. Qed.

(** With the constants of the script the interpolation never raises. *)
Lemma interpolation_constants (bus_v : float) :
  interpolation constants bus_v =
  Py.Ok (mul (div (sub bus_v f_9_0) span) f_100).
Proof. reflexivity. Qed.

Lemma interpolation_valid (bus_v : float) :
  valid bus_v = true ->
  valid (mul (div (sub bus_v f_9_0) span) f_100) = true.
Proof.
  intros Hv. apply mul_valid; [| reflexivity].
  apply div_valid; [| reflexivity].
  apply sub_valid; [exact Hv | reflexivity].
Qed.

(** The two builtins of line 41, unfolded. *)
Lemma clamp_cases (x : float) :
  clamp x =
  if ltb x f_100 then (if ltb f_0_0 x then Py.Float x else Py.Int 0)
  else Py.Int 100.
Proof.
  unfold clamp, Py.min, Py.max, Py.gt, Py.lt. cbn [Py.as_float].
  change (of_Z 100) with f_100.
  destruct (ltb x f_100); [| reflexivity].
  cbn [Py.as_float]. change (of_Z 0) with f_0_0.
  destruct (ltb f_0_0 x); reflexivity.
Qed.

Lemma positive_form (x : float) :
  ltb f_0_0 x = true -> ltb x f_100 = true ->
  exists m e, x = S754_finite false m e.
Proof.
  intros H0 H1. destruct x as [s | s | | s m e]; try discriminate H0.
  - destruct s; [discriminate H0 | discriminate H1].
  - destruct s; [discriminate H0 |]. exists m, e. reflexivity.
Qed.

Lemma to_Q_100 : (to_Q f_100 == 100)%Q.
Proof. vm_compute. reflexivity. Qed.

Lemma ltb_true (x y : float) :
  valid x = true -> valid y = true ->
  is_finite x = true -> is_finite y = true ->
  ltb x y = true <-> (to_Q x < to_Q y)%Q.
Proof. intros. apply (OrderFacts.gtb_true y x); assumption. Qed.

Lemma ltb_false (x y : float) :
  valid x = true -> valid y = true ->
  is_finite x = true -> is_finite y = true ->
  ltb x y = false <-> (to_Q y <= to_Q x)%Q.
Proof. intros. apply (OrderFacts.gtb_false y x); assumption. Qed.

(** C2 -- for every bus voltage the interpolation of line 41 is computed
    without exception, SOC is that value clamped to [0, 100] (100 when it is
    a NaN), DOD is [100 - soc], and the float sum [soc + dod] compares equal
    to 100. *)
Theorem soc_dod_sum (bus_v : float) :
  valid bus_v = true ->
  exists x soc_v,
    interpolation constants bus_v = Py.Ok x /\
    x = mul (div (sub bus_v (MIN_VOLTAGE constants))
                 (sub (MAX_VOLTAGE constants) (MIN_VOLTAGE constants)))
            (of_Z 100) /\
    soc constants bus_v = Py.Ok soc_v /\
    soc_v = clamp x /\
    (is_finite x = true ->
       (num_Q soc_v == Qmax 0 (Qmin 100 (to_Q x)))%Q) /\
    (x = S754_nan \/ x = S754_infinity false -> soc_v = Py.Int 100) /\
    (x = S754_infinity true -> soc_v = Py.Int 0) /\
    (0 <= num_Q soc_v)%Q /\ (num_Q soc_v <= 100)%Q /\
    dod soc_v = Py.sub (Py.Int 100) soc_v /\
    Py.eq (Py.add soc_v (dod soc_v)) (Py.Int 100) = true.
Proof.
  intros Hv.
  pose proof (interpolation_valid bus_v Hv) as Hvx.
  set (x := mul (div (sub bus_v f_9_0) span) f_100) in *.
  exists x, (clamp x).
  split; [reflexivity |]. split; [reflexivity |].
  split; [unfold soc; rewrite interpolation_constants; reflexivity |].
  split; [reflexivity |].
  assert (Hnan : x = S754_nan \/ x = S754_infinity false ->
                 clamp x = Py.Int 100).
  { intros [E | E]; rewrite E; reflexivity. }
  assert (Hninf : x = S754_infinity true -> clamp x = Py.Int 0).
  { intros E; rewrite E; reflexivity. }
  clearbody x. rewrite clamp_cases in *.
  destruct (ltb x f_100) eqn:E1; [destruct (ltb f_0_0 x) eqn:E0 |].
  - (* 0 < x < 100 *)
    destruct (positive_form x E0 E1) as (m & e & Hx). subst x.
    assert (H0 : (0 < to_Q (S754_finite false m e))%Q).
    { apply (ltb_true f_0_0 (S754_finite false m e)); auto. }
    assert (H1 : (to_Q (S754_finite false m e) < 100)%Q).
    { rewrite <- to_Q_100.
      apply (ltb_true (S754_finite false m e) f_100); auto. }
    split.
    { intros _. cbn [num_Q].
      rewrite Q.min_r by (apply Qlt_le_weak; exact H1).
      rewrite Q.max_r by (apply Qlt_le_weak; exact H0).
      reflexivity. }
    split; [exact Hnan |]. split; [exact Hninf |].
    split; [apply Qlt_le_weak; exact H0 |].
    split; [apply Qlt_le_weak; exact H1 |].
    split; [reflexivity |].
    unfold dod, Py.sub, Py.add, Py.eq. cbn [Py.as_float].
    change (of_Z 100) with f_100.
    rewrite (add_sub_100 m e Hvx E1). reflexivity.
  - (* x <= 0 *)
    split.
    { intros Hf. cbn [num_Q].
      assert (H0 : (to_Q x <= 0)%Q).
      { apply (ltb_false f_0_0 x); auto. }
      rewrite Q.min_r by (apply Qle_trans with (1 := H0); discriminate).
      rewrite Q.max_l by exact H0. reflexivity. }
    split; [exact Hnan |]. split; [exact Hninf |].
    split; [discriminate |]. split; [discriminate |].
    split; reflexivity.
  - (* 100 <= x, or x is not a number *)
    split.
    { intros Hf. cbn [num_Q].
      assert (H1 : (100 <= to_Q x)%Q).
      { rewrite <- to_Q_100. apply (ltb_false x f_100); auto. }
      rewrite Q.min_l by exact H1.
      rewrite Q.max_r by discriminate. reflexivity. }
    split; [exact Hnan |]. split; [exact Hninf |].
    split; [discriminate |]. split; [discriminate |].
    split; reflexivity.
Qed.

Lemma soc_dod_sum_witness :
  exists soc_v,
    soc constants f_12_0 = Py.Ok soc_v /\
    Py.eq (Py.add soc_v (dod soc_v)) (Py.Int 100) = true.
Proof.
  destruct (soc_dod_sum f_12_0 eq_refl)
    as (x & soc_v & _ & _ & Hs & _ & _ & _ & _ & _ & _ & _ & He).
  exists soc_v. split; [exact Hs | exact He].
Defined.

(** [int(x)] of a non-negative finite float is the integer part of its
    value. *)
Lemma int_of_float_floor (m : positive) (e : Z) :
  exists n,
    Py.int_of_float (S754_finite false m e) = Py.Ok n /\
    0 <= n /\
    (inject_Z n <= to_Q (S754_finite false m e))%Q /\
    (to_Q (S754_finite false m e) < inject_Z (n + 1))%Q.
Proof.
  unfold Py.int_of_float, to_Q. cbn [cond_Zopp].
  destruct e as [| p | p]; eexists; (split; [reflexivity |]).
  - split; [lia |]. unfold Qle, Qlt, inject_Z. cbn [Qnum Qden]. lia.
  - assert (0 < Z.pow_pos 2 p) by (rewrite Z.pow_pos_fold; apply Z.pow_pos_nonneg; lia).
    split; [nia |]. unfold Qle, Qlt, inject_Z. cbn [Qnum Qden]. lia.
  - assert (Hp : 0 < Z.pow_pos 2 p)
      by (rewrite Z.pow_pos_fold; apply Z.pow_pos_nonneg; lia).
    assert (Hpp : Zpos (2 ^ p) = Z.pow_pos 2 p) by (rewrite Pos2Z.inj_pow; reflexivity).
    split; [apply Z.div_pos; lia |].
    unfold Qle, Qlt, inject_Z. cbn [Qnum Qden]. rewrite Hpp.
    pose proof (Z.mul_div_le (Zpos m) (Z.pow_pos 2 p) Hp).
    pose proof (Z.mul_succ_div_gt (Zpos m) (Z.pow_pos 2 p) Hp).
    lia.
Qed.

Lemma int_at_most_100 (x : float) (n : Z) :
  Py.int_of_float x = Py.Ok n ->
  (inject_Z n <= to_Q x)%Q -> (to_Q x <= 100)%Q -> n <= 100.
Proof.
  intros _ H1 H2.
  assert (H : (inject_Z n <= 100)%Q) by (apply Qle_trans with (1 := H1); exact H2).
  unfold Qle, inject_Z in H. cbn [Qnum Qden] in H. lia.
Qed.

(** C10 -- the percentages of pages 2 and 3 are [int(soc)] and [int(dod)]:
    the integer parts of the clamped values, each in [0, 100].  An iteration
    on page 2 writes "SOC:<int(soc)>% SOH:OFF" as the second line of its
    screen and an iteration on page 3 writes "DOD:<int(dod)>% Z:...R", both
    for the bus voltage read by that iteration.  At 12.0 V the display shows
    83 and 16, which add up to 99, while the floats add up to 100. *)
Theorem displayed_percentages :
  (forall bus_v, valid bus_v = true ->
     exists soc_v n m,
       soc constants bus_v = Py.Ok soc_v /\
       Py.int soc_v = Py.Ok n /\
       Py.int (dod soc_v) = Py.Ok m /\
       0 <= n <= 100 /\ 0 <= m <= 100 /\
       (inject_Z n <= num_Q soc_v)%Q /\ (num_Q soc_v < inject_Z (n + 1))%Q /\
       (inject_Z m <= num_Q (dod soc_v))%Q /\
       (num_Q (dod soc_v) < inject_Z (m + 1))%Q) /\
  (exists soc_v,
     soc constants f_12_0 = Py.Ok soc_v /\
     Py.int soc_v = Py.Ok 83 /\
     Py.int (dod soc_v) = Py.Ok 16 /\
     line_soc 83 = "SOC:83% SOH:OFF"%string /\
     line_dod 16 f_24 = "DOD:16% Z:24.0R"%string /\
     Py.eq (Py.add soc_v (dod soc_v)) (Py.Int 100) = true) /\
  (forall w s s',
     page s = 2 -> cycle constants w s = (Py.Ok tt, s') ->
     exists bus_v soc_v n,
       ina219_bus_voltage w (n_bus_voltage s) = Py.Ok bus_v /\
       soc constants bus_v = Py.Ok soc_v /\
       Py.int soc_v = Py.Ok n /\
       lcd s' = lcd s ++ [Clear; WriteString "SVM:OFF"; Crlf;
                          WriteString (line_soc n)] /\
       (valid bus_v = true ->
          0 <= n <= 100 /\
          (inject_Z n <= num_Q soc_v)%Q /\
          (num_Q soc_v < inject_Z (n + 1))%Q)) /\
  (forall w s s',
     page s = 3 -> cycle constants w s = (Py.Ok tt, s') ->
     exists bus_v soc_v m z,
       ina219_bus_voltage w (n_bus_voltage s) = Py.Ok bus_v /\
       soc constants bus_v = Py.Ok soc_v /\
       Py.int (dod soc_v) = Py.Ok m /\
       lcd s' = lcd s ++ [Clear; WriteString "SVM:OFF"; Crlf;
                          WriteString (line_dod m z)] /\
       (valid bus_v = true ->
          0 <= m <= 100 /\
          (inject_Z m <= num_Q (dod soc_v))%Q /\
          (num_Q (dod soc_v) < inject_Z (m + 1))%Q)) /\
  (exists s,
     main constants (steady f_12_0 f_500 f_25 f_40) 4 = (Looping, s) /\
     lcd s =
       [Clear; WriteString "Battery:Healthy"; Crlf;
        WriteString "V:12.00 I:500mA";
        Clear; WriteString "Battery:Healthy"; Crlf;
        WriteString "T:25.0 H:40%";
        Clear; WriteString "SVM:OFF"; Crlf; WriteString "SOC:83% SOH:OFF";
        Clear; WriteString "SVM:OFF"; Crlf; WriteString "DOD:16% Z:24.0R"]).
Proof.
  assert (Hint : forall bus_v, valid bus_v = true ->
     exists soc_v n m,
       soc constants bus_v = Py.Ok soc_v /\
       Py.int soc_v = Py.Ok n /\
       Py.int (dod soc_v) = Py.Ok m /\
       0 <= n <= 100 /\ 0 <= m <= 100 /\
       (inject_Z n <= num_Q soc_v)%Q /\ (num_Q soc_v < inject_Z (n + 1))%Q /\
       (inject_Z m <= num_Q (dod soc_v))%Q /\
       (num_Q (dod soc_v) < inject_Z (m + 1))%Q).
  { intros bus_v Hv.
    pose proof (interpolation_valid bus_v Hv) as Hvx.
    unfold soc. rewrite interpolation_constants.
    set (x := mul (div (sub bus_v f_9_0) span) f_100) in *. clearbody x.
    exists (clamp x). rewrite clamp_cases.
    destruct (ltb x f_100) eqn:E1; [destruct (ltb f_0_0 x) eqn:E0 |].
    + destruct (positive_form x E0 E1) as (mx & ex & Hx). subst x.
      destruct (int_of_float_floor mx ex) as (n & Hn & Hn0 & Hn1 & Hn2).
      destruct (sub_100_range mx ex Hvx E1) as (md & ed & Hsub & Hvd & Hle).
      destruct (int_of_float_floor md ed) as (m & Hm & Hm0 & Hm1 & Hm2).
      assert (Hx100 : (to_Q (S754_finite false mx ex) <= 100)%Q).
      { rewrite <- to_Q_100. apply Qlt_le_weak.
        apply (ltb_true (S754_finite false mx ex) f_100); auto. }
      assert (Hd100 : (to_Q (S754_finite false md ed) <= 100)%Q).
      { rewrite <- to_Q_100.
        apply (OrderFacts.Qle_units (S754_finite false md ed) f_100);
          [exact Hvd | reflexivity |].
        rewrite (OrderFacts.leb_units (S754_finite false md ed) f_100 Hvd
                   eq_refl eq_refl eq_refl) in Hle.
        apply Z.leb_le. exact Hle. }
      exists n, m.
      split; [reflexivity |]. split; [exact Hn |].
      unfold dod, Py.sub. cbn [Py.as_float Py.int num_Q].
      change (of_Z 100) with f_100. rewrite Hsub.
      split; [exact Hm |].
      split; [split; [exact Hn0 | exact (int_at_most_100 _ _ Hn Hn1 Hx100)] |].
      split; [split; [exact Hm0 | exact (int_at_most_100 _ _ Hm Hm1 Hd100)] |].
      repeat split; assumption.
    + exists 0, 100. cbn. repeat split; try lia; try discriminate; reflexivity.
    + exists 100, 0. cbn. repeat split; try lia; try discriminate; reflexivity. }
  split; [exact Hint |].
  split; [eexists; split; [reflexivity |]; repeat split |].
  split; [| split].
  - intros w s s' Hp Hc.
    destruct (cycle_screen constants w s s' ltac:(lia) Hc)
      as (bus_v & current & soc_v & z & l1 & l2 & Hb & _ & Hs & _ & Hl & _
          & H2 & _).
    destruct (H2 Hp) as (-> & n & Hn & ->).
    exists bus_v, soc_v, n.
    repeat (split; [assumption |]).
    intros Hv.
    destruct (Hint bus_v Hv)
      as (soc_v' & n' & m' & Hs' & Hn' & _ & R1 & _ & R2 & R3 & _).
    rewrite Hs in Hs'. inversion Hs'; subst soc_v'.
    rewrite Hn in Hn'. inversion Hn'; subst n'.
    repeat split; assumption || lia.
  - intros w s s' Hp Hc.
    destruct (cycle_screen constants w s s' ltac:(lia) Hc)
      as (bus_v & current & soc_v & z & l1 & l2 & Hb & _ & Hs & _ & Hl & _
          & _ & H3).
    destruct (H3 Hp) as (-> & m & Hm & ->).
    exists bus_v, soc_v, m, z.
    repeat (split; [assumption |]).
    intros Hv.
    destruct (Hint bus_v Hv)
      as (soc_v' & n' & m' & Hs' & _ & Hm' & _ & R1 & _ & _ & R2 & R3).
    rewrite Hs in Hs'. inversion Hs'; subst soc_v'.
    rewrite Hm in Hm'. inversion Hm'; subst m'.
    repeat split; assumption || lia.
  - eexists. split; [vm_compute; reflexivity | reflexivity].
Qed.

Lemma displayed_percentages_witness :
  exists n,
    lcd (snd (cycle constants (steady f_12_0 f_500 f_25 f_40)
                (snd (cycles constants (steady f_12_0 f_500 f_25 f_40) 2
                        started)))) =
    lcd (snd (cycles constants (steady f_12_0 f_500 f_25 f_40) 2 started)) ++
      [Clear; WriteString "SVM:OFF"; Crlf; WriteString (line_soc n)] /\
    0 <= n <= 100.
Proof.
  destruct (proj1 (proj2 (proj2 displayed_percentages))
              (steady f_12_0 f_500 f_25 f_40)
              (snd (cycles constants (steady f_12_0 f_500 f_25 f_40) 2
                      started))
              (snd (cycle constants (steady f_12_0 f_500 f_25 f_40)
                      (snd (cycles constants (steady f_12_0 f_500 f_25 f_40) 2
                              started)))))
    as (bus_v & soc_v & n & Hb & _ & _ & Hl & Hr).
  - vm_compute. reflexivity.
  - vm_compute. reflexivity.
  - exists n. split; [exact Hl |].
    cbn in Hb. inversion Hb; subst bus_v.
    destruct (Hr eq_refl) as (Hn & _). exact Hn.
Defined.

End Charge.

(** ** Impedance *)

Section Impedance.

Import F64 F64Facts Exact Rounding.

(** C3 -- the impedance is 0.0 unless the current (in amps) is above the
    noise floor 0.0001, in which case it is the quotient; the expression
    never raises, because a current above the floor is never zero; for a
    non-negative bus voltage (below [2^1008] V) the result is finite and not
    negative. *)
Theorem impedance_guard :
  (forall bus_v current_a,
     impedance bus_v current_a =
     Py.Ok (if gtb current_a f_0_0001 then div bus_v current_a else f_0_0)) /\
  (forall current_a,
     gtb current_a f_0_0001 = true -> is_zero current_a = false) /\
  (forall current_a,
     valid current_a = true -> is_finite current_a = true ->
     (gtb current_a f_0_0001 = true <->
      (to_Q f_0_0001 < to_Q current_a)%Q)) /\
  nearest 1 10000 f_0_0001 = true /\
  (forall bus_v current_a z,
     valid bus_v = true -> valid current_a = true ->
     geb bus_v f_0_0 = true -> ltb bus_v f_huge = true ->
     impedance bus_v current_a = Py.Ok z ->
     valid z = true /\ is_finite z = true /\ ltb z f_0_0 = false /\
     (0 <= to_Q z)%Q).
Proof.
  split; [exact impedance_total |].
  split; [exact gtb_floor_nonzero |].
  split.
  { intros c Hv Hf.
    apply (OrderFacts.gtb_true c f_0_0001); auto. }
  split; [reflexivity |].
  intros bus_v c z Hv Hc H0 Hh Hz.
  rewrite impedance_total in Hz. injection Hz as Hz'. subst z.
  set (z := if gtb c f_0_0001 then div bus_v c else f_0_0).
  assert (Hgoal : valid z = true /\ is_finite z = true /\ ltb z f_0_0 = false).
  { unfold z. destruct (gtb c f_0_0001) eqn:E.
    - destruct (div_above_floor bus_v c Hv Hc H0 Hh E) as [F1 F2].
      split; [apply div_valid; assumption |]. split; assumption.
    - repeat split. }
  destruct Hgoal as (G1 & G2 & G3).
  split; [exact G1 |]. split; [exact G2 |]. split; [exact G3 |].
  apply (ltb_false z f_0_0); auto.
Qed.

Lemma impedance_guard_witness :
  impedance f_12_0 (div f_500 f_1000_0) = Py.Ok f_24 /\
  is_finite f_24 = true /\ ltb f_24 f_0_0 = false.
Proof.
  destruct impedance_guard as (H1 & _ & _ & _ & H5).
  split; [reflexivity |].
  destruct (H5 f_12_0 (div f_500 f_1000_0) f_24 eq_refl eq_refl eq_refl
              eq_refl eq_refl) as (_ & F & N & _).
  split; assumption.
Defined.

End Impedance.

(** ** Calibration bounds *)

Section Calibration.

Import F64 F64Facts Exact Rounding.

Lemma finalize_nonzero (s : bool) (R e : Z) :
  0 < R -> is_zero (finalize s R e) = false.
Proof.
  intros HR. unfold finalize.
  destruct (R <? 2 ^ 53).
  - destruct R as [| p | p]; try lia. cbn [overflow].
    destruct (e <=? 971); reflexivity.
  - change (2 ^ 52) with (Zpos 4503599627370496). cbn [overflow].
    destruct (e + 1 <=? 971); reflexivity.
Qed.

Lemma normalize_zero_iff (M e : Z) :
  -1074 <= e ->
  is_zero (binary_normalize prec emax M e false) = (M =? 0).
Proof.
  intros He. destruct (Z.lt_trichotomy M 0) as [Hneg | [Hz | Hpos]].
  - replace M with (- (- M)) by lia.
    rewrite normalize_neg by lia.
    rewrite finalize_nonzero by (apply kept_bounds; lia).
    symmetry. apply Z.eqb_neq. lia.
  - subst M. reflexivity.
  - rewrite normalize_pos by lia.
    rewrite finalize_nonzero by (apply kept_bounds; lia).
    symmetry. apply Z.eqb_neq. lia.
Qed.

(** A difference of two finite floats is zero exactly when they stand for
    the same number: subtraction never underflows to zero. *)
Lemma sub_is_zero (x y : float) :
  valid x = true -> valid y = true ->
  is_finite x = true -> is_finite y = true ->
  is_zero (sub x y) = (units x =? units y).
Proof.
  intros Hx Hy Fx Fy.
  destruct x as [sx | sx | | sx mx ex]; try discriminate Fx;
  destruct y as [sy | sy | | sy my ey]; try discriminate Fy.
  - destruct sx, sy; reflexivity.
  - pose proof (valid_finite _ _ _ Hy) as [[He _] _].
    pose proof (units_pos my ey He) as Hp.
    unfold sub. cbn [SFsub is_zero units]. symmetry. apply Z.eqb_neq.
    destruct sy; cbn [cond_Zopp]; lia.
  - pose proof (valid_finite _ _ _ Hx) as [[He _] _].
    pose proof (units_pos mx ex He) as Hp.
    unfold sub. cbn [SFsub is_zero units]. symmetry. apply Z.eqb_neq.
    destruct sx; cbn [cond_Zopp]; lia.
  - pose proof (valid_finite _ _ _ Hx) as [[Hex _] _].
    pose proof (valid_finite _ _ _ Hy) as [[Hey _] _].
    unfold sub. cbn [SFsub].
    set (ez := Z.min ex ey).
    destruct (shl_align_spec mx ex ez) as [_ H1].
    destruct (shl_align_spec my ey ez) as [_ H2].
    rewrite H1, H2.
    replace (Z.min ex ez) with ez by (unfold ez; lia).
    replace (Z.min ey ez) with ez by (unfold ez; lia).
    rewrite normalize_zero_iff by (unfold ez; lia).
    cbn [units].
    assert (Hp : 0 < 2 ^ (ez + 1074))
      by (apply Z.pow_pos_nonneg; unfold ez; lia).
    assert (Ha : Zpos mx * 2 ^ (ex + 1074) =
                 Zpos mx * 2 ^ (ex - ez) * 2 ^ (ez + 1074)).
    { rewrite <- Z.mul_assoc, <- Z.pow_add_r by (unfold ez; lia).
      do 2 f_equal. lia. }
    assert (Hb : Zpos my * 2 ^ (ey + 1074) =
                 Zpos my * 2 ^ (ey - ez) * 2 ^ (ez + 1074)).
    { rewrite <- Z.mul_assoc, <- Z.pow_add_r by (unfold ez; lia).
      do 2 f_equal. lia. }
    rewrite Ha, Hb.
    set (a := Zpos mx * 2 ^ (ex - ez)). set (b := Zpos my * 2 ^ (ey - ez)).
    destruct (Z.eqb_spec (cond_Zopp sx a - cond_Zopp sy b) 0) as [E | E];
      symmetry; [apply Z.eqb_eq | apply Z.eqb_neq];
      destruct sx, sy; cbn [cond_Zopp] in *; nia.
Qed.

Ltac run_program :=
  cbv beta iota zeta delta
    [main loop cycles cycle sample_and_show show advance handler finish
     bind lift ret get_page assign_page print
     read_bus_voltage read_current read_temperature read_relative_humidity
     lcd_call sleep steady started boot
     hw_init ina219_bus_voltage ina219_current aht25_temperature
     aht25_relative_humidity lcd_fault sleep_fault
     page lcd stdout n_bus_voltage n_current n_temperature n_humidity n_lcd
     n_sleep set_page tick_bus_voltage tick_current tick_temperature
     tick_humidity lcd_done lcd_failed tick_sleep printed
     Py.is_Exception Py.exn_str
     Z.eqb Z.add Z.modulo Z.div_eucl Z.pos_div_eucl Pos.add Pos.succ Z.leb
     Z.ltb Z.compare Pos.compare Pos.compare_cont Z.mul Pos.mul Z.sub Z.opp
     Z.pos_sub Z.succ_double Z.pred_double Z.double Pos.pred_double
     Z.eqb Pos.eqb Z.geb Z.gtb Z.pos_sub
     app fst snd].

(** The first iteration in a world where every collaborator works. *)
Lemma first_cycle_runs cfg bus_v current temp hum x :
  interpolation cfg bus_v = Py.Ok x ->
  main cfg (steady bus_v current temp hum) 1 =
  (Looping,
   {| page := 1;
      lcd := [Clear;
              WriteString (line_status (get_battery_status cfg bus_v));
              Crlf; WriteString (line_vi bus_v current)];
      stdout := ["Battery monitoring system started..."%string];
      n_bus_voltage := 1; n_current := 2; n_temperature := 1;
      n_humidity := 1; n_lcd := 4; n_sleep := 1 |}).
Proof.
  intros Hx.
  assert (Hs : soc cfg bus_v = Py.Ok (clamp x)) by (unfold soc; rewrite Hx; reflexivity).
  run_program.
  rewrite truediv_1000, impedance_total, Hs.
  run_program. reflexivity.
Qed.

Lemma first_cycle_fails cfg bus_v current temp hum fuel :
  interpolation cfg bus_v = Py.Raise Py.ZeroDivisionError ->
  main cfg (steady bus_v current temp hum) (S fuel) =
  (Finished,
   {| page := 0;
      lcd := [Clear; WriteString "Error Occurred"];
      stdout := ["Battery monitoring system started...";
                 "Error: float division by zero"]%string;
      n_bus_voltage := 1; n_current := 1; n_temperature := 0;
      n_humidity := 0; n_lcd := 2; n_sleep := 0 |}).
Proof.
  intros Hx.
  assert (Hs : soc cfg bus_v = Py.Raise Py.ZeroDivisionError)
    by (unfold soc; rewrite Hx; reflexivity).
  run_program.
  rewrite truediv_1000, impedance_total, Hs.
  run_program. reflexivity.
Qed.

Lemma Qeq_units (x y : float) :
  valid x = true -> valid y = true ->
  (to_Q x == to_Q y)%Q <-> units x = units y.
Proof.
  intros Hx Hy. split; intros H.
  - apply Z.le_antisymm; apply OrderFacts.Qle_units; try assumption;
      rewrite H; apply Qle_refl.
  - apply Qle_antisym; apply OrderFacts.Qle_units; try assumption; lia.
Qed.

(** With [MAX_VOLTAGE < MIN_VOLTAGE] nothing is raised: the loop starts,
    samples the sensors and displays page 0. *)
Lemma swapped_bounds_run :
  (to_Q (MAX_VOLTAGE swapped) <= to_Q (MIN_VOLTAGE swapped))%Q /\
  hw_init (steady f_12_0 f_500 f_25 f_40) = None /\
  exists s,
    main swapped (steady f_12_0 f_500 f_25 f_40) 1 = (Looping, s) /\
    n_bus_voltage s = 1%nat /\
    lcd s = [Clear; WriteString "Battery:Healthy"; Crlf;
             WriteString "V:12.00 I:500mA"] /\
    soc swapped f_12_0 =
      Py.Ok (Py.Float (S754_finite false 4691249611844264 (-48))) /\
    forall e, main swapped (steady f_12_0 f_500 f_25 f_40) 1 <> (Uncaught e, s).
Proof.
  split; [vm_compute; discriminate |]. split; [reflexivity |].
  eexists. split; [vm_compute; reflexivity |].
  split; [reflexivity |]. split; [reflexivity |]. split; [reflexivity |].
  intros e H. vm_compute in H. discriminate H.
Qed.

(** C4 -- the script does not validate the calibration bounds and
    has no configuration error.  With bounds that are finite numbers and
    [MAX_VOLTAGE <= MIN_VOLTAGE], startup raises nothing and the loop is
    entered.  If [MAX_VOLTAGE < MIN_VOLTAGE] the iteration goes through with
    a clamped SOC and page 0 is displayed; if they are equal the first
    iteration raises [ZeroDivisionError] inside the loop, which the generic
    handler reports. *)
Theorem calibration_is_not_validated (cfg : config)
    (bus_v current temp hum : float) :
  valid (MAX_VOLTAGE cfg) = true -> valid (MIN_VOLTAGE cfg) = true ->
  is_finite (MAX_VOLTAGE cfg) = true -> is_finite (MIN_VOLTAGE cfg) = true ->
  (to_Q (MAX_VOLTAGE cfg) <= to_Q (MIN_VOLTAGE cfg))%Q ->
  main cfg (steady bus_v current temp hum) 0 = (Looping, started) /\
  ((to_Q (MAX_VOLTAGE cfg) < to_Q (MIN_VOLTAGE cfg))%Q ->
     exists x s,
       soc cfg bus_v = Py.Ok (clamp x) /\
       main cfg (steady bus_v current temp hum) 1 = (Looping, s) /\
       page s = 1 /\ n_bus_voltage s = 1%nat /\
       lcd s = [Clear;
                WriteString (line_status (get_battery_status cfg bus_v));
                Crlf; WriteString (line_vi bus_v current)]) /\
  ((to_Q (MAX_VOLTAGE cfg) == to_Q (MIN_VOLTAGE cfg))%Q ->
     forall fuel, exists s,
       main cfg (steady bus_v current temp hum) (S fuel) = (Finished, s) /\
       exit_status Finished = Some 0 /\
       n_bus_voltage s = 1%nat /\
       lcd s = [Clear; WriteString "Error Occurred"] /\
       stdout s = ["Battery monitoring system started...";
                   "Error: float division by zero"]%string).
Proof.
  intros Vmax Vmin Fmax Fmin _.
  pose proof (sub_is_zero _ _ Vmax Vmin Fmax Fmin) as Hz.
  split; [reflexivity |]. split.
  - intros Hlt.
    apply (OrderFacts.Qlt_units _ _ Vmax Vmin) in Hlt.
    assert (Hne : is_zero (sub (MAX_VOLTAGE cfg) (MIN_VOLTAGE cfg)) = false).
    { rewrite Hz. apply Z.eqb_neq. lia. }
    assert (Hx : exists x, interpolation cfg bus_v = Py.Ok x).
    { unfold interpolation, Py.truediv. rewrite Hne. eexists. reflexivity. }
    destruct Hx as [x Hx]. exists x. eexists.
    split; [unfold soc; rewrite Hx; reflexivity |].
    split; [apply (first_cycle_runs cfg bus_v current temp hum x Hx) |].
    repeat split.
  - intros Heq fuel.
    apply (Qeq_units _ _ Vmax Vmin) in Heq.
    assert (He : is_zero (sub (MAX_VOLTAGE cfg) (MIN_VOLTAGE cfg)) = true).
    { rewrite Hz. apply Z.eqb_eq. exact Heq. }
    assert (Hx : interpolation cfg bus_v = Py.Raise Py.ZeroDivisionError).
    { unfold interpolation, Py.truediv. rewrite He. reflexivity. }
    eexists.
    split; [apply (first_cycle_fails cfg bus_v current temp hum fuel Hx) |].
    repeat split.
Qed.

Lemma calibration_is_not_validated_witness :
  (exists s, main swapped (steady f_12_0 f_500 f_25 f_40) 1 = (Looping, s) /\
             page s = 1) /\
  (exists s, main flat (steady f_12_0 f_500 f_25 f_40) 1 = (Finished, s) /\
             lcd s = [Clear; WriteString "Error Occurred"]).
Proof.
  split.
  - assert (Hle : (to_Q (MAX_VOLTAGE swapped) <= to_Q (MIN_VOLTAGE swapped))%Q)
      by (vm_compute; discriminate).
    destruct (calibration_is_not_validated swapped f_12_0 f_500 f_25 f_40
                eq_refl eq_refl eq_refl eq_refl Hle) as (_ & H & _).
    destruct (H eq_refl) as (x & s & _ & Hm & Hp & _).
    exists s. split; assumption.
  - assert (Hle : (to_Q (MAX_VOLTAGE flat) <= to_Q (MIN_VOLTAGE flat))%Q)
      by (vm_compute; discriminate).
    destruct (calibration_is_not_validated flat f_12_0 f_500 f_25 f_40
                eq_refl eq_refl eq_refl eq_refl Hle) as (_ & _ & H).
    destruct (H (Qeq_refl _) 0%nat) as (s & Hm & _ & _ & Hl & _).
    exists s. split; assumption.
Defined.

End Calibration.

(** ** The texts of the pages *)

Section Pages.

Import F64.

Lemma length_append (s1 s2 : string) :
  String.length (s1 ++ s2) = (String.length s1 + String.length s2)%nat.
Proof.
  induction s1 as [| c s1 IH]; cbn; [reflexivity | rewrite IH; reflexivity].
Qed.

(** Decimal digits: a number below [10^k] takes at most [k] characters. *)
Lemma digits_acc_length (fuel : nat) :
  forall (n : Z) (acc : string) (k : nat),
    0 <= n < 10 ^ Z.of_nat k -> (1 <= k)%nat ->
    (String.length (Fmt.digits_acc fuel n acc) <= String.length acc + k)%nat.
Proof.
  induction fuel as [| f IH]; intros n acc k Hn Hk; cbn [Fmt.digits_acc].
  - lia.
  - destruct (Z.eqb_spec (n / 10) 0) as [E | E].
    + cbn [String.length]. lia.
    + assert (Hq : 0 < n / 10).
      { assert (0 <= n / 10) by (apply Z.div_pos; lia). lia. }
      destruct k as [| [| k]]; try lia.
      * exfalso. change (10 ^ Z.of_nat 1) with 10 in Hn.
        assert (n / 10 = 0) by (apply Z.div_small; lia). lia.
      * specialize (IH (n / 10)
                       (String (Fmt.digit_char (n mod 10)) acc) (S k)).
        cbn [String.length] in IH.
        assert (Hlt : n / 10 < 10 ^ Z.of_nat (S k)).
        { apply Z.div_lt_upper_bound; [lia |].
          rewrite <- Z.pow_succ_r by lia.
          rewrite <- Nat2Z.inj_succ. apply Hn. }
        specialize (IH ltac:(lia) ltac:(lia)). lia.
Qed.

Lemma str_int_length (n : Z) (k : nat) :
  0 <= n < 10 ^ Z.of_nat k -> (1 <= k)%nat ->
  (String.length (Fmt.str_int n) <= k)%nat.
Proof.
  intros Hn Hk. unfold Fmt.str_int.
  destruct (Z.ltb_spec n 0); [lia |].
  unfold Fmt.str_nonneg.
  apply (digits_acc_length _ n EmptyString k Hn Hk).
Qed.

Lemma line_soc_fits (n : Z) :
  0 <= n <= 100 -> (String.length (line_soc n) <= 16)%nat.
Proof.
  intros Hn. unfold line_soc. rewrite !length_append.
  pose proof (str_int_length n 3 ltac:(cbn; lia) ltac:(lia)).
  cbn [String.length]. lia.
Qed.

Lemma line_vi_length (bus_v current : float) :
  String.length (line_vi bus_v current) =
  (7 + String.length (Fmt.format_f 2 bus_v) +
   String.length (Fmt.format_f 0 current))%nat.
Proof. unfold line_vi. rewrite !length_append. cbn [String.length]. lia. Qed.

Lemma line_th_length (temp hum : float) :
  String.length (line_th temp hum) =
  (6 + String.length (Fmt.format_f 1 temp) +
   String.length (Fmt.format_f 0 hum))%nat.
Proof. unfold line_th. rewrite !length_append. cbn [String.length]. lia. Qed.

Lemma line_dod_length (n : Z) (z : float) :
  String.length (line_dod n z) =
  (9 + String.length (Fmt.str_int n) +
   String.length (Fmt.format_f 1 z))%nat.
Proof. unfold line_dod. rewrite !length_append. cbn [String.length]. lia. Qed.

Lemma repeat_char_length (c : ascii) (n : nat) :
  String.length (Fmt.repeat_char c n) = n.
Proof. induction n as [| n IH]; cbn; [reflexivity | rewrite IH; reflexivity]. Qed.

Lemma zfill_length (w : nat) (s : string) :
  (String.length s <= w)%nat -> String.length (Fmt.zfill w s) = w.
Proof.
  intros H. unfold Fmt.zfill. rewrite length_append, repeat_char_length. lia.
Qed.

Lemma str_nonneg_length (n : Z) (k : nat) :
  0 <= n < 10 ^ Z.of_nat k -> (1 <= k)%nat ->
  (String.length (Fmt.str_nonneg n) <= k)%nat.
Proof.
  intros Hn Hk. unfold Fmt.str_nonneg.
  apply (digits_acc_length _ n EmptyString k Hn Hk).
Qed.

Lemma fixed_length (p k : nat) (N : Z) :
  0 <= N < 10 ^ Z.of_nat (k + p) -> (1 <= k)%nat ->
  (String.length (Fmt.fixed p N) <= fixed_width k p)%nat.
Proof.
  intros HN Hk. unfold Fmt.fixed, fixed_width.
  assert (Hp : 0 < 10 ^ Z.of_nat p) by (apply Z.pow_pos_nonneg; lia).
  assert (Hq : 0 <= N / 10 ^ Z.of_nat p < 10 ^ Z.of_nat k).
  { split; [apply Z.div_pos; lia |].
    apply Z.div_lt_upper_bound; [exact Hp |].
    rewrite <- Z.pow_add_r by lia. rewrite <- Nat2Z.inj_add.
    replace (p + k)%nat with (k + p)%nat by lia. apply HN. }
  pose proof (str_nonneg_length _ k Hq Hk) as Hint.
  rewrite length_append.
  destruct p as [| p'].
  - cbn [String.length]. lia.
  - assert (Hr : 0 <= N mod 10 ^ Z.of_nat (S p') < 10 ^ Z.of_nat (S p'))
      by (apply Z.mod_pos_bound; exact Hp).
    pose proof (str_nonneg_length _ (S p') Hr ltac:(lia)) as Hfrac.
    rewrite length_append, (zfill_length _ _ Hfrac).
    cbn [String.length]. lia.
Qed.

Lemma round_half_even_le (M P N : Z) :
  0 < P -> 2 * M < (2 * N + 1) * P -> Fmt.round_half_even M P <= N.
Proof.
  intros HP H. unfold Fmt.round_half_even.
  pose proof (Z.div_mod M P ltac:(lia)) as Hdm.
  pose proof (Z.mod_pos_bound M P HP) as Hr.
  set (q := M / P) in *. set (r := M mod P) in *.
  assert (Hq : q <= N) by nia.
  destruct (Z.compare_spec (2 * r) P) as [E | L | G];
    [destruct (Z.even q) |..]; nia.
Qed.

(** A finite float of magnitude below [10^k - 10^-p / 2] is printed by
    [format(x, '.pf')] with at most [k] integer digits. *)
Lemma format_f_length (p k : nat) (x : float) :
  is_finite x = true -> (1 <= k)%nat ->
  (Qabs (to_Q x) <
   Qmake (2 * 10 ^ Z.of_nat (k + p) - 1) (Z.to_pos (2 * 10 ^ Z.of_nat p)))%Q ->
  (String.length (Fmt.format_f p x) <=
   (if sign_bit x then 1 else 0) + fixed_width k p)%nat.
Proof.
  intros Hf Hk Hlt.
  assert (Hp : 0 < 10 ^ Z.of_nat p) by (apply Z.pow_pos_nonneg; lia).
  assert (Hkp : 10 ^ Z.of_nat (k + p) = 10 ^ Z.of_nat k * 10 ^ Z.of_nat p).
  { rewrite Nat2Z.inj_add, Z.pow_add_r by lia. reflexivity. }
  assert (Hk1 : 0 < 10 ^ Z.of_nat k) by (apply Z.pow_pos_nonneg; lia).
  assert (Hsign : forall s, String.length (Fmt.sign_str s) =
                            if s then 1%nat else 0%nat)
    by (intros []; reflexivity).
  assert (Hden : Zpos (Z.to_pos (2 * 10 ^ Z.of_nat p)) = 2 * 10 ^ Z.of_nat p)
    by (apply Z2Pos.id; lia).
  destruct x as [s | s | | s m e]; try discriminate Hf;
    cbn [Fmt.format_f sign_bit]; rewrite length_append, Hsign.
  - pose proof (fixed_length p k 0 ltac:(split; [lia | nia]) Hk). lia.
  - assert (HN : 0 <= Fmt.scaled p m e < 10 ^ Z.of_nat (k + p)).
    { unfold to_Q in Hlt. unfold Fmt.scaled.
      destruct e as [| j | j]; unfold Qlt in Hlt;
        cbn [Qabs Qnum Qden] in Hlt; rewrite Hden in Hlt.
      - assert (Ha : Z.abs (cond_Zopp s (Zpos m)) = Zpos m)
          by (destruct s; cbn; lia).
        rewrite Ha in Hlt. split; [nia | nia].
      - assert (Hj : 0 < Z.pow_pos 2 j)
          by (rewrite Z.pow_pos_fold; apply Z.pow_pos_nonneg; lia).
        assert (Ha : Z.abs (cond_Zopp s (Zpos m * Z.pow_pos 2 j)) =
                     Zpos m * Z.pow_pos 2 j)
          by (destruct s; cbn [cond_Zopp]; nia).
        rewrite Ha in Hlt. split; [nia | nia].
      - assert (Hj : 0 < Z.pow_pos 2 j)
          by (rewrite Z.pow_pos_fold; apply Z.pow_pos_nonneg; lia).
        assert (Hjj : Zpos (2 ^ j) = Z.pow_pos 2 j)
          by (rewrite Pos2Z.inj_pow; reflexivity).
        assert (Ha : Z.abs (cond_Zopp s (Zpos m)) = Zpos m)
          by (destruct s; cbn; lia).
        rewrite Ha, Hjj in Hlt.
        split.
        + assert (0 <= Zpos m * 10 ^ Z.of_nat p / Z.pow_pos 2 j)
            by (apply Z.div_pos; nia).
          unfold Fmt.round_half_even.
          destruct (2 * ((Zpos m * 10 ^ Z.of_nat p) mod Z.pow_pos 2 j)
                    ?= Z.pow_pos 2 j);
            [destruct (Z.even _) |..]; lia.
        + assert (Fmt.round_half_even (Zpos m * 10 ^ Z.of_nat p)
                    (Z.pow_pos 2 j) <= 10 ^ Z.of_nat (k + p) - 1).
          { apply round_half_even_le; [exact Hj |]. nia. }
          lia. }
    pose proof (fixed_length p k _ HN Hk). lia.
Qed.

Lemma to_Q_nonneg (x : float) : sign_bit x = false -> (0 <= to_Q x)%Q.
Proof.
  destruct x as [s | s | | s m e]; try (intros _; apply Qle_refl).
  cbn [sign_bit]. intros Hs. subst s. unfold to_Q, Qle.
  destruct e as [| j | j]; cbn [cond_Zopp Qnum Qden]; lia.
Qed.

(** Widths of the numbers of the pages, for readings in the usual ranges. *)
Lemma width_nonneg (p k : nat) (x : float) (num : Z) (den : positive) :
  num = 2 * 10 ^ Z.of_nat (k + p) - 1 ->
  den = Z.to_pos (2 * 10 ^ Z.of_nat p) ->
  (1 <= k)%nat ->
  is_finite x = true -> sign_bit x = false -> (to_Q x < Qmake num den)%Q ->
  (String.length (Fmt.format_f p x) <= fixed_width k p)%nat.
Proof.
  intros Hnum Hden Hk Hf Hs Hlt. subst num den.
  pose proof (format_f_length p k x Hf Hk) as H.
  rewrite Hs in H. apply H.
  rewrite Qabs_pos by (apply to_Q_nonneg; exact Hs). exact Hlt.
Qed.

Lemma width_signed (p k : nat) (x : float) (num : Z) (den : positive) :
  num = 2 * 10 ^ Z.of_nat (k + p) - 1 ->
  den = Z.to_pos (2 * 10 ^ Z.of_nat p) ->
  (1 <= k)%nat ->
  is_finite x = true -> (Qabs (to_Q x) < Qmake num den)%Q ->
  (String.length (Fmt.format_f p x) <= 1 + fixed_width k p)%nat.
Proof.
  intros Hnum Hden Hk Hf Hlt. subst num den.
  pose proof (format_f_length p k x Hf Hk Hlt) as H.
  destruct (sign_bit x); lia.
Qed.

Lemma line_vi_fits (bus_v current : float) :
  vi_in_range bus_v current ->
  (String.length (line_vi bus_v current) <= 16)%nat.
Proof.
  intros (F1 & S1 & B1 & F2 & H2). rewrite line_vi_length.
  pose proof (width_nonneg 2 2 bus_v 19999 200 eq_refl eq_refl
                ltac:(lia) F1 S1 B1) as HV.
  cbn [fixed_width] in HV.
  destruct H2 as [Habs | [S2 B2]].
  - pose proof (width_signed 0 3 current 1999 2 eq_refl eq_refl
                  ltac:(lia) F2 Habs) as HI.
    cbn [fixed_width] in HI. lia.
  - pose proof (width_nonneg 0 4 current 19999 2 eq_refl eq_refl
                  ltac:(lia) F2 S2 B2) as HI.
    cbn [fixed_width] in HI. lia.
Qed.

Lemma line_th_fits (temp hum : float) :
  th_in_range temp hum ->
  (String.length (line_th temp hum) <= 16)%nat.
Proof.
  intros (F1 & B1 & F2 & S2 & B2). rewrite line_th_length.
  pose proof (width_signed 1 2 temp 1999 20 eq_refl eq_refl
                ltac:(lia) F1 B1) as HT.
  pose proof (width_nonneg 0 3 hum 1999 2 eq_refl eq_refl
                ltac:(lia) F2 S2 B2) as HH.
  cbn [fixed_width] in HT, HH. lia.
Qed.

Lemma line_dod_fits (n : Z) (z : float) :
  0 <= n <= 100 -> z_in_range z ->
  (String.length (line_dod n z) <= 16)%nat.
Proof.
  intros Hn (F & S & B). rewrite line_dod_length.
  pose proof (str_int_length n 3 ltac:(cbn; lia) ltac:(lia)) as HN.
  pose proof (width_nonneg 1 2 z 1999 20 eq_refl eq_refl
                ltac:(lia) F S B) as HZ.
  cbn [fixed_width] in HZ. lia.
Qed.

(** A load of 0.5 mA: the impedance of page 3 takes seven characters and
    the line has 18. *)
Lemma page3_line_exceeds_16_columns :
  exists s,
    main constants (steady f_12_0 f_0_5 f_25 f_40) 4 = (Looping, s) /\
    List.last (lcd s) Clear = WriteString "DOD:16% Z:24000.0R" /\
    String.length "DOD:16% Z:24000.0R" = 18%nat /\
    ~ (String.length "DOD:16% Z:24000.0R" <= 16)%nat.
Proof.
  eexists. split; [vm_compute; reflexivity |].
  split; [reflexivity |]. split; [reflexivity |]. cbn. lia.
Qed.

(** C7 -- for every page index in {0,1,2,3} the display receives
    exactly two lines, with the texts of the page table.  Line 1 has at most
    16 characters, and so has line 2 of page 2 for a percentage in [0,100].
    Line 2 of pages 0, 1 and 3 is as long as its fixed text plus its
    formatted numbers: nothing cuts it to the display width, and it has at
    most 16 characters for readings in the ranges [vi_in_range],
    [th_in_range] and [z_in_range]. *)
Theorem page_lines (w : world) (pg : Z) (status : string)
    (bus_v temp hum z : float) (soc_v dod_v : Py.num) (s s' : state) :
  0 <= pg < 4 ->
  show w pg status bus_v temp hum z soc_v dod_v s = (Py.Ok tt, s') ->
  exists l1 l2,
    lcd s' = lcd s ++ [Clear; WriteString l1; Crlf; WriteString l2] /\
    (status = "Healthy"%string \/ status = "Moderate"%string \/
     status = "Critical"%string ->
     (String.length l1 <= 16)%nat) /\
    ((pg = 0 /\ l1 = line_status status /\
      exists current,
        ina219_current w (n_current s) = Py.Ok current /\
        l2 = line_vi bus_v current /\
        String.length l2 =
          (7 + String.length (Fmt.format_f 2 bus_v) +
           String.length (Fmt.format_f 0 current))%nat /\
        (vi_in_range bus_v current -> (String.length l2 <= 16)%nat)) \/
     (pg = 1 /\ l1 = line_status status /\
      l2 = line_th temp hum /\
      String.length l2 =
        (6 + String.length (Fmt.format_f 1 temp) +
         String.length (Fmt.format_f 0 hum))%nat /\
      (th_in_range temp hum -> (String.length l2 <= 16)%nat)) \/
     (pg = 2 /\ l1 = "SVM:OFF"%string /\
      exists n,
        Py.int soc_v = Py.Ok n /\ l2 = line_soc n /\
        (0 <= n <= 100 -> (String.length l2 <= 16)%nat)) \/
     (pg = 3 /\ l1 = "SVM:OFF"%string /\
      exists n,
        Py.int dod_v = Py.Ok n /\ l2 = line_dod n z /\
        String.length l2 =
          (9 + String.length (Fmt.str_int n) +
           String.length (Fmt.format_f 1 z))%nat /\
        (0 <= n <= 100 -> z_in_range z -> (String.length l2 <= 16)%nat))).
Proof.
  intros Hpg H.
  assert (Hst : status = "Healthy"%string \/ status = "Moderate"%string \/
                status = "Critical"%string ->
                (String.length (line_status status) <= 16)%nat).
  { intros [E | [E | E]]; rewrite E; cbn; lia. }
  assert (Hcases : pg = 0 \/ pg = 1 \/ pg = 2 \/ pg = 3) by lia.
  unfold show, bind, lcd_call, read_current, lift in H.
  destruct Hcases as [E | [E | [E | E]]]; subst pg;
    cbn -[line_status line_vi line_th line_soc line_dod Py.int] in H;
    repeat run_step H;
    inversion H; subst; clear H;
    cbn -[line_status line_vi line_th line_soc line_dod Py.int String.length];
    rewrite <- ?app_assoc; cbn [app];
    eexists _, _; (split; [reflexivity |]).
  - split; [exact Hst |]. left.
    split; [reflexivity |]. split; [reflexivity |].
    eexists. split; [eassumption |]. split; [reflexivity |].
    split; [apply line_vi_length | apply line_vi_fits].
  - split; [exact Hst |]. right; left.
    split; [reflexivity |]. split; [reflexivity |]. split; [reflexivity |].
    split; [apply line_th_length | apply line_th_fits].
  - split; [intros _; cbn; lia |]. right; right; left.
    split; [reflexivity |]. split; [reflexivity |].
    eexists. split; [reflexivity |]. split; [reflexivity |].
    apply line_soc_fits.
  - split; [intros _; cbn; lia |]. right; right; right.
    split; [reflexivity |]. split; [reflexivity |].
    eexists. split; [reflexivity |]. split; [reflexivity |].
    split; [apply line_dod_length | apply line_dod_fits].
Qed.

Lemma page_lines_witness :
  exists l1 l2,
    lcd (snd (show (steady f_12_0 f_500 f_25 f_40) 0 "Healthy" f_12_0 f_25
                f_40 f_24 (Py.Int 83) (Py.Int 16) started)) =
    [Clear; WriteString l1; Crlf; WriteString l2].
Proof.
  destruct (page_lines (steady f_12_0 f_500 f_25 f_40) 0 "Healthy" f_12_0
              f_25 f_40 f_24 (Py.Int 83) (Py.Int 16) started
              (snd (show (steady f_12_0 f_500 f_25 f_40) 0 "Healthy" f_12_0
                      f_25 f_40 f_24 (Py.Int 83) (Py.Int 16) started))
              ltac:(lia) eq_refl) as (l1 & l2 & H & _).
  exists l1, l2. exact H.
Defined.

End Pages.

(** ** The end of a run *)

Lemma stop_writes_app l1 l2 :
  stop_writes (l1 ++ l2) = (stop_writes l1 + stop_writes l2)%nat.
Proof.
  unfold stop_writes. rewrite List.filter_app, List.length_app. reflexivity.
Qed.

Lemma page_op_not_stop op : page_op op -> is_stop_write op = false.
Proof. intros H. destruct H; reflexivity. Qed.

Lemma frame_silent out : frame (silent out).
Proof.
  constructor; try (intros s H; exact H).
  intros op s Hop (H1 & H2 & H3). split; [exact H1 |].
  cbn [lcd lcd_done]. rewrite error_writes_app, stop_writes_app, H2, H3.
  unfold error_writes, stop_writes. cbn [List.filter].
  rewrite (page_op_not_error op Hop), (page_op_not_stop op Hop).
  split; reflexivity.
Qed.

Section Invariants.

Variable cfg : config.
Variable w : world.
Variable I : state -> Prop.
Hypothesis HI : frame I.
Hypothesis Hadvance : forall p s, I s -> I (tick_sleep (set_page p s)).

(** A property that the display of a page and the page counter respect
    holds after any number of iterations, however the last one ends. *)
Lemma cycle_keeps s r s' : cycle cfg w s = (r, s') -> I s -> I s'.
Proof.
  unfold cycle, bind. intros H Hs.
  destruct (sample_and_show cfg w s) as [[[] | e] s1] eqn:E.
  - pose proof (stable_sample_and_show cfg w _ HI _ _ _ E Hs) as H1.
    rewrite advance_spec in H. inversion H; subst. apply Hadvance, H1.
  - inversion H; subst.
    exact (stable_sample_and_show cfg w _ HI _ _ _ E Hs).
Qed.

Lemma cycles_keep fuel : forall s r s',
  cycles cfg w fuel s = (r, s') -> I s -> I s'.
Proof.
  induction fuel as [| k IH]; intros s r s' H Hs.
  - inversion H; subst. exact Hs.
  - cbn [cycles] in H.
    destruct (cycle cfg w s) as [[[] | e] s1] eqn:E.
    + apply (IH s1 r s' H). exact (cycle_keeps _ _ _ E Hs).
    + inversion H; subst. exact (cycle_keeps _ _ _ E Hs).
Qed.

End Invariants.

Lemma cycles_silent cfg w fuel r s :
  cycles cfg w fuel started = (r, s) ->
  silent ["Battery monitoring system started..."%string] s.
Proof.
  intros H.
  apply (cycles_keep cfg w _ (frame_silent _)
           (fun p s0 Hs => Hs) fuel started r s H).
  repeat split.
Qed.


Section Closing.

Variable cfg : config.
Variable w : world.

(** The two [except] clauses at once. *)
Lemma handler_spec e s :
  finish (handler w e) s =
  match lcd_fault w (n_lcd s) with
  | Some e1 => (Uncaught e1, lcd_failed s)
  | None =>
      match lcd_fault w (S (n_lcd s)) with
      | Some e2 => (Uncaught e2, lcd_failed (lcd_done Clear s))
      | None =>
          (Finished,
           printed (closing_print e)
             (lcd_done (WriteString (closing_display e)) (lcd_done Clear s)))
      end
  end.
Proof.
  unfold finish, handler, closing_print, closing_display.
  destruct (Py.is_Exception e);
    unfold bind, lcd_call, print;
    destruct (lcd_fault w (n_lcd s)); try reflexivity;
    cbn [n_lcd lcd_done];
    destruct (lcd_fault w (S (n_lcd s))); reflexivity.
Qed.

Lemma main_stopped fuel e s1 :
  hw_init w = None ->
  cycles cfg w fuel started = (Some e, s1) ->
  forall extra, main cfg w (fuel + extra) = finish (handler w e) s1.
Proof.
  intros Hi Hc extra. unfold main, loop. fold started.
  rewrite Hi, (cycles_stop cfg w fuel _ _ _ extra Hc). reflexivity.
Qed.

End Closing.

(** X1 -- when the loop is left by a [KeyboardInterrupt] and the display
    takes the two calls of the handler, the display ends with "System
    Stopped" (never "Error Occurred"), "Battery monitoring stopped by user"
    is printed after the start banner, no sensor is read and no page is
    shown afterwards, and the script ends normally with exit status 0,
    whatever the time allowed. *)
Theorem interrupt_is_acknowledged (cfg : config) (w : world) (fuel : nat)
    (s1 : state) :
  hw_init w = None ->
  cycles cfg w fuel started = (Some Py.KeyboardInterrupt, s1) ->
  lcd_fault w (n_lcd s1) = None ->
  lcd_fault w (S (n_lcd s1)) = None ->
  exists s2,
    main cfg w fuel = (Finished, s2) /\
    exit_status (fst (main cfg w fuel)) = Some 0 /\
    lcd s2 = lcd s1 ++ [Clear; WriteString "System Stopped"] /\
    error_writes (lcd s2) = 0%nat /\
    stdout s2 = ["Battery monitoring system started...";
                 "Battery monitoring stopped by user"]%string /\
    page s2 = page s1 /\
    n_bus_voltage s2 = n_bus_voltage s1 /\
    n_current s2 = n_current s1 /\
    n_temperature s2 = n_temperature s1 /\
    n_humidity s2 = n_humidity s1 /\
    n_sleep s2 = n_sleep s1 /\
    forall extra, main cfg w (fuel + extra) = (Finished, s2).
Proof.
  intros Hi Hc H1 H2.
  assert (Hq : quiet ["Battery monitoring system started..."%string] s1).
  { apply (cycles_quiet cfg w _ fuel started _ s1 Hc). split; reflexivity. }
  destruct Hq as [Hout Herr].
  assert (Hm : forall extra, main cfg w (fuel + extra) =
    (Finished,
     printed "Battery monitoring stopped by user"
       (lcd_done (WriteString "System Stopped") (lcd_done Clear s1)))).
  { intros extra. rewrite (main_stopped cfg w fuel _ s1 Hi Hc extra).
    rewrite handler_spec, H1, H2. reflexivity. }
  pose proof (Hm 0%nat) as Hm0. rewrite Nat.add_0_r in Hm0.
  eexists. split; [exact Hm0 |].
  split; [rewrite Hm0; reflexivity |].
  split; [cbn [lcd lcd_done printed]; rewrite <- app_assoc; reflexivity |].
  split; [cbn [lcd lcd_done printed]; rewrite !error_writes_app, Herr;
          reflexivity |].
  split; [cbn [stdout lcd_done printed]; rewrite Hout; reflexivity |].
  repeat (split; [reflexivity |]).
  exact Hm.
Qed.

Lemma interrupt_is_acknowledged_witness :
  exists s2,
    main constants interrupted 7 = (Finished, s2) /\
    List.last (lcd s2) Clear = WriteString "System Stopped" /\
    page s2 = 3.
Proof.
  destruct (interrupt_is_acknowledged constants interrupted 7
              (snd (cycles constants interrupted 3 started)))
    as (s2 & Hm & _ & Hl & _ & _ & Hp & _).
  - reflexivity.
  - vm_compute. reflexivity.
  - reflexivity.
  - reflexivity.
  - exists s2. split; [exact Hm |]. split.
    + rewrite Hl.
      change [Clear; WriteString "System Stopped"]
        with ([Clear] ++ [WriteString "System Stopped"]).
      rewrite app_assoc. apply last_last.
    + rewrite Hp. vm_compute. reflexivity.
Defined.


(** X2 -- the two handlers are not protected: when the display raises at
    the handler's [lcd.clear()] or at its [lcd.write_string(...)], that
    exception escapes the script, whichever exception had ended the loop:
    the exit status is 1 when it is an [Exception] and 130 when it is a
    [KeyboardInterrupt], never 0; no closing message is displayed and
    nothing is printed on the standard output after the start banner. *)
Theorem handler_failure_escapes (cfg : config) (w : world) (fuel : nat)
    (e e' : Py.exn) (s1 : state) :
  hw_init w = None ->
  cycles cfg w fuel started = (Some e, s1) ->
  lcd_fault w (n_lcd s1) = Some e' \/
  (lcd_fault w (n_lcd s1) = None /\ lcd_fault w (S (n_lcd s1)) = Some e') ->
  exists s2,
    main cfg w fuel = (Uncaught e', s2) /\
    exit_status (fst (main cfg w fuel)) =
      Some (if Py.is_Exception e' then 1 else 130) /\
    (forall c, exit_status (fst (main cfg w fuel)) = Some c -> c <> 0) /\
    stdout s2 = ["Battery monitoring system started..."%string] /\
    (lcd s2 = lcd s1 \/ lcd s2 = lcd s1 ++ [Clear]) /\
    error_writes (lcd s2) = 0%nat /\
    stop_writes (lcd s2) = 0%nat /\
    forall extra, main cfg w (fuel + extra) = (Uncaught e', s2).
Proof.
  intros Hi Hc Hf.
  destruct (cycles_silent cfg w fuel _ s1 Hc) as (Hout & Herr & Hstop).
  assert (Hm : exists s2,
    (forall extra, main cfg w (fuel + extra) = (Uncaught e', s2)) /\
    stdout s2 = stdout s1 /\
    (lcd s2 = lcd s1 \/ lcd s2 = lcd s1 ++ [Clear])).
  { destruct Hf as [H1 | [H1 H2]].
    - exists (lcd_failed s1). split; [| split; [reflexivity | left; reflexivity]].
      intros extra. rewrite (main_stopped cfg w fuel _ s1 Hi Hc extra).
      rewrite handler_spec, H1. reflexivity.
    - exists (lcd_failed (lcd_done Clear s1)).
      split; [| split; [reflexivity | right; reflexivity]].
      intros extra. rewrite (main_stopped cfg w fuel _ s1 Hi Hc extra).
      rewrite handler_spec, H1, H2. reflexivity. }
  destruct Hm as (s2 & Hm & Ho & Hl).
  pose proof (Hm 0%nat) as Hm0. rewrite Nat.add_0_r in Hm0.
  exists s2. split; [exact Hm0 |].
  split; [rewrite Hm0; cbn; destruct (Py.is_Exception e'); reflexivity |].
  split.
  { intros c Hc0. rewrite Hm0 in Hc0. cbn in Hc0.
    destruct (Py.is_Exception e'); inversion Hc0; discriminate. }
  split; [rewrite Ho; exact Hout |].
  split; [exact Hl |].
  split; [| split; [| exact Hm]].
  - destruct Hl as [-> | ->]; [exact Herr |].
    rewrite error_writes_app, Herr. reflexivity.
  - destruct Hl as [-> | ->]; [exact Hstop |].
    rewrite stop_writes_app, Hstop. reflexivity.
Qed.

Lemma handler_failure_escapes_witness :
  exists s2,
    main constants dead_display 3 =
      (Uncaught (Py.DeviceError "[Errno 5] Input/output error"), s2) /\
    exit_status (fst (main constants dead_display 3)) = Some 1 /\
    stdout s2 = ["Battery monitoring system started..."%string].
Proof.
  destruct (handler_failure_escapes constants dead_display 3
              (Py.DeviceError "[Errno 5] Input/output error")
              (Py.DeviceError "[Errno 5] Input/output error")
              (snd (cycles constants dead_display 3 started)))
    as (s2 & Hm & He & _ & Ho & _).
  - reflexivity.
  - vm_compute. reflexivity.
  - left. reflexivity.
  - exists s2. split; [exact Hm |]. split; [exact He | exact Ho].
Defined.

(** X3 -- what a run prints, however it goes.  While the loop runs only the
    start banner has been printed and no closing message displayed.  A run
    that ends normally was ended by an exception of the loop: it printed
    exactly one more line and displayed exactly one closing message, those
    of the handler of that exception.  A run ended by an escaping exception
    printed nothing (the hardware initialisation failed, before the banner)
    or the banner only (a handler failed at the display). *)
Theorem outputs_of_a_run (cfg : config) (w : world) (fuel : nat) :
  match main cfg w fuel with
  | (Looping, s) =>
      hw_init w = None /\
      cycles cfg w fuel started = (None, s) /\
      stdout s = ["Battery monitoring system started..."%string] /\
      error_writes (lcd s) = 0%nat /\ stop_writes (lcd s) = 0%nat
  | (Finished, s) =>
      hw_init w = None /\
      exists e s1,
        cycles cfg w fuel started = (Some e, s1) /\
        stdout s = ["Battery monitoring system started..."%string;
                    closing_print e] /\
        lcd s = lcd s1 ++ [Clear; WriteString (closing_display e)] /\
        (error_writes (lcd s) + stop_writes (lcd s) = 1)%nat
  | (Uncaught e', s) =>
      (hw_init w = Some e' /\ stdout s = [] /\ lcd s = []) \/
      (hw_init w = None /\
       stdout s = ["Battery monitoring system started..."%string] /\
       error_writes (lcd s) = 0%nat /\ stop_writes (lcd s) = 0%nat /\
       exists e s1,
         cycles cfg w fuel started = (Some e, s1) /\
         (lcd s = lcd s1 \/ lcd s = lcd s1 ++ [Clear]))
  end.
Proof.
  unfold main, loop. fold started.
  destruct (hw_init w) as [e0 |] eqn:Hi.
  { left. repeat split. }
  destruct (cycles cfg w fuel started) as [[e |] s1] eqn:Hc.
  - destruct (cycles_silent cfg w fuel _ s1 Hc) as (Hout & Herr & Hstop).
    rewrite handler_spec.
    destruct (lcd_fault w (n_lcd s1)) as [e1 |] eqn:H1.
    { right. split; [reflexivity |]. cbn [stdout lcd lcd_failed].
      repeat (split; [assumption |]).
      exists e, s1. split; [reflexivity | left; reflexivity]. }
    destruct (lcd_fault w (S (n_lcd s1))) as [e2 |] eqn:H2.
    { right. split; [reflexivity |]. cbn [stdout lcd lcd_failed lcd_done].
      rewrite error_writes_app, stop_writes_app, Herr, Hstop.
      repeat (split; [assumption || reflexivity |]).
      exists e, s1. split; [reflexivity | right; reflexivity]. }
    split; [reflexivity |]. exists e, s1.
    split; [reflexivity |].
    cbn [stdout lcd printed lcd_done]. rewrite Hout.
    split; [reflexivity |].
    rewrite <- app_assoc. split; [reflexivity |].
    cbn [app].
    rewrite error_writes_app, stop_writes_app, Herr, Hstop.
    unfold closing_display. destruct (Py.is_Exception e); reflexivity.
  - destruct (cycles_silent cfg w fuel _ s1 Hc) as (Hout & Herr & Hstop).
    repeat (split; [assumption || reflexivity |]). exact Hstop.
Qed.

(** ** Accesses of the collaborators *)

Lemma current_reads_S (n : nat) :
  current_reads (S n) =
  ((if Z.eqb (Z.of_nat n mod 4) 0 then 2 else 1) + current_reads n)%nat.
Proof.
  unfold current_reads. apply Nat2Z.inj.
  destruct (Z.eqb_spec (Z.of_nat n mod 4) 0) as [E | E];
    rewrite !Nat2Z.inj_add, !Nat2Z.inj_div, !Nat2Z.inj_add, Nat2Z.inj_succ;
    change (Z.of_nat 3) with 3; change (Z.of_nat 4) with 4;
    [change (Z.of_nat 2) with 2 | change (Z.of_nat 1) with 1];
    Z.div_mod_to_equations; lia.
Qed.

Section Counts.

Variable cfg : config.
Variable w : world.

(** What a successful iteration costs: one access of every sensor property,
    a second one of the current on page 0, four display calls, one sleep. *)
Lemma cycle_counts s s' :
  0 <= page s < 4 ->
  cycle cfg w s = (Py.Ok tt, s') ->
  n_bus_voltage s' = S (n_bus_voltage s) /\
  n_temperature s' = S (n_temperature s) /\
  n_humidity s' = S (n_humidity s) /\
  n_sleep s' = S (n_sleep s) /\
  n_lcd s' = (4 + n_lcd s)%nat /\
  List.length (lcd s') = (4 + List.length (lcd s))%nat /\
  n_current s' = ((if Z.eqb (page s) 0 then 2 else 1) + n_current s)%nat.
Proof.
  intros Hp H. unfold cycle in H.
  apply bind_Ok in H. destruct H as ([] & s1 & H1 & H2).
  rewrite advance_spec in H2.
  destruct (sleep_fault w (n_sleep s1)); [discriminate H2 |].
  inversion H2; subst s'; clear H2.
  cbn [n_bus_voltage n_temperature n_humidity n_sleep n_lcd lcd n_current
       tick_sleep set_page].
  unfold sample_and_show, show, bind, read_bus_voltage, read_current,
    read_temperature, read_relative_humidity, lift, get_page, lcd_call, ret
    in H1.
  cbn -[line_status line_vi line_th line_soc line_dod Z.eqb] in H1.
  assert (Hc : page s = 0 \/ page s = 1 \/ page s = 2 \/ page s = 3) by lia.
  destruct Hc as [Hc | [Hc | [Hc | Hc]]]; rewrite Hc in *;
    cbn -[line_status line_vi line_th line_soc line_dod] in H1;
    repeat run_step H1;
    inversion H1; subst s1; clear H1;
    cbn -[line_status line_vi line_th line_soc line_dod];
    rewrite ?List.length_app; cbn [List.length];
    repeat split; lia.
Qed.

End Counts.

(** X4 -- after [n] iterations the bus voltage, the temperature and the
    humidity have been read [n] times each, whatever page was shown; the
    current [n] times plus once more for every page 0 shown; the display
    has received four calls per iteration and the process has slept [n]
    times. *)
Theorem access_counts (cfg : config) (w : world) (n : nat) (s : state) :
  main cfg w n = (Looping, s) ->
  n_bus_voltage s = n /\ n_temperature s = n /\ n_humidity s = n /\
  n_sleep s = n /\ n_lcd s = (4 * n)%nat /\
  List.length (lcd s) = (4 * n)%nat /\
  n_current s = (n + (n + 3) / 4)%nat.
Proof.
  intros H. apply main_Looping in H. destruct H as [_ H].
  fold (current_reads n). revert s H.
  induction n as [| n IH]; intros s H.
  - inversion H; subst. repeat split.
  - replace (S n) with (n + 1)%nat in H by lia.
    apply cycles_prefix in H. destruct H as (s1 & H1 & H2).
    pose proof (cycles_page cfg w n started s1 ltac:(cbn; lia) H1) as Hp.
    change (page started) with 0 in Hp. rewrite Z.add_0_l in Hp.
    destruct (IH s1 H1) as (I1 & I2 & I3 & I4 & I5 & I6 & I7).
    cbn [cycles] in H2.
    destruct (cycle cfg w s1) as [[[] | e] s2] eqn:E; [| discriminate H2].
    inversion H2; subst s2; clear H2.
    assert (Hr : 0 <= page s1 < 4)
      by (rewrite Hp; apply Z.mod_pos_bound; lia).
    destruct (cycle_counts cfg w s1 s Hr E)
      as (C1 & C2 & C3 & C4 & C5 & C6 & C7).
    rewrite C1, C2, C3, C4, C5, C6, C7, I1, I2, I3, I4, I5, I6, I7.
    repeat (split; [lia |]).
    rewrite current_reads_S, Hp. reflexivity.
Qed.

Lemma access_counts_witness :
  n_bus_voltage (snd (main constants (steady f_12_0 f_500 f_25 f_40) 6)) = 6%nat /\
  n_current (snd (main constants (steady f_12_0 f_500 f_25 f_40) 6)) = 8%nat.
Proof.
  assert (H : main constants (steady f_12_0 f_500 f_25 f_40) 6 =
              (Looping, snd (main constants (steady f_12_0 f_500 f_25 f_40) 6)))
    by (vm_compute; reflexivity).
  destruct (access_counts _ _ _ _ H) as (H1 & _ & _ & _ & _ & _ & H7).
  split; [exact H1 | exact H7].
Defined.

(** ** Where exceptions come from *)

Section Faithful.

Import F64 F64Facts Exact Rounding.

Variable cfg : config.
Variable w : world.

Hypothesis Hmax : valid (MAX_VOLTAGE cfg) = true.
Hypothesis Hmin : valid (MIN_VOLTAGE cfg) = true.
Hypothesis Hspan :
  is_zero (sub (MAX_VOLTAGE cfg) (MIN_VOLTAGE cfg)) = false.
Hypothesis Hbus :
  forall n v, ina219_bus_voltage w n = Py.Ok v -> valid v = true.

Lemma faithful_ret {A : Type} (a : A) : faithful w (ret a).
Proof. intros s e s' H. discriminate H. Qed.

Lemma faithful_lift_Ok {A : Type} (a : A) : faithful w (lift (Py.Ok a)).
Proof. intros s e s' H. discriminate H. Qed.

Lemma faithful_bind {A B : Type} (P : A -> Prop) (c : M A) (k : A -> M B) :
  faithful w c ->
  (forall s a s', c s = (Py.Ok a, s') -> P a) ->
  (forall a, P a -> faithful w (k a)) ->
  faithful w (bind c k).
Proof.
  intros Hc HP Hk s e s' H. apply bind_Raise in H.
  destruct H as [H | (a & s1 & H1 & H2)].
  - exact (Hc _ _ _ H).
  - exact (Hk a (HP _ _ _ H1) _ _ _ H2).
Qed.

Lemma faithful_seq {A B : Type} (c : M A) (k : A -> M B) :
  faithful w c -> (forall a, faithful w (k a)) -> faithful w (bind c k).
Proof.
  intros Hc Hk.
  apply (faithful_bind (fun _ => True)); [exact Hc | trivial |].
  intros a _. apply Hk.
Qed.

Lemma faithful_read_bus_voltage : faithful w (read_bus_voltage w).
Proof.
  intros s e s' H. inversion H. left. eexists. eassumption.
Qed.

Lemma faithful_read_current : faithful w (read_current w).
Proof.
  intros s e s' H. inversion H. right. left. eexists. eassumption.
Qed.

Lemma faithful_read_temperature : faithful w (read_temperature w).
Proof.
  intros s e s' H. inversion H. do 2 right. left. eexists. eassumption.
Qed.

Lemma faithful_read_relative_humidity :
  faithful w (read_relative_humidity w).
Proof.
  intros s e s' H. inversion H. do 3 right. left. eexists. eassumption.
Qed.

Lemma faithful_lcd_call op : faithful w (lcd_call w op).
Proof.
  intros s e s' H. unfold lcd_call in H.
  destruct (lcd_fault w (n_lcd s)) as [e0 |] eqn:E; inversion H; subst.
  do 4 right. left. eexists. eassumption.
Qed.

Lemma faithful_sleep seconds : faithful w (sleep w seconds).
Proof.
  intros s e s' H. unfold sleep in H.
  destruct (sleep_fault w (n_sleep s)) as [e0 |] eqn:E; inversion H; subst.
  do 5 right. eexists. eassumption.
Qed.

(** The interpolation of line 41 raises only when the two calibration
    bounds are equal. *)
Lemma soc_ok (bus_v : float) :
  valid bus_v = true ->
  exists x, soc cfg bus_v = Py.Ok (clamp x) /\ valid x = true.
Proof.
  intros Hv. unfold soc, interpolation, Py.truediv. rewrite Hspan.
  eexists. split; [reflexivity |].
  apply mul_valid; [| reflexivity].
  apply div_valid; apply sub_valid; assumption.
Qed.

(** [int(soc)] and [int(dod)] never raise: the clamped value is an [int] or
    a finite float. *)
Lemma int_clamp_ok (x : float) :
  valid x = true ->
  (exists n, Py.int (clamp x) = Py.Ok n) /\
  (exists m, Py.int (dod (clamp x)) = Py.Ok m).
Proof.
  intros Hv. rewrite clamp_cases.
  destruct (ltb x f_100) eqn:E1; [destruct (ltb f_0_0 x) eqn:E0 |].
  - destruct (positive_form x E0 E1) as (mx & ex & Hx). subst x.
    destruct (sub_100_range mx ex Hv E1) as (md & ed & Hsub & _).
    split; [eexists; reflexivity |].
    unfold dod, Py.sub. cbn [Py.as_float Py.int].
    change (of_Z 100) with f_100. rewrite Hsub. eexists. reflexivity.
  - split; eexists; reflexivity.
  - split; eexists; reflexivity.
Qed.

Lemma faithful_show pg status bus_v temp hum z x :
  valid x = true ->
  faithful w (show w pg status bus_v temp hum z (clamp x) (dod (clamp x))).
Proof.
  intros Hv. destruct (int_clamp_ok x Hv) as [(n & Hn) (m & Hm)].
  unfold show. rewrite Hn, Hm.
  apply faithful_seq; [apply faithful_lcd_call | intros _].
  destruct (pg =? 0); [| destruct (pg =? 1);
    [| destruct (pg =? 2); [| destruct (pg =? 3)]]];
  repeat first
    [ apply faithful_ret
    | apply faithful_lift_Ok
    | apply faithful_read_current
    | apply faithful_lcd_call
    | apply faithful_seq; [| intros ?] ].
Qed.

Lemma faithful_sample_and_show : faithful w (sample_and_show cfg w).
Proof.
  unfold sample_and_show.
  apply (faithful_bind (fun v => valid v = true));
    [apply faithful_read_bus_voltage | |].
  { intros s a s' H. inversion H. eapply Hbus. eassumption. }
  intros bus_v Hv.
  apply faithful_seq; [apply faithful_read_current | intros current].
  rewrite truediv_1000.
  apply faithful_seq; [apply faithful_lift_Ok | intros current_a].
  rewrite impedance_total.
  apply faithful_seq; [apply faithful_lift_Ok | intros z].
  destruct (soc_ok bus_v Hv) as (x & Hs & Hx). rewrite Hs.
  apply (faithful_bind (fun v => v = clamp x));
    [apply faithful_lift_Ok | |].
  { intros s a s' H. inversion H. reflexivity. }
  intros soc_v ->.
  apply faithful_seq; [apply faithful_read_temperature | intros temp].
  apply faithful_seq; [apply faithful_read_relative_humidity | intros hum].
  apply faithful_seq; [intros s e s' H; discriminate H | intros pg].
  apply faithful_show. exact Hx.
Qed.

Lemma faithful_cycle : faithful w (cycle cfg w).
Proof.
  unfold cycle.
  apply faithful_seq; [apply faithful_sample_and_show | intros _].
  unfold advance.
  apply faithful_seq; [intros s e s' H; discriminate H | intros pg].
  apply faithful_seq; [intros s e s' H; discriminate H | intros _].
  apply faithful_sleep.
Qed.

End Faithful.

(** In a world where nothing fails an iteration goes through, from any
    state. *)
Lemma working_cycle (cfg : config) (w : world) :
  F64.valid (MAX_VOLTAGE cfg) = true ->
  F64.valid (MIN_VOLTAGE cfg) = true ->
  F64.is_zero (F64.sub (MAX_VOLTAGE cfg) (MIN_VOLTAGE cfg)) = false ->
  working w ->
  forall s, exists s', cycle cfg w s = (Py.Ok tt, s').
Proof.
  intros H1 H2 H3 (Wi & Wb & Wc & Wt & Wh & Wl & Ws) s.
  destruct (cycle cfg w s) as [[[] | e] s'] eqn:E.
  - exists s'. reflexivity.
  - exfalso.
    assert (Hb : forall n v, ina219_bus_voltage w n = Py.Ok v ->
                             F64.valid v = true).
    { intros n v Hn. destruct (Wb n) as (v' & Hv' & Hval).
      rewrite Hv' in Hn. inversion Hn; subst. exact Hval. }
    destruct (faithful_cycle cfg w H1 H2 H3 Hb _ _ _ E)
      as [(n & Hn) | [(n & Hn) | [(n & Hn) | [(n & Hn) |
          [(n & Hn) | (n & Hn)]]]]].
    + destruct (Wb n) as (v & Hv & _). rewrite Hv in Hn. discriminate Hn.
    + destruct (Wc n) as (v & Hv). rewrite Hv in Hn. discriminate Hn.
    + destruct (Wt n) as (v & Hv). rewrite Hv in Hn. discriminate Hn.
    + destruct (Wh n) as (v & Hv). rewrite Hv in Hn. discriminate Hn.
    + rewrite Wl in Hn. discriminate Hn.
    + rewrite Ws in Hn. discriminate Hn.
Qed.

Lemma working_steady (bus_v current temp hum : float) :
  F64.valid bus_v = true -> working (steady bus_v current temp hum).
Proof.
  intros Hv. split; [reflexivity |].
  split; [intros n; exists bus_v; split; [reflexivity | exact Hv] |].
  split; [intros n; eexists; reflexivity |].
  split; [intros n; eexists; reflexivity |].
  split; [intros n; eexists; reflexivity |].
  split; intros n; reflexivity.
Qed.

(** X5 -- with calibration bounds that differ, the computations of an
    iteration never raise, from whatever state the loop runs (no division by zero, no [int()] of a NaN or of
    an infinity): an exception that ends the loop was raised by a sensor
    access, by a display call or by the sleep. *)
Theorem only_collaborators_raise (cfg : config) (w : world) (fuel : nat)
    (e : Py.exn) (s s1 : state) :
  F64.valid (MAX_VOLTAGE cfg) = true ->
  F64.valid (MIN_VOLTAGE cfg) = true ->
  F64.is_zero (F64.sub (MAX_VOLTAGE cfg) (MIN_VOLTAGE cfg)) = false ->
  (forall n v, ina219_bus_voltage w n = Py.Ok v -> F64.valid v = true) ->
  cycles cfg w fuel s = (Some e, s1) ->
  raised_by_collaborator w e.
Proof.
  intros H1 H2 H3 H4. revert s.
  induction fuel as [| k IH]; intros s H.
  - discriminate H.
  - cbn [cycles] in H.
    destruct (cycle cfg w s) as [[[] | e0] s2] eqn:E.
    + exact (IH _ H).
    + inversion H; subst.
      exact (faithful_cycle cfg w H1 H2 H3 H4 _ _ _ E).
Qed.

Lemma only_collaborators_raise_witness :
  raised_by_collaborator dead_sensor
    (Py.DeviceError "[Errno 121] Remote I/O error").
Proof.
  apply (only_collaborators_raise constants dead_sensor 3
           (Py.DeviceError "[Errno 121] Remote I/O error")
           started (tick_bus_voltage started)).
  - reflexivity.
  - reflexivity.
  - reflexivity.
  - intros n v H. discriminate H.
  - reflexivity.
Defined.

(** X6 -- with calibration bounds that differ and collaborators that
    answer every call, the loop is still running after any number of
    iterations: the script does not end by itself and prints nothing but
    the start banner. *)
Theorem runs_forever (cfg : config) (w : world) (fuel : nat) :
  F64.valid (MAX_VOLTAGE cfg) = true ->
  F64.valid (MIN_VOLTAGE cfg) = true ->
  F64.is_zero (F64.sub (MAX_VOLTAGE cfg) (MIN_VOLTAGE cfg)) = false ->
  working w ->
  exists s,
    main cfg w fuel = (Looping, s) /\
    exit_status (fst (main cfg w fuel)) = None /\
    page s = Z.of_nat fuel mod 4 /\
    stdout s = ["Battery monitoring system started..."%string].
Proof.
  intros H1 H2 H3 Hw.
  assert (Hc : forall n s0, exists s, cycles cfg w n s0 = (None, s)).
  { induction n as [| n IH]; intros s0.
    - exists s0. reflexivity.
    - cbn [cycles].
      destruct (working_cycle cfg w H1 H2 H3 Hw s0) as (s' & Hs').
      rewrite Hs'. apply IH. }
  destruct (Hc fuel started) as (s & Hs).
  assert (Hm : main cfg w fuel = (Looping, s)).
  { apply main_Looping. split; [apply Hw | exact Hs]. }
  exists s. split; [exact Hm |].
  split; [rewrite Hm; reflexivity |].
  split; [exact (cycles_page cfg w fuel started s ltac:(cbn; lia) Hs) |].
  apply (cycles_silent cfg w fuel _ s Hs).
Qed.

Lemma runs_forever_witness :
  exists s, main constants (steady f_12_0 f_500 f_25 f_40) 9 = (Looping, s).
Proof.
  destruct (runs_forever constants (steady f_12_0 f_500 f_25 f_40) 9)
    as (s & Hm & _).
  - reflexivity.
  - reflexivity.
  - reflexivity.
  - apply working_steady. reflexivity.
  - exists s. exact Hm.
Defined.

(** ** Thresholds in general *)

Section Thresholds.

Import F64 F64Facts.

(** [v >= t] stays true when [v] grows, whatever the threshold. *)
Lemma geb_mono (t v1 v2 : float) :
  valid t = true -> valid v1 = true -> valid v2 = true ->
  is_finite v1 = true -> is_finite v2 = true ->
  (to_Q v1 <= to_Q v2)%Q ->
  geb v1 t = true -> geb v2 t = true.
Proof.
  intros Ht H1 H2 F1 F2 Hle.
  destruct (is_finite t) eqn:Ft.
  - intros H.
    apply (OrderFacts.geb_true v1 t H1 Ht F1 Ft) in H.
    apply (OrderFacts.geb_true v2 t H2 Ht F2 Ft).
    apply Qle_trans with (1 := H). exact Hle.
  - destruct t as [st | st | | st mt et]; try discriminate Ft.
    + destruct st.
      * intros _.
        destruct v2 as [s2 | s2 | | s2 m2 e2]; try discriminate F2;
          reflexivity.
      * destruct v1 as [s1 | s1 | | s1 m1 e1]; try discriminate F1;
          intros H; discriminate H.
    + intros H. discriminate H.
Qed.

End Thresholds.

(** X7 -- the classification is monotone, whatever the two thresholds: of
    two finite voltages the higher one never gets a worse status
    (Critical < Moderate < Healthy). *)
Theorem status_monotone (cfg : config) (v1 v2 : float) :
  F64.valid (VOLTAGE_HEALTHY cfg) = true ->
  F64.valid (VOLTAGE_MODERATE cfg) = true ->
  F64.valid v1 = true -> F64.valid v2 = true ->
  F64.is_finite v1 = true -> F64.is_finite v2 = true ->
  (F64.to_Q v1 <= F64.to_Q v2)%Q ->
  (status_rank (get_battery_status cfg v1) <=
   status_rank (get_battery_status cfg v2))%nat.
Proof.
  intros Hh Hm H1 H2 F1 F2 Hle. unfold get_battery_status.
  destruct (F64.geb v1 (VOLTAGE_HEALTHY cfg)) eqn:E1.
  - rewrite (geb_mono _ v1 v2 Hh H1 H2 F1 F2 Hle E1). apply Nat.le_refl.
  - destruct (F64.geb v1 (VOLTAGE_MODERATE cfg)) eqn:E2.
    + rewrite (geb_mono _ v1 v2 Hm H1 H2 F1 F2 Hle E2).
      destruct (F64.geb v2 (VOLTAGE_HEALTHY cfg)); cbn; lia.
    + cbn. lia.
Qed.

Lemma status_monotone_witness :
  (status_rank (get_battery_status constants f_10_5) <=
   status_rank (get_battery_status constants f_12_0))%nat.
Proof.
  apply (status_monotone constants f_10_5 f_12_0);
    try reflexivity.
  vm_compute. discriminate.
Defined.

(** X8 -- the thresholds are not checked against each other: when
    [VOLTAGE_HEALTHY <= VOLTAGE_MODERATE] no voltage is ever classified
    Moderate; the status is Healthy from [VOLTAGE_HEALTHY] on and Critical
    below. *)
Theorem moderate_needs_ordered_thresholds (cfg : config) (voltage : float) :
  F64.valid (VOLTAGE_HEALTHY cfg) = true ->
  F64.valid (VOLTAGE_MODERATE cfg) = true ->
  F64.is_finite (VOLTAGE_HEALTHY cfg) = true ->
  F64.is_finite (VOLTAGE_MODERATE cfg) = true ->
  (F64.to_Q (VOLTAGE_HEALTHY cfg) <= F64.to_Q (VOLTAGE_MODERATE cfg))%Q ->
  F64.valid voltage = true ->
  get_battery_status cfg voltage <> "Moderate"%string /\
  get_battery_status cfg voltage =
    (if F64.geb voltage (VOLTAGE_HEALTHY cfg) then "Healthy"
     else "Critical")%string.
Proof.
  intros Hh Hm Fh Fm Hle Hv.
  assert (Hkey : F64.geb voltage (VOLTAGE_HEALTHY cfg) = false ->
                 F64.geb voltage (VOLTAGE_MODERATE cfg) = false).
  { intros E1.
    destruct (F64.is_finite voltage) eqn:Fv.
    - apply (OrderFacts.geb_false voltage _ Hv Hh Fv Fh) in E1.
      apply (OrderFacts.geb_false voltage _ Hv Hm Fv Fm).
      apply Qlt_le_trans with (1 := E1). exact Hle.
    - destruct voltage as [s | s | | s m e]; try discriminate Fv.
      + destruct s.
        * destruct (VOLTAGE_MODERATE cfg) as [s' | s' | | s' m' e'];
            try discriminate Fm; reflexivity.
        * destruct (VOLTAGE_HEALTHY cfg) as [s' | s' | | s' m' e'];
            try discriminate Fh; discriminate E1.
      + destruct (VOLTAGE_MODERATE cfg) as [s' | s' | | s' m' e'];
          try discriminate Fm; reflexivity. }
  unfold get_battery_status.
  destruct (F64.geb voltage (VOLTAGE_HEALTHY cfg)) eqn:E1.
  - split; [discriminate | reflexivity].
  - rewrite (Hkey eq_refl). split; [discriminate | reflexivity].
Qed.

Lemma moderate_needs_ordered_thresholds_witness :
  get_battery_status misordered f_12_0 = "Healthy"%string /\
  get_battery_status misordered f_10_5 <> "Moderate"%string.
Proof.
  split.
  - reflexivity.
  - apply (moderate_needs_ordered_thresholds misordered f_10_5);
      try reflexivity.
    vm_compute. discriminate.
Defined.

(** ** The state of charge at and below the lower bound *)

Section Saturation.

Import F64 F64Facts Exact Rounding.

Lemma finalize_sign (s : bool) (R e : Z) :
  0 <= R ->
  finalize s R e = S754_zero s \/
  (exists m e', finalize s R e = S754_finite s m e') \/
  finalize s R e = S754_infinity s.
Proof.
  intros HR. unfold finalize.
  destruct (R <? 2 ^ 53).
  - destruct R as [| p | p]; [left; reflexivity | | lia].
    cbn [overflow]. destruct (e <=? 971).
    + right. left. eexists _, _. reflexivity.
    + right. right. reflexivity.
  - change (2 ^ 52) with (Zpos 4503599627370496). cbn [overflow].
    destruct (e + 1 <=? 971).
    + right. left. eexists _, _. reflexivity.
    + right. right. reflexivity.
Qed.

Lemma finalize_nonpositive (R e : Z) :
  0 <= R -> nonpositive (finalize true R e) = true.
Proof.
  intros HR.
  destruct (finalize_sign true R e HR) as [H | [(m & e' & H) | H]];
    rewrite H; reflexivity.
Qed.

Lemma round_aux_nonpositive (mx ex : Z) (lx : location) :
  0 <= mx -> ex <= fexp prec emax (Zdigits2 mx + ex) ->
  nonpositive (binary_round_aux prec emax true mx ex lx) = true.
Proof.
  intros Hm He. rewrite binary_round_aux_spec by assumption.
  apply finalize_nonpositive.
  set (n := fexp prec emax (Zdigits2 mx + ex) - ex).
  assert (Hn : 0 <= n) by (unfold n; lia).
  pose proof (round_at_bounds mx lx n Hm Hn) as [Rlo _].
  assert (0 <= mx / 2 ^ n)
    by (apply Z.div_pos; [lia | apply Z.pow_pos_nonneg; lia]).
  lia.
Qed.

Lemma normalize_nonpositive (M e : Z) :
  -1074 <= e -> M <= 0 ->
  nonpositive (binary_normalize prec emax M e false) = true.
Proof.
  intros He HM. destruct (Z.eq_dec M 0) as [-> | Hne]; [reflexivity |].
  replace M with (- (- M)) by lia.
  rewrite normalize_neg by lia.
  apply finalize_nonpositive.
  pose proof (kept_bounds (- M) e ltac:(lia) He). lia.
Qed.

(** The difference of two finite numbers, as one normalisation. *)
Lemma sub_finite (sx sy : bool) (mx my : positive) (ex ey : Z) :
  sub (S754_finite sx mx ex) (S754_finite sy my ey) =
  binary_normalize prec emax
    (cond_Zopp sx (Zpos mx * 2 ^ (ex - Z.min ex ey)) -
     cond_Zopp sy (Zpos my * 2 ^ (ey - Z.min ex ey)))
    (Z.min ex ey) false.
Proof.
  unfold sub. cbn [SFsub].
  destruct (shl_align_spec mx ex (Z.min ex ey)) as [_ H1].
  destruct (shl_align_spec my ey (Z.min ex ey)) as [_ H2].
  rewrite H1, H2.
  replace (Z.min ex (Z.min ex ey)) with (Z.min ex ey) by lia.
  replace (Z.min ey (Z.min ex ey)) with (Z.min ex ey) by lia.
  reflexivity.
Qed.

(** The value of a finite number, split at a lower exponent. *)
Lemma units_split (s : bool) (m : positive) (e ez : Z) :
  -1074 <= ez <= e ->
  units (S754_finite s m e) =
  cond_Zopp s (Zpos m * 2 ^ (e - ez)) * 2 ^ (ez + 1074).
Proof.
  intros He. cbn [units].
  replace (e + 1074) with ((e - ez) + (ez + 1074)) by lia.
  rewrite Z.pow_add_r by lia.
  destruct s; cbn [cond_Zopp]; ring.
Qed.

Lemma sub_nonpositive (v t : float) :
  valid v = true -> valid t = true -> is_finite t = true ->
  leb v t = true -> nonpositive (sub v t) = true.
Proof.
  intros Hv Ht Ft Hle.
  destruct t as [st | st | | st mt et]; try discriminate Ft.
  - destruct v as [sv | sv | | sv mv ev]; try discriminate Hle.
    + destruct sv, st; reflexivity.
    + destruct sv; [reflexivity | discriminate Hle].
    + destruct sv; [reflexivity | discriminate Hle].
  - destruct v as [sv | sv | | sv mv ev]; try discriminate Hle.
    + destruct st; [discriminate Hle | reflexivity].
    + destruct sv; [reflexivity | discriminate Hle].
    + rewrite (OrderFacts.leb_units _ _ Hv Ht eq_refl eq_refl) in Hle.
      apply Z.leb_le in Hle.
      pose proof (valid_finite _ _ _ Hv) as [[Hev _] _].
      pose proof (valid_finite _ _ _ Ht) as [[Het _] _].
      rewrite sub_finite.
      set (ez := Z.min ev et) in *.
      apply normalize_nonpositive; [unfold ez; lia |].
      rewrite (units_split sv mv ev ez) in Hle by (unfold ez; lia).
      rewrite (units_split st mt et ez) in Hle by (unfold ez; lia).
      assert (Hp : 0 < 2 ^ (ez + 1074))
        by (apply Z.pow_pos_nonneg; unfold ez; lia).
      nia.
Qed.

Lemma div_nonpositive (d : float) (my : positive) (ey : Z) :
  nonpositive d = true ->
  nonpositive (div d (S754_finite false my ey)) = true.
Proof.
  intros Hd.
  destruct d as [sd | sd | | sd md ed]; try discriminate Hd.
  - reflexivity.
  - cbn in Hd. subst sd. reflexivity.
  - cbn in Hd. subst sd. unfold div. cbn [SFdiv xorb].
    destruct (div_core_spec md my ed ey) as (H1 & H2 & H3 & _).
    rewrite H1. apply round_aux_nonpositive; assumption.
Qed.

Lemma mul_nonpositive (q : float) (my : positive) (ey : Z) :
  valid q = true -> valid (S754_finite false my ey) = true ->
  nonpositive q = true ->
  nonpositive (mul q (S754_finite false my ey)) = true.
Proof.
  intros Hv Hy Hq.
  destruct q as [sq | sq | | sq mq eq]; try discriminate Hq.
  - reflexivity.
  - cbn in Hq. subst sq. reflexivity.
  - cbn in Hq. subst sq. unfold mul. cbn [SFmul xorb].
    pose proof (valid_finite _ _ _ Hv) as [[Hx1 Hx2] [Hx3 Hx4]].
    pose proof (valid_finite _ _ _ Hy) as [[Hy1 Hy2] [Hy3 Hy4]].
    apply round_aux_nonpositive; [lia |].
    rewrite fexp_eq.
    destruct (Z_le_gt_dec (eq + ey) (-1074)) as [L | G]; [lia |].
    assert (Hprod : 2 ^ 52 <= Zpos (mq * my)).
    { rewrite Pos2Z.inj_mul.
      destruct (Z_le_gt_dec eq (-1074)) as [Lx | Gx].
      - assert (2 ^ 52 <= Zpos my) by (apply Hy4; lia). nia.
      - assert (2 ^ 52 <= Zpos mq) by (apply Hx4; lia). nia. }
    apply digits_ge_53 in Hprod. lia.
Qed.

Lemma clamp_nonpositive (x : float) :
  nonpositive x = true -> clamp x = Py.Int 0.
Proof.
  intros H. rewrite clamp_cases.
  destruct x as [s | s | | s m e]; try discriminate H.
  - reflexivity.
  - cbn in H. subst s. reflexivity.
  - cbn in H. subst s. reflexivity.
Qed.

End Saturation.

(** X9 -- at and below the lower calibration bound the state of charge is
    exactly the integer 0 and the depth of discharge the integer 100:
    whenever [bus_v <= MIN_VOLTAGE] holds (minus infinity included), pages
    2 and 3 show 0% and 100%. *)
Theorem soc_is_0_up_to_min (bus_v : float) :
  F64.valid bus_v = true ->
  F64.leb bus_v (MIN_VOLTAGE constants) = true ->
  exists soc_v,
    soc constants bus_v = Py.Ok soc_v /\
    soc_v = Py.Int 0 /\
    dod soc_v = Py.Int 100 /\
    Py.int soc_v = Py.Ok 0 /\
    Py.int (dod soc_v) = Py.Ok 100.
Proof.
  intros Hv Hle.
  exists (Py.Int 0). split; [| repeat split].
  unfold soc. rewrite interpolation_constants.
  rewrite clamp_nonpositive; [reflexivity |].
  apply mul_nonpositive; [| reflexivity |].
  - apply Rounding.div_valid; [| reflexivity].
    apply Rounding.sub_valid; [exact Hv | reflexivity].
  - apply div_nonpositive.
    apply sub_nonpositive; [exact Hv | reflexivity | reflexivity | exact Hle].
Qed.

Lemma soc_is_0_up_to_min_witness :
  soc constants f_9_0 = Py.Ok (Py.Int 0).
Proof.
  destruct (soc_is_0_up_to_min f_9_0 eq_refl eq_refl)
    as (soc_v & Hs & -> & _).
  exact Hs.
Defined.

(** ** The state of charge at and above the upper bound *)

Section Full.

Import F64 F64Facts Exact Rounding.

(** Rounding never goes below a representable number that the exact value
    is not below. *)
Lemma finalize_ge (mF : positive) (eF R e1 : Z) :
  valid (S754_finite false mF eF) = true ->
  -1074 <= e1 -> 0 <= R <= 2 ^ 53 -> (-1074 < e1 -> 2 ^ 52 <= R) ->
  Zpos mF * 2 ^ (eF + 1074) <= R * 2 ^ (e1 + 1074) ->
  geb (finalize false R e1) (S754_finite false mF eF) = true.
Proof.
  intros HF He HR Hn Hle.
  pose proof (finalize_valid false R e1 He HR Hn) as Hval.
  pose proof (valid_finite _ _ _ HF) as [[HeF _] _].
  pose proof (units_pos mF eF HeF) as HFpos.
  assert (Hp : 0 < 2 ^ (e1 + 1074)) by (apply Z.pow_pos_nonneg; lia).
  assert (HRpos : 0 < R) by nia.
  unfold finalize in *.
  destruct (Z.ltb_spec R (2 ^ 53)) as [Hlt | Hge].
  - destruct R as [| p | p]; try lia. cbn [overflow] in *.
    destruct (e1 <=? 971); [| reflexivity].
    unfold geb. fold (leb (S754_finite false mF eF) (S754_finite false p e1)).
    rewrite (OrderFacts.leb_units _ _ HF Hval eq_refl eq_refl).
    apply Z.leb_le. cbn [units cond_Zopp]. exact Hle.
  - change (2 ^ 52) with (Zpos 4503599627370496) in *. cbn [overflow] in *.
    destruct (e1 + 1 <=? 971); [| reflexivity].
    unfold geb.
    fold (leb (S754_finite false mF eF)
              (S754_finite false 4503599627370496 (e1 + 1))).
    rewrite (OrderFacts.leb_units _ _ HF Hval eq_refl eq_refl).
    apply Z.leb_le. cbn [units cond_Zopp].
    replace (e1 + 1 + 1074) with (1 + (e1 + 1074)) by lia.
    rewrite (Z.pow_add_r 2 1 (e1 + 1074)) by lia.
    assert (R = 2 ^ 53) by lia. subst R.
    change (2 ^ 53) with 9007199254740992 in Hle.
    change (2 ^ 1) with 2. lia.
Qed.

(** The mantissa kept at the exponent [e1] of the format is not below a
    representable number that [mx * 2^ex] is not below. *)
Lemma mantissa_ge (mF : positive) (eF mx ex R : Z) :
  valid (S754_finite false mF eF) = true ->
  0 <= mx -> -1074 <= ex ->
  let e1 := fexp prec emax (Zdigits2 mx + ex) in
  ex <= e1 ->
  mx / 2 ^ (e1 - ex) <= R ->
  Zpos mF * 2 ^ (eF + 1074) <= mx * 2 ^ (ex + 1074) ->
  Zpos mF * 2 ^ (eF + 1074) <= R * 2 ^ (e1 + 1074).
Proof.
  intros HF Hm Hex e1 He1 HR Hle.
  pose proof (valid_finite _ _ _ HF) as [[HeF _] [HmF _]].
  destruct (shifted_range mx ex Hm He1) as (S1 & S2 & S3). fold e1 in S1, S2, S3.
  set (n := e1 - ex) in *.
  assert (Hn : 0 <= n) by (unfold n; lia).
  assert (HP : 0 < 2 ^ n) by (apply Z.pow_pos_nonneg; lia).
  assert (Hpx : 0 < 2 ^ (ex + 1074)) by (apply Z.pow_pos_nonneg; lia).
  assert (Hp1 : 0 < 2 ^ (e1 + 1074)) by (apply Z.pow_pos_nonneg; lia).
  assert (Hsplit : 2 ^ (e1 + 1074) = 2 ^ n * 2 ^ (ex + 1074)).
  { rewrite <- Z.pow_add_r by lia. f_equal. unfold n. lia. }
  destruct (Z_le_gt_dec e1 eF) as [Hhi | Hlo].
  - (* the bound is on the grid of [e1] *)
    assert (HsF : 2 ^ (eF + 1074) = 2 ^ (eF - e1) * 2 ^ (e1 + 1074)).
    { rewrite <- Z.pow_add_r by lia. f_equal. lia. }
    assert (Hpf : 0 < 2 ^ (eF - e1)) by (apply Z.pow_pos_nonneg; lia).
    set (G := Zpos mF * 2 ^ (eF - e1)) in *.
    assert (HG : G * 2 ^ n <= mx).
    { rewrite HsF, Hsplit in Hle.
      replace (Zpos mF * (2 ^ (eF - e1) * (2 ^ n * 2 ^ (ex + 1074))))
        with (G * 2 ^ n * 2 ^ (ex + 1074)) in Hle by (unfold G; ring).
      apply Z.mul_le_mono_pos_r in Hle; assumption. }
    assert (HGq : G <= mx / 2 ^ n).
    { apply Z.div_le_lower_bound; [exact HP | lia]. }
    rewrite HsF.
    replace (Zpos mF * (2 ^ (eF - e1) * 2 ^ (e1 + 1074)))
      with (G * 2 ^ (e1 + 1074)) by (unfold G; ring).
    apply Z.mul_le_mono_nonneg_r; lia.
  - (* the bound is below the smallest number of exponent [e1] *)
    assert (H52 : 2 ^ 52 <= R) by lia.
    assert (HsF : 2 ^ (e1 + 1074) = 2 ^ (e1 - eF) * 2 ^ (eF + 1074)).
    { rewrite <- Z.pow_add_r by lia. f_equal. lia. }
    assert (Hpf : 0 < 2 ^ (eF + 1074)) by (apply Z.pow_pos_nonneg; lia).
    assert (H2 : 2 <= 2 ^ (e1 - eF)).
    { change 2 with (2 ^ 1) at 1. apply Z.pow_le_mono_r; lia. }
    rewrite HsF.
    change (2 ^ 53) with 9007199254740992 in HmF.
    change (2 ^ 52) with 4503599627370496 in H52.
    set (A := 2 ^ (eF + 1074)) in *. set (B := 2 ^ (e1 - eF)) in *.
    assert (H3 : 9007199254740992 <= R * B) by nia.
    replace (R * (B * A)) with (R * B * A) by ring.
    apply Z.mul_le_mono_nonneg_r; lia.
Qed.

Lemma round_aux_ge (mF : positive) (eF mx ex : Z) (lx : location) :
  valid (S754_finite false mF eF) = true ->
  0 <= mx -> -1074 <= ex ->
  ex <= fexp prec emax (Zdigits2 mx + ex) ->
  Zpos mF * 2 ^ (eF + 1074) <= mx * 2 ^ (ex + 1074) ->
  geb (binary_round_aux prec emax false mx ex lx) (S754_finite false mF eF)
    = true.
Proof.
  intros HF Hm Hex He1 Hle.
  rewrite binary_round_aux_spec by assumption.
  destruct (shifted_range mx ex Hm He1) as (S1 & S2 & S3).
  set (e1 := fexp prec emax (Zdigits2 mx + ex)) in *.
  assert (Hn : 0 <= e1 - ex) by lia.
  pose proof (round_at_bounds mx lx (e1 - ex) Hm Hn) as [Rlo Rhi].
  assert (Hq0 : 0 <= mx / 2 ^ (e1 - ex))
    by (apply Z.div_pos; [lia | apply Z.pow_pos_nonneg; lia]).
  apply finalize_ge; [exact HF | exact S1 | lia | intros H; specialize (S3 H); lia |].
  apply (mantissa_ge mF eF mx ex _ HF Hm Hex He1 Rlo Hle).
Qed.

Lemma normalize_ge (mF : positive) (eF M e : Z) :
  valid (S754_finite false mF eF) = true ->
  -1074 <= e ->
  Zpos mF * 2 ^ (eF + 1074) <= M * 2 ^ (e + 1074) ->
  geb (binary_normalize prec emax M e false) (S754_finite false mF eF) = true.
Proof.
  intros HF He Hle.
  pose proof (valid_finite _ _ _ HF) as [[HeF _] _].
  pose proof (units_pos mF eF HeF) as HFpos.
  assert (Hp : 0 < 2 ^ (e + 1074)) by (apply Z.pow_pos_nonneg; lia).
  assert (HM : 0 < M) by nia.
  rewrite normalize_pos by exact HM.
  pose proof (kept_bounds M e HM He) as [K1 K2].
  set (E := fexp prec emax (Zdigits2 M + e)) in *.
  assert (HE : -1074 <= E) by (unfold E; rewrite fexp_eq; lia).
  assert (Hval : kept M e * 2 ^ (E + 1074) >= Zpos mF * 2 ^ (eF + 1074) /\
                 (-1074 < E -> 2 ^ 52 <= kept M e)).
  { unfold kept in *. fold E in K1, K2 |- *.
    destruct (Z.leb_spec E e) as [Hex | Hrd].
    - split.
      + replace (e + 1074) with ((e - E) + (E + 1074)) in Hle by lia.
        rewrite (Z.pow_add_r 2 (e - E) (E + 1074)) in Hle by lia.
        rewrite Z.mul_assoc in Hle. lia.
      + intros HE1.
        pose proof (Zdigits2_bounds M HM) as [Dlo _].
        assert (HEq : E = Zdigits2 M + e - 53)
          by (unfold E in *; rewrite fexp_eq in *; lia).
        apply Z.le_trans with (2 ^ (Zdigits2 M - 1) * 2 ^ (e - E)).
        * rewrite <- Z.pow_add_r by (pose proof (Zdigits2_pos M HM); lia).
          apply Z.pow_le_mono_r; lia.
        * apply Z.mul_le_mono_nonneg_r; [| exact Dlo].
          apply Z.pow_nonneg. lia.
    - assert (He1 : e <= E) by lia.
      destruct (shifted_range M e ltac:(lia) He1) as (S1 & S2 & S3).
      fold E in S2, S3.
      assert (HP : 0 < 2 ^ (E - e)) by (apply Z.pow_pos_nonneg; lia).
      pose proof (round_half_even_bounds M (2 ^ (E - e)) HP) as [Rlo _].
      split.
      + apply Z.le_ge.
        apply (mantissa_ge mF eF M e _ HF ltac:(lia) He He1 Rlo Hle).
      + intros HE1. specialize (S3 HE1). lia. }
  destruct Hval as [V1 V2].
  apply finalize_ge; [exact HF | exact HE | lia | exact V2 | lia].
Qed.

(** A positive number, by comparison with a positive one. *)
Lemma geb_positive_form (x : float) (mF : positive) (eF : Z) :
  geb x (S754_finite false mF eF) = true ->
  x = S754_infinity false \/ exists m e, x = S754_finite false m e.
Proof.
  intros H.
  destruct x as [s | s | | s m e]; try discriminate H.
  - destruct s; [discriminate H | left; reflexivity].
  - destruct s; [discriminate H |]. right. exists m, e. reflexivity.
Qed.

Lemma sub_min_ge_span (v : float) :
  valid v = true -> geb v f_12_6 = true ->
  geb (sub v f_9_0) span = true.
Proof.
  intros Hv Hge.
  destruct (geb_positive_form v _ _ Hge) as [-> | (mv & ev & ->)];
    [reflexivity |].
  unfold geb in Hge. fold (leb f_12_6 (S754_finite false mv ev)) in Hge.
  rewrite (OrderFacts.leb_units f_12_6 (S754_finite false mv ev)
             eq_refl Hv eq_refl eq_refl) in Hge.
  apply Z.leb_le in Hge.
  pose proof (valid_finite _ _ _ Hv) as [[Hev _] _].
  unfold f_9_0. rewrite sub_finite.
  set (ez := Z.min ev (-49)) in *.
  unfold span. apply normalize_ge; [reflexivity | unfold ez; lia |].
  cbn [cond_Zopp].
  rewrite Z.mul_sub_distr_r.
  rewrite <- !Z.mul_assoc, <- !Z.pow_add_r by (unfold ez; lia).
  replace (ev - ez + (ez + 1074)) with (ev + 1074) by lia.
  replace (-49 - ez + (ez + 1074)) with 1025 by lia.
  unfold f_12_6 in Hge. cbn [units cond_Zopp] in Hge.
  change (-49 + 1074) with 1025 in Hge.
  change (-51 + 1074) with 1023.
  change (2 ^ 1025) with (4 * 2 ^ 1023) in *.
  set (P := 2 ^ 1023) in *. clearbody P.
  lia.
Qed.

Lemma div_span_ge_1 (d : float) :
  valid d = true -> geb d span = true ->
  geb (div d span) f_1_0 = true.
Proof.
  intros Hd Hge.
  destruct (geb_positive_form d _ _ Hge) as [-> | (md & ed & ->)];
    [reflexivity |].
  unfold geb in Hge. fold (leb span (S754_finite false md ed)) in Hge.
  rewrite (OrderFacts.leb_units span (S754_finite false md ed)
             eq_refl Hd eq_refl eq_refl) in Hge.
  apply Z.leb_le in Hge.
  unfold span in Hge. cbn [units cond_Zopp] in Hge.
  change (-51 + 1074) with 1023 in Hge.
  pose proof (valid_finite _ _ _ Hd) as [[Hed1 Hed2] [Hmd Hnorm]].
  (* the exponent of [d] is at least that of the span *)
  assert (Hed : -51 <= ed).
  { destruct (Z_le_gt_dec (-51) ed) as [L | G]; [exact L | exfalso].
    assert (Hp : 0 < 2 ^ (ed + 1074)) by (apply Z.pow_pos_nonneg; lia).
    assert (Hs : 2 ^ 1023 = 2 ^ (1022 - (ed + 1074)) * 2 * 2 ^ (ed + 1074)).
    { rewrite <- (Z.pow_1_r 2) at 3.
      rewrite <- !Z.pow_add_r by lia. f_equal. lia. }
    assert (Hq : 0 < 2 ^ (1022 - (ed + 1074)))
      by (apply Z.pow_pos_nonneg; lia).
    rewrite Hs in Hge.
    change (2 ^ 53) with 9007199254740992 in Hmd.
    nia. }
  assert (Hmd52 : 2 ^ 52 <= Zpos md) by (apply Hnorm; lia).
  assert (Hdd : Zpos (digits2_pos md) = 53)
    by (apply digits2_unique; change (53 - 1) with 52; lia).
  unfold div, span. cbn [SFdiv xorb].
  destruct (div_core_spec md 8106479329266892 ed (-51)) as (H1 & H2 & H3 & _).
  rewrite H1.
  assert (Hqe : quot_exp md 8106479329266892 ed (-51) = ed - 2).
  { unfold quot_exp. rewrite Hdd, fexp_eq.
    change (Zpos (digits2_pos 8106479329266892)) with 53. lia. }
  assert (Hqn : quot_num md 8106479329266892 ed (-51) = Zpos md * 2 ^ 53).
  { unfold quot_num. rewrite Hqe. f_equal. f_equal. lia. }
  rewrite Hqe, Hqn in *.
  set (q := Zpos md * 2 ^ 53 / Zpos 8106479329266892) in *.
  unfold f_1_0. apply round_aux_ge; [reflexivity | exact H2 | lia | exact H3 |].
  change (-52 + 1074) with 1022.
  replace (ed - 2 + 1074) with (ed + 1072) by lia.
  (* [d >= span] in units of [2^-51] *)
  assert (Hds : Zpos 8106479329266892 <= Zpos md * 2 ^ (ed + 51)).
  { replace (ed + 1074) with ((ed + 51) + 1023) in Hge by lia.
    rewrite Z.pow_add_r in Hge by lia.
    assert (0 < 2 ^ 1023) by (apply Z.pow_pos_nonneg; lia).
    nia. }
  change (Zpos 4503599627370496) with (2 ^ 52).
  rewrite <- (Z.pow_add_r 2 52 1022) by lia.
  destruct (Z_le_gt_dec ed 2) as [Hsmall | Hbig].
  - set (k := 2 - ed).
    assert (Hk : 0 <= k <= 53) by (unfold k; lia).
    assert (Hpk : 0 < 2 ^ k) by (apply Z.pow_pos_nonneg; lia).
    assert (Hqk : 2 ^ k <= q).
    { apply Z.div_le_lower_bound; [lia |].
      replace (2 ^ 53) with (2 ^ (ed + 51) * 2 ^ k)
        by (rewrite <- Z.pow_add_r by lia; f_equal; unfold k; lia).
      set (X := 2 ^ (ed + 51)) in *. set (Y := 2 ^ k) in *. nia. }
    replace (52 + 1022) with (k + (ed + 1072)) by (unfold k; lia).
    rewrite (Z.pow_add_r 2 k (ed + 1072)) by lia.
    apply Z.mul_le_mono_nonneg_r; [apply Z.pow_nonneg; lia | exact Hqk].
  - assert (Hq1 : 1 <= q).
    { apply Z.div_le_lower_bound; [lia |].
      change (2 ^ 53) with 9007199254740992.
      change (2 ^ 52) with 4503599627370496 in Hmd52. lia. }
    apply Z.le_trans with (1 * 2 ^ (ed + 1072)).
    + rewrite Z.mul_1_l. apply Z.pow_le_mono_r; lia.
    + apply Z.mul_le_mono_nonneg_r; [apply Z.pow_nonneg; lia | exact Hq1].
Qed.

Lemma mul_100_ge_100 (q : float) :
  valid q = true -> geb q f_1_0 = true ->
  geb (mul q f_100) f_100 = true.
Proof.
  intros Hq Hge.
  destruct (geb_positive_form q _ _ Hge) as [-> | (mq & eq & ->)];
    [reflexivity |].
  unfold geb in Hge. fold (leb f_1_0 (S754_finite false mq eq)) in Hge.
  rewrite (OrderFacts.leb_units f_1_0 (S754_finite false mq eq)
             eq_refl Hq eq_refl eq_refl) in Hge.
  apply Z.leb_le in Hge.
  unfold f_1_0 in Hge. cbn [units cond_Zopp] in Hge.
  change (-52 + 1074) with 1022 in Hge.
  pose proof (valid_finite _ _ _ Hq) as [[He1 He2] [Hm Hnorm]].
  assert (Heq : -52 <= eq).
  { destruct (Z_le_gt_dec (-52) eq) as [L | G]; [exact L | exfalso].
    assert (Hp : 0 < 2 ^ (eq + 1074)) by (apply Z.pow_pos_nonneg; lia).
    assert (Hs : 2 ^ 1022 = 2 ^ (1021 - (eq + 1074)) * 2 * 2 ^ (eq + 1074)).
    { rewrite <- (Z.pow_1_r 2) at 3.
      rewrite <- !Z.pow_add_r by lia. f_equal. lia. }
    assert (Hq0 : 0 < 2 ^ (1021 - (eq + 1074)))
      by (apply Z.pow_pos_nonneg; lia).
    rewrite Hs in Hge.
    change (2 ^ 53) with 9007199254740992 in Hm.
    nia. }
  assert (Hmq : 2 ^ 52 <= Zpos mq) by (apply Hnorm; lia).
  assert (Hu : 2 ^ 1028 <= Zpos mq * 2 ^ (eq + 1028)).
  { replace (eq + 1074) with ((eq + 1028) + 46) in Hge by lia.
    rewrite (Z.pow_add_r 2 (eq + 1028) 46) in Hge by lia.
    change (Zpos 4503599627370496 * 2 ^ 1022) with (2 ^ 1028 * 2 ^ 46) in Hge.
    rewrite Z.mul_assoc in Hge.
    apply Z.mul_le_mono_pos_r in Hge; [exact Hge | reflexivity]. }
  unfold mul, f_100. cbn [SFmul xorb].
  apply round_aux_ge; [reflexivity | lia | lia | |].
  - rewrite fexp_eq.
    assert (Hprod : 2 ^ 52 <= Zpos (mq * 7036874417766400)).
    { rewrite Pos2Z.inj_mul. change (2 ^ 52) with 4503599627370496 in *. nia. }
    apply digits_ge_53 in Hprod. lia.
  - rewrite Pos2Z.inj_mul.
    replace (eq + -46 + 1074) with (eq + 1028) by lia.
    change (-46 + 1074) with 1028.
    set (P := 2 ^ 1028) in *. set (X := 2 ^ (eq + 1028)) in *.
    clearbody P X. nia.
Qed.

Lemma clamp_at_least_100 (x : float) :
  valid x = true -> geb x f_100 = true -> clamp x = Py.Int 100.
Proof.
  intros Hv Hge. rewrite clamp_cases.
  assert (Hlt : ltb x f_100 = false).
  { destruct (geb_positive_form x _ _ Hge) as [-> | (m & e & ->)];
      [reflexivity |].
    unfold geb in Hge. fold (leb f_100 (S754_finite false m e)) in Hge.
    rewrite (OrderFacts.leb_units f_100 (S754_finite false m e)
               eq_refl Hv eq_refl eq_refl) in Hge.
    rewrite (OrderFacts.ltb_units (S754_finite false m e) f_100
               Hv eq_refl eq_refl eq_refl).
    apply Z.leb_le in Hge. apply Z.ltb_ge. exact Hge. }
  rewrite Hlt. reflexivity.
Qed.

End Full.

(** X10 -- at and above the upper calibration bound the state of charge is
    exactly the integer 100 and the depth of discharge the integer 0:
    whenever [bus_v >= MAX_VOLTAGE] holds (plus infinity included), the
    three roundings of the interpolation never bring the result below 100,
    and pages 2 and 3 show 100% and 0%. *)
Theorem soc_is_100_from_max (bus_v : float) :
  F64.valid bus_v = true ->
  F64.geb bus_v (MAX_VOLTAGE constants) = true ->
  exists soc_v,
    soc constants bus_v = Py.Ok soc_v /\
    soc_v = Py.Int 100 /\
    dod soc_v = Py.Int 0 /\
    Py.int soc_v = Py.Ok 100 /\
    Py.int (dod soc_v) = Py.Ok 0.
Proof.
  intros Hv Hge.
  exists (Py.Int 100). split; [| repeat split].
  unfold soc. rewrite interpolation_constants.
  assert (Hd : F64.valid (F64.sub bus_v f_9_0) = true)
    by (apply Rounding.sub_valid; [exact Hv | reflexivity]).
  assert (Hq : F64.valid (F64.div (F64.sub bus_v f_9_0) span) = true)
    by (apply Rounding.div_valid; [exact Hd | reflexivity]).
  rewrite clamp_at_least_100; [reflexivity | |].
  - apply Rounding.mul_valid; [exact Hq | reflexivity].
  - apply mul_100_ge_100; [exact Hq |].
    apply div_span_ge_1; [exact Hd |].
    apply sub_min_ge_span; assumption.
Qed.

Lemma soc_is_100_from_max_witness :
  soc constants f_12_6 = Py.Ok (Py.Int 100).
Proof.
  destruct (soc_is_100_from_max f_12_6 eq_refl eq_refl)
    as (soc_v & Hs & -> & _).
  exact Hs.
Defined.

(** ** The two percentages of the display *)

Section Percentages.

Import F64 F64Facts Exact Rounding.

(** [int(x)] of a positive float with a negative exponent. *)
Lemma int_of_float_fraction (m : positive) (e : Z) :
  e < 0 ->
  Py.int_of_float (S754_finite false m e) = Py.Ok (Zpos m / 2 ^ (- e)).
Proof.
  intros He. destruct e as [| p | p]; try lia.
  cbn [Py.int_of_float cond_Zopp Z.opp]. reflexivity.
Qed.

(** 100, in units of [2^ex]. *)
Lemma hundred_units (ex : Z) :
  ex <= -46 -> m100 * 2 ^ (-46 - ex) = 100 * 2 ^ (- ex).
Proof.
  intros He. replace (- ex) with (46 + (-46 - ex)) by lia.
  rewrite Z.pow_add_r by lia. unfold m100. change (2 ^ 46) with 70368744177664.
  lia.
Qed.

(** The integer parts of [x] and of the rounded [100 - x] add up to 99 or
    to 100. *)
Lemma int_parts_100 (mx : positive) (ex : Z) :
  valid (S754_finite false mx ex) = true ->
  ltb (S754_finite false mx ex) f_100 = true ->
  exists n m,
    Py.int_of_float (S754_finite false mx ex) = Py.Ok n /\
    Py.int_of_float (sub f_100 (S754_finite false mx ex)) = Py.Ok m /\
    0 <= n /\ 0 <= m /\
    (n + m = 99 \/ n + m = 100).
Proof.
  intros Hv Hlt.
  destruct (below_100 mx ex Hv Hlt) as [[He1 He2] Hm].
  pose proof (valid_finite _ _ _ Hv) as [_ [Hmx _]].
  rewrite (hundred_units ex He2) in Hm.
  set (T := 2 ^ (- ex)) in *.
  assert (HT : 0 < T) by (apply Z.pow_pos_nonneg; lia).
  set (n := Zpos mx / T).
  assert (Hn : n * T <= Zpos mx < (n + 1) * T).
  { pose proof (Z.mul_div_le (Zpos mx) T HT) as D1.
    pose proof (Z.mul_succ_div_gt (Zpos mx) T HT) as D2.
    fold n in D1, D2. lia. }
  assert (Hn0 : 0 <= n) by (apply Z.div_pos; lia).
  destruct (sub_100_form mx ex Hv Hlt)
    as (md & ed & Hsub & [(Hed & Hmd) | (Hed & Hex & Hle & Herr)]).
  - (* the difference is exact *)
    rewrite (hundred_units ex He2) in Hmd. fold T in Hmd.
    set (W := 2 ^ (ex - ed)) in *.
    assert (HW : 0 < W) by (apply Z.pow_pos_nonneg; lia).
    assert (HU : 2 ^ (- ed) = T * W).
    { unfold T, W. rewrite <- Z.pow_add_r by lia. f_equal. lia. }
    exists n, ((100 * T - Zpos mx) / T).
    rewrite Hsub, !int_of_float_fraction by lia. fold T.
    rewrite HU, Hmd, Z.div_mul_cancel_r by lia.
    split; [reflexivity |]. split; [reflexivity |].
    set (m := (100 * T - Zpos mx) / T).
    assert (Hmm : m * T <= 100 * T - Zpos mx < (m + 1) * T).
    { pose proof (Z.mul_div_le (100 * T - Zpos mx) T HT) as D3.
      pose proof (Z.mul_succ_div_gt (100 * T - Zpos mx) T HT) as D4.
      fold m in D3, D4. lia. }
    split; [exact Hn0 |].
    split; [apply Z.div_pos; lia |].
    assert (n + m <= 100) by nia.
    assert (99 <= n + m) by nia.
    lia.
  - (* the difference is rounded *)
    rewrite (hundred_units ex He2) in Hle, Herr. fold T in Hle, Herr.
    pose proof (sub_valid f_100 _ eq_refl Hv) as Hvd. rewrite Hsub in Hvd.
    pose proof (valid_finite _ _ _ Hvd) as [[Hd1 Hd2] [Hmd Hnorm]].
    set (W := 2 ^ (ed - ex)) in *.
    assert (HW : 2 <= W).
    { unfold W. change 2 with (2 ^ 1) at 1. apply Z.pow_le_mono_r; lia. }
    set (G := 2 ^ (-46 - ex)) in *.
    assert (HG : 0 < G) by (apply Z.pow_pos_nonneg; lia).
    assert (HTG : T = 70368744177664 * G).
    { unfold T, G. change 70368744177664 with (2 ^ 46).
      rewrite <- Z.pow_add_r by lia. f_equal. lia. }
    change (2 ^ 53) with 9007199254740992 in *.
    (* the exponent of the difference is -47 or -46 *)
    assert (Hhi : ed <= -46).
    { destruct (Z_le_gt_dec ed (-46)) as [L | Gd]; [exact L | exfalso].
      assert (Hmd52 : 2 ^ 52 <= Zpos md) by (apply Hnorm; lia).
      change (2 ^ 52) with 4503599627370496 in Hmd52.
      assert (HWG : 2 * G <= W).
      { unfold W, G. change 2 with (2 ^ 1) at 1.
        rewrite <- Z.pow_add_r by lia. apply Z.pow_le_mono_r; lia. }
      nia. }
    assert (Hlo : -47 <= ed).
    { destruct (Z_le_gt_dec (-47) ed) as [L | Gd]; [exact L | exfalso].
      assert (HWG : 4 * W <= G).
      { unfold W, G. change 4 with (2 ^ 2) at 1.
        rewrite <- Z.pow_add_r by lia. apply Z.pow_le_mono_r; lia. }
      assert (HT49 : 562949953421312 <= T).
      { unfold T. change 562949953421312 with (2 ^ 49).
        apply Z.pow_le_mono_r; lia. }
      nia. }
    assert (HWG : G <= 2 * W).
    { unfold W, G.
      replace (2 * 2 ^ (ed - ex)) with (2 ^ (1 + (ed - ex)))
        by (rewrite Z.pow_add_r by lia; reflexivity).
      apply Z.pow_le_mono_r; lia. }
    set (U := 2 ^ (- ed)).
    assert (HU : 0 < U) by (apply Z.pow_pos_nonneg; lia).
    assert (HTU : T = U * W).
    { unfold T, U, W. rewrite <- Z.pow_add_r by lia. f_equal. lia. }
    exists n, (Zpos md / U).
    rewrite Hsub, !int_of_float_fraction by lia. fold T. fold U.
    split; [reflexivity |]. split; [reflexivity |].
    split; [exact Hn0 |].
    split; [apply Z.div_pos; lia |].
    set (V := Zpos md * W) in *.
    assert (Hge : (99 - n) * U <= Zpos md).
    { assert (H1 : 2 * ((99 - n) * T) < 2 * V + G) by lia.
      rewrite HTU in H1. unfold V in H1.
      assert (H2 : ((99 - n) * U) * W < (Zpos md + 1) * W) by nia.
      apply Z.mul_lt_mono_pos_r in H2; lia. }
    assert (Hlt2 : Zpos md < (101 - n) * U).
    { assert (H1 : 2 * V < 2 * ((101 - n) * T)) by lia.
      rewrite HTU in H1. unfold V in H1.
      assert (H2 : Zpos md * W < ((101 - n) * U) * W) by nia.
      apply Z.mul_lt_mono_pos_r in H2; lia. }
    assert (Hm1 : 99 - n <= Zpos md / U)
      by (apply Z.div_le_lower_bound; lia).
    assert (Hm2 : Zpos md / U < 101 - n)
      by (apply Z.div_lt_upper_bound; lia).
    lia.
Qed.

End Percentages.

(** X11 -- for every bus voltage the two percentages on the display,
    [int(soc)] on page 2 and [int(dod)] on page 3, add up to 99 or to 100,
    never to less and never to more, although the float sum [soc + dod] is
    always 100. *)
Theorem displayed_percentages_sum (bus_v : float) :
  F64.valid bus_v = true ->
  exists soc_v n m,
    soc constants bus_v = Py.Ok soc_v /\
    Py.int soc_v = Py.Ok n /\
    Py.int (dod soc_v) = Py.Ok m /\
    (n + m = 99 \/ n + m = 100) /\
    (forall z, soc_v = Py.Int z -> n + m = 100).
Proof.
  intros Hv.
  pose proof (interpolation_valid bus_v Hv) as Hvx.
  unfold soc. rewrite interpolation_constants.
  set (x := F64.mul (F64.div (F64.sub bus_v f_9_0) span) f_100) in *.
  clearbody x.
  exists (clamp x). rewrite clamp_cases.
  destruct (F64.ltb x f_100) eqn:E1; [destruct (F64.ltb f_0_0 x) eqn:E0 |].
  - destruct (positive_form x E0 E1) as (mx & ex & Hx). subst x.
    destruct (int_parts_100 mx ex Hvx E1) as (n & m & Hn & Hm & _ & _ & Hs).
    exists n, m. split; [reflexivity |]. split; [exact Hn |].
    split; [exact Hm |]. split; [exact Hs |].
    intros z Hz. discriminate Hz.
  - exists 0, 100. repeat split; try reflexivity. right. reflexivity.
  - exists 100, 0. repeat split; try reflexivity. right. reflexivity.
Qed.

Lemma displayed_percentages_sum_witness :
  exists soc_v n m,
    soc constants f_12_0 = Py.Ok soc_v /\
    Py.int soc_v = Py.Ok n /\ Py.int (dod soc_v) = Py.Ok m /\
    (n + m = 99 \/ n + m = 100).
Proof.
  destruct (displayed_percentages_sum f_12_0 eq_refl)
    as (soc_v & n & m & H1 & H2 & H3 & H4 & _).
  exists soc_v, n, m. repeat split; assumption.
Defined.

(** ** One iteration, from the readings to the display *)

(** X12 -- what one iteration shows, from the readings it takes.  A
    successful iteration reads the bus voltage, the current, the temperature
    and the humidity once each, and sends to the display the page of the
    page counter: the status and the impedance are those of that bus voltage
    and of that first current reading, the percentages are the integer parts
    of the SOC and DOD of that bus voltage; only the current of page 0 comes
    from a second access. *)
Theorem iteration_displays (cfg : config) (w : world) (s s' : state) :
  0 <= page s < 4 ->
  cycle cfg w s = (Py.Ok tt, s') ->
  exists bus_v current temp hum z soc_v l1 l2,
    ina219_bus_voltage w (n_bus_voltage s) = Py.Ok bus_v /\
    ina219_current w (n_current s) = Py.Ok current /\
    aht25_temperature w (n_temperature s) = Py.Ok temp /\
    aht25_relative_humidity w (n_humidity s) = Py.Ok hum /\
    impedance bus_v (F64.div current f_1000_0) = Py.Ok z /\
    soc cfg bus_v = Py.Ok soc_v /\
    lcd s' = lcd s ++ [Clear; WriteString l1; Crlf; WriteString l2] /\
    (page s = 0 ->
       l1 = line_status (get_battery_status cfg bus_v) /\
       exists current2,
         ina219_current w (S (n_current s)) = Py.Ok current2 /\
         l2 = line_vi bus_v current2) /\
    (page s = 1 ->
       l1 = line_status (get_battery_status cfg bus_v) /\
       l2 = line_th temp hum) /\
    (page s = 2 ->
       l1 = "SVM:OFF"%string /\
       exists n, Py.int soc_v = Py.Ok n /\ l2 = line_soc n) /\
    (page s = 3 ->
       l1 = "SVM:OFF"%string /\
       exists m, Py.int (dod soc_v) = Py.Ok m /\ l2 = line_dod m z).
Proof.
  intros Hp H. unfold cycle in H.
  apply bind_Ok in H. destruct H as ([] & s1 & H1 & H2).
  rewrite advance_spec in H2.
  destruct (sleep_fault w (n_sleep s1)); [discriminate H2 |].
  inversion H2; subst s'; clear H2.
  cbn [lcd tick_sleep set_page].
  unfold sample_and_show in H1.
  apply bind_Ok in H1. destruct H1 as (bus_v & s2 & R1 & H1).
  apply bind_Ok in H1. destruct H1 as (current & s3 & R2 & H1).
  rewrite truediv_1000 in H1.
  apply bind_Ok in H1. destruct H1 as (current_a & s4 & R3 & H1).
  apply bind_Ok in H1. destruct H1 as (z & s5 & R4 & H1).
  apply bind_Ok in H1. destruct H1 as (soc_v & s6 & R5 & H1).
  apply bind_Ok in H1. destruct H1 as (temp & s7 & R6 & H1).
  apply bind_Ok in H1. destruct H1 as (hum & s8 & R7 & H1).
  apply bind_Ok in H1. destruct H1 as (pg & s9 & R8 & H1).
  unfold read_bus_voltage in R1. inversion R1 as [[Rb Hs2]]. clear R1.
  subst s2.
  unfold read_current in R2. inversion R2 as [[Rc Hs3]]. clear R2.
  subst s3.
  unfold lift in R3, R4, R5.
  inversion R3; subst current_a s4; clear R3.
  inversion R4 as [[Rz Hs5]]; subst s5; clear R4.
  inversion R5 as [[Rs Hs6]]; subst s6; clear R5.
  unfold read_temperature in R6. inversion R6 as [[Rt Hs7]]. clear R6.
  subst s7.
  unfold read_relative_humidity in R7. inversion R7 as [[Rh Hs8]]. clear R7.
  subst s8.
  unfold get_page in R8. inversion R8; subst pg s9; clear R8.
  cbn [n_bus_voltage n_current n_temperature n_humidity page
       tick_bus_voltage tick_current tick_temperature tick_humidity]
    in Rb, Rc, Rt, Rh, H1.
  exists bus_v, current, temp, hum, z, soc_v.
  unfold show, bind, lcd_call, read_current, lift, ret in H1.
  cbn -[line_status line_vi line_th line_soc line_dod Py.int dod Z.eqb] in H1.
  assert (Hc : page s = 0 \/ page s = 1 \/ page s = 2 \/ page s = 3) by lia.
  destruct Hc as [Hc | [Hc | [Hc | Hc]]]; rewrite Hc in *;
    cbn -[line_status line_vi line_th line_soc line_dod Py.int dod] in H1;
    repeat run_step H1;
    inversion H1; subst s1; clear H1;
    cbn -[line_status line_vi line_th line_soc line_dod Py.int dod];
    eexists _, _;
    (repeat (split; [eassumption || reflexivity |]));
    (split; [rewrite <- !app_assoc; reflexivity |]);
    repeat split; try discriminate; try reflexivity;
    eexists; (split; [| reflexivity]);
    first [reflexivity | cbn in Heqr; exact Heqr].
Qed.

Lemma iteration_displays_witness :
  exists bus_v l1 l2,
    ina219_bus_voltage (steady f_12_0 f_500 f_25 f_40) 0 = Py.Ok bus_v /\
    lcd (snd (cycle constants (steady f_12_0 f_500 f_25 f_40) started)) =
      [Clear; WriteString l1; Crlf; WriteString l2].
Proof.
  destruct (iteration_displays constants (steady f_12_0 f_500 f_25 f_40)
              started
              (snd (cycle constants (steady f_12_0 f_500 f_25 f_40) started)))
    as (bus_v & current & temp & hum & z & soc_v & l1 & l2 & Hb & _ & _ & _
        & _ & _ & Hl & _).
  - cbn. lia.
  - vm_compute. reflexivity.
  - exists bus_v, l1, l2. split; [exact Hb | exact Hl].
Defined.

(** ** The computed lines and the width of the display *)

(** X13 -- the lines whose numbers the script computes itself always fit
    the 16 columns: for every bus voltage, line 1 of pages 0 and 1 (the
    status, whatever the thresholds) and line 2 of page 2 (the SOC
    percentage) have at most 16 characters; line 2 of page 3 has at most 16
    characters as soon as the impedance is below 99.95 ohm, because its DOD
    percentage never takes more than three digits. *)
Theorem computed_lines_fit (bus_v : float) :
  F64.valid bus_v = true ->
  exists soc_v n m,
    soc constants bus_v = Py.Ok soc_v /\
    Py.int soc_v = Py.Ok n /\
    Py.int (dod soc_v) = Py.Ok m /\
    (String.length (line_soc n) <= 16)%nat /\
    (forall z, z_in_range z -> (String.length (line_dod m z) <= 16)%nat) /\
    (forall cfg,
       (String.length (line_status (get_battery_status cfg bus_v)) <= 16)%nat).
Proof.
  intros Hv.
  pose proof (interpolation_valid bus_v Hv) as Hvx.
  assert (Hst : forall cfg,
    (String.length (line_status (get_battery_status cfg bus_v)) <= 16)%nat).
  { intros cfg. unfold get_battery_status.
    destruct (F64.geb bus_v (VOLTAGE_HEALTHY cfg));
      [| destruct (F64.geb bus_v (VOLTAGE_MODERATE cfg))];
      cbn; lia. }
  assert (Hfit : forall n m, 0 <= n -> 0 <= m -> n + m <= 100 ->
    (String.length (line_soc n) <= 16)%nat /\
    (forall z, z_in_range z -> (String.length (line_dod m z) <= 16)%nat)).
  { intros n m Hn Hm Hs. split.
    - apply line_soc_fits. lia.
    - intros z Hz. apply line_dod_fits; [lia | exact Hz]. }
  unfold soc. rewrite interpolation_constants.
  set (x := F64.mul (F64.div (F64.sub bus_v f_9_0) span) f_100) in *.
  clearbody x.
  exists (clamp x). rewrite clamp_cases.
  destruct (F64.ltb x f_100) eqn:E1; [destruct (F64.ltb f_0_0 x) eqn:E0 |].
  - destruct (positive_form x E0 E1) as (mx & ex & Hx). subst x.
    destruct (int_parts_100 mx ex Hvx E1)
      as (n & m & Hn & Hm & Hn0 & Hm0 & Hs).
    destruct (Hfit n m Hn0 Hm0 ltac:(lia)) as [F1 F2].
    exists n, m. split; [reflexivity |]. split; [exact Hn |].
    split; [exact Hm |]. split; [exact F1 |]. split; [exact F2 | exact Hst].
  - destruct (Hfit 0 100 ltac:(lia) ltac:(lia) ltac:(lia)) as [F1 F2].
    exists 0, 100. split; [reflexivity |]. split; [reflexivity |].
    split; [reflexivity |]. split; [exact F1 |]. split; [exact F2 | exact Hst].
  - destruct (Hfit 100 0 ltac:(lia) ltac:(lia) ltac:(lia)) as [F1 F2].
    exists 100, 0. split; [reflexivity |]. split; [reflexivity |].
    split; [reflexivity |]. split; [exact F1 |]. split; [exact F2 | exact Hst].
Qed.

Lemma computed_lines_fit_witness :
  exists n,
    (String.length (line_soc n) <= 16)%nat /\
    (String.length (line_status (get_battery_status constants f_12_0)) <= 16)%nat.
Proof.
  destruct (computed_lines_fit f_12_0 eq_refl)
    as (soc_v & n & m & _ & _ & _ & H1 & _ & H3).
  exists n. split; [exact H1 | apply H3].
Defined.
